(** * PDF outline extractor: a shallow embedding of [main.py]

    The extractor turns the text spans of a paginated document into a title
    and an outline of H1/H2/H3 headings.  This file embeds the class
    [PDFOutlineExtractor] and the batch driver [main] as Rocq functions and
    proves properties of the font-size classifier, of the heading
    classifier, of the outline normaliser and of the batch.

    Conventions of the embedding:
    - a Python [str] is the list of its Unicode code points ([str]); the
      Unicode tables of the Python runtime are a parameter ([Unicode]);
    - a font size is stored by the extractor as [round(size, 2)]; it is
      represented by the integer number of hundredths of a point, so that
      [10.0] is [1000], [0.1] is [10], [2.0] is [200] and so on, and its
      arithmetic is exact;
    - page coordinates are rationals ([Q]); the operations of [fitz.Rect]
      are a parameter ([Fitz]);
    - a Python [dict] is an association list in insertion order;
    - the mutable fields of the extractor are a record threaded through the
      methods, and a loop is a fold or a recursive function over the list
      it runs through, named after what it computes;
    - a function that can raise returns an [option], [None] standing for
      the exception; what is printed or written is returned as a list. *)

From Stdlib Require Import ZArith QArith Qabs Qminmax Lia String Ascii.
From stdpp Require Import base strings list gmap sorting.

Local Open Scope string_scope.
Local Open Scope list_scope.
Local Open Scope Z_scope.

(** ** Data model *)

(** A Python string. *)
Definition str : Type := list N.

(** A rectangle [(x0, y0, x1, y1)]. *)
Record rect : Type := Rect { x0 : Q; y0 : Q; x1 : Q; y1 : Q }.

(** One element of [pages_data]: the dict built by [extract_text_elements]. *)
Record span : Type := Span {
  text : str;
  font_size : Z;
  is_bold : bool;
  is_italic : bool;
  bbox : rect;
  page : Z;
  line_y0 : Q;
  line_y1 : Q;
  line_x0 : Q;
  line_x1 : Q
}.

(** The heading levels are the Python strings "H1", "H2" and "H3". *)
Definition level : Type := string.

(** [{"H1": 1, "H2": 2, "H3": 3}.get(l, 4)] *)
Definition level_rank (l : level) : Z :=
  if String.eqb l "H1" then 1
  else if String.eqb l "H2" then 2
  else if String.eqb l "H3" then 3
  else 4.

(** [heading_font_map]: a dict from font size to level. *)
Definition font_map : Type := list (Z * level).

(** [d[k] = v] on a dict: an existing key keeps its place. *)
Fixpoint dict_set (k : Z) (v : level) (d : font_map) : font_map :=
  match d with
  | [] => [(k, v)]
  | (k', v') :: d' =>
      if Z.eqb k' k then (k', v) :: d' else (k', v') :: dict_set k v d'
  end.

(** The fields of a [PDFOutlineExtractor]. *)
Record extractor : Type := Extractor {
  pages_data : list (list span);
  unique_font_sizes : gset Z;
  heading_font_map : font_map
}.

(** [__init__] *)
Definition init : extractor :=
  {| pages_data := []; unique_font_sizes := ∅; heading_font_map := [] |}.

(** ** FontSizeClassifier: [_determine_heading_font_map] *)

(** [sorted(list(self.unique_font_sizes), reverse=True)] *)
Definition sorted_desc (sizes : gset Z) : list Z :=
  merge_sort (flip Z.le) (elements sizes).

(** [exclude_font_size is not None and abs(fs - exclude_font_size) < 0.1] *)
Definition is_excluded (exclude_font_size : option Z) (fs : Z) : bool :=
  match exclude_font_size with
  | Some e => Z.abs (fs - e) <? 10
  | None => false
  end.

(** [exclude_font_size is None or abs(fs - exclude_font_size) >= 0.1] *)
Definition not_excluded (exclude_font_size : option Z) (fs : Z) : bool :=
  match exclude_font_size with
  | Some e => Z.abs (fs - e) >=? 10
  | None => true
  end.

Definition MIN_H1_H2_DIFF : Z := 200.
Definition MIN_H2_H3_DIFF : Z := 150.

(** The local variables of the method while it runs. *)
Record fm_state : Type := FmState {
  h1_fs : option Z;
  h2_fs : option Z;
  h3_fs : option Z;
  fm : font_map
}.

(** The [if]/[elif]/[elif] of the main loop, for a size that is not
    excluded. *)
Definition assign_level (st : fm_state) (fs : Z) : fm_state :=
  match h1_fs st, h2_fs st, h3_fs st with
  | None, _, _ =>
      {| h1_fs := Some fs; h2_fs := h2_fs st; h3_fs := h3_fs st;
         fm := dict_set fs "H1" (fm st) |}
  | Some h1, None, h3 =>
      if h1 - fs >=? MIN_H1_H2_DIFF then
        {| h1_fs := Some h1; h2_fs := Some fs; h3_fs := h3;
           fm := dict_set fs "H2" (fm st) |}
      else st
  | Some h1, Some h2, None =>
      if h2 - fs >=? MIN_H2_H3_DIFF then
        {| h1_fs := Some h1; h2_fs := Some h2; h3_fs := Some fs;
           fm := dict_set fs "H3" (fm st) |}
      else st
  | Some _, Some _, Some _ => st
  end.

Definition all_assigned (st : fm_state) : bool :=
  bool_decide (is_Some (h1_fs st)) && bool_decide (is_Some (h2_fs st))
  && bool_decide (is_Some (h3_fs st)).

(** The main loop over [significant_font_sizes], with its [continue] and
    [break]. *)
Fixpoint main_pass (exclude : option Z) (st : fm_state) (l : list Z)
  : fm_state :=
  match l with
  | [] => st
  | fs :: l' =>
      if is_excluded exclude fs then main_pass exclude st l'
      else
        let st' := assign_level st fs in
        if all_assigned st' then st' else main_pass exclude st' l'
  end.

(** Fallback for H1: the first size that is not excluded. *)
Fixpoint fallback_h1 (exclude : option Z) (st : fm_state) (l : list Z)
  : fm_state :=
  match l with
  | [] => st
  | fs :: l' =>
      if not_excluded exclude fs then
        {| h1_fs := Some fs; h2_fs := h2_fs st; h3_fs := h3_fs st;
           fm := dict_set fs "H1" (fm st) |}
      else fallback_h1 exclude st l'
  end.

(** [fs == h] where [h] may be [None]. *)
Definition eq_opt (fs : Z) (h : option Z) : bool :=
  match h with Some x => Z.eqb fs x | None => false end.

(** Fallback for H2: the first other size strictly below [h1]. *)
Fixpoint fallback_h2 (exclude : option Z) (h1 : Z) (st : fm_state)
  (l : list Z) : fm_state :=
  match l with
  | [] => st
  | fs :: l' =>
      if Z.eqb fs h1 || is_excluded exclude fs then fallback_h2 exclude h1 st l'
      else if fs <? h1 then
        {| h1_fs := h1_fs st; h2_fs := Some fs; h3_fs := h3_fs st;
           fm := dict_set fs "H2" (fm st) |}
      else fallback_h2 exclude h1 st l'
  end.

(** Fallback for H3: the first other size strictly below [h2]. *)
Fixpoint fallback_h3 (exclude : option Z) (h2 : Z) (st : fm_state)
  (l : list Z) : fm_state :=
  match l with
  | [] => st
  | fs :: l' =>
      if eq_opt fs (h1_fs st) || Z.eqb fs h2 || is_excluded exclude fs
      then fallback_h3 exclude h2 st l'
      else if fs <? h2 then
        {| h1_fs := h1_fs st; h2_fs := h2_fs st; h3_fs := Some fs;
           fm := dict_set fs "H3" (fm st) |}
      else fallback_h3 exclude h2 st l'
  end.

(** [if h1_fs is None and significant_font_sizes:] with its loop. *)
Definition h1_fallback (exclude : option Z) (significant : list Z)
  (st : fm_state) : fm_state :=
  match h1_fs st with
  | None => fallback_h1 exclude st significant
  | Some _ => st
  end.

(** [if h1_fs is not None and h2_fs is None:] with its loop. *)
Definition h2_fallback (exclude : option Z) (significant : list Z)
  (st : fm_state) : fm_state :=
  match h1_fs st, h2_fs st with
  | Some h1, None => fallback_h2 exclude h1 st significant
  | _, _ => st
  end.

(** [if h2_fs is not None and h3_fs is None:] with its loop. *)
Definition h3_fallback (exclude : option Z) (significant : list Z)
  (st : fm_state) : fm_state :=
  match h2_fs st, h3_fs st with
  | Some h2, None => fallback_h3 exclude h2 st significant
  | _, _ => st
  end.

(** The body of the method once [significant_font_sizes] is known to be
    non-empty: the map is reset, then the main loop and the three fallbacks
    run. *)
Definition classify_sizes (exclude : option Z) (significant : list Z)
  : fm_state :=
  let st0 := {| h1_fs := None; h2_fs := None; h3_fs := None; fm := [] |} in
  h3_fallback exclude significant
    (h2_fallback exclude significant
       (h1_fallback exclude significant
          (main_pass exclude st0 significant))).

Definition significant_font_sizes (sizes : gset Z) : list Z :=
  filter (λ s, 1000 ≤ s) (sorted_desc sizes).

Definition _determine_heading_font_map (self : extractor)
  (exclude_font_size : option Z) : extractor :=
  if decide (unique_font_sizes self = ∅) then self
  else
    match significant_font_sizes (unique_font_sizes self) with
    | [] => self
    | significant =>
        {| pages_data := pages_data self;
           unique_font_sizes := unique_font_sizes self;
           heading_font_map := fm (classify_sizes exclude_font_size significant) |}
    end.


(** ** OutlineNormalizer: the last loop of [identify_headings] *)

(** An entry of the outline: [{"level": ..., "text": ..., "page": ...}]. *)
Module Entry.
Record t : Type := mk { level : string; text : str; page : Z }.
End Entry.

(** [entry['level'] = l] *)
Definition set_level (l : string) (entry : Entry.t) : Entry.t :=
  Entry.mk l (Entry.text entry) (Entry.page entry).

(** The variables of the loop. *)
Record norm_state : Type := NormState {
  final_outline : list Entry.t;
  last_entry_text : str;
  last_entry_page : Z;
  last_entry_level_rank : Z
}.

Definition norm_init : norm_state :=
  {| final_outline := []; last_entry_text := []; last_entry_page := -1;
     last_entry_level_rank := 0 |}.

(** The level-jump test against [final_outline[-1]]: the entry as it is
    appended, with its rank. *)
Definition smooth (prev_entry entry : Entry.t) : Entry.t * Z :=
  let current_entry_level_rank := level_rank (Entry.level entry) in
  let prev_level_rank := level_rank (Entry.level prev_entry) in
  if Z.eqb (Entry.page entry) (Entry.page prev_entry)
     && (current_entry_level_rank <? prev_level_rank)
  then (entry, current_entry_level_rank)
  else if current_entry_level_rank >? prev_level_rank + 1 then
    if String.eqb (Entry.level prev_entry) "H1"
       && String.eqb (Entry.level entry) "H3"
    then (set_level "H2" entry, 2)
    else (entry, current_entry_level_rank)
  else (entry, current_entry_level_rank).

(** One iteration of [for entry in outline]. *)
Definition normalize_step (st : norm_state) (entry : Entry.t) : norm_state :=
  if bool_decide (Entry.text entry = last_entry_text st)
     && Z.eqb (Entry.page entry) (last_entry_page st)
  then st
  else
    let '(entry', rank) :=
      match last (final_outline st) with
      | Some prev_entry => smooth prev_entry entry
      | None => (entry, level_rank (Entry.level entry))
      end in
    {| final_outline := final_outline st ++ [entry'];
       last_entry_text := Entry.text entry';
       last_entry_page := Entry.page entry';
       last_entry_level_rank := rank |}.

Definition normalize_outline (outline : list Entry.t) : list Entry.t :=
  final_outline (foldl normalize_step norm_init outline).

(** ** Python strings *)

(** The Unicode tables behind [str.isspace] (also the regular-expression
    class [\s], and what [strip] and [split] remove), [str.isdecimal] (the
    class [\d]), [str.lower] and [str.upper].  They belong to the Python
    runtime, not to the program, and are kept abstract. *)
Class Unicode : Type := {
  isspace : N → bool;
  isdecimal : N → bool;
  lower : str → str;
  upper : str → str
}.

(** ASCII literals as Python strings. *)
Definition lit (s : string) : str :=
  map (λ a : ascii, N_of_ascii a) (list_ascii_of_string s).

Definition COLON : N := 58.
Definition PERIOD : N := 46.
Definition SPACE : N := 32.
Definition NEWLINE : N := 10.
(** U+2022, the bullet. *)
Definition BULLET : N := 8226.

(** [s.endswith(c)] for a one-character [c]. *)
Definition endswith (c : N) (s : str) : bool :=
  match last s with Some d => N.eqb d c | None => false end.


(** [needle in s] *)
Fixpoint contains (needle s : str) : bool :=
  bool_decide (take (length needle) s = needle)
  || match s with [] => false | _ :: s' => contains needle s' end.

(** [s.find(c)] for a one-character [c]: the index of its first occurrence,
    [None] for Python's [-1]. *)
Fixpoint find (c : N) (s : str) : option nat :=
  match s with
  | [] => None
  | d :: s' => if N.eqb d c then Some O else S <$> find c s'
  end.

(** [s.split(c)] for a one-character separator. *)
Fixpoint split_on (c : N) (s : str) : list str :=
  match s with
  | [] => [[]]
  | d :: s' =>
      if N.eqb d c then [] :: split_on c s'
      else match split_on c s' with
           | w :: ws => (d :: w) :: ws
           | [] => [[d]]
           end
  end.

(** [sep.join(parts)] *)
Fixpoint join (sep : str) (parts : list str) : str :=
  match parts with
  | [] => []
  | [p] => p
  | p :: ps => p ++ sep ++ join sep ps
  end.

(** [s.replace(old, new)] for a non-empty [old]: every occurrence, from the
    left, without overlap. *)
Fixpoint replace_fuel (fuel : nat) (old new s : str) : str :=
  match fuel with
  | O => s
  | S fuel' =>
      match s with
      | [] => []
      | c :: s' =>
          if bool_decide (take (length old) s = old)
          then new ++ replace_fuel fuel' old new (drop (length old) s)
          else c :: replace_fuel fuel' old new s'
      end
  end.

Definition replace (old new s : str) : str :=
  replace_fuel (S (length s)) old new s.

Section Strings.
Context {U : Unicode}.

(** [s.lstrip()] *)
Fixpoint lstrip (s : str) : str :=
  match s with
  | c :: s' => if isspace c then lstrip s' else s
  | [] => []
  end.

(** [s.rstrip()] *)
Definition rstrip (s : str) : str := reverse (lstrip (reverse s)).

(** [s.strip()] *)
Definition strip (s : str) : str := rstrip (lstrip s).

(** [s.split()]: the maximal runs of characters that are not whitespace.
    [word] is the run being read, in reverse. *)
Fixpoint split_go (word : str) (s : str) : list str :=
  match s with
  | [] => match word with [] => [] | _ => [reverse word] end
  | c :: s' =>
      if isspace c then
        match word with
        | [] => split_go [] s'
        | _ => reverse word :: split_go [] s'
        end
      else split_go (c :: word) s'
  end.

Definition split (s : str) : list str := split_go [] s.

(** [len(s.split())] *)
Definition word_count (s : str) : Z := Z.of_nat (length (split s)).

(** ** Regular expressions

    The patterns of the program use literals, character classes, [.],
    sequence, alternation, the greedy [*], [+] and [?], and the anchors
    [^] and [$].  The matcher backtracks in the order of Python's [re]:
    the left alternative first, the longest repetition first. *)
Inductive re : Type :=
  | Eps
  | Cls (p : N → bool)
  | Cat (r1 r2 : re)
  | Alt (r1 r2 : re)
  | Star (r : re)
  | Bol
  | Eol.

Definition Chr (c : N) : re := Cls (N.eqb c).
(** [.] matches any character but a newline. *)
Definition Dot : re := Cls (λ c, negb (N.eqb c NEWLINE)).
Definition Plus (r : re) : re := Cat r (Star r).
Definition Opt (r : re) : re := Alt r Eps.
Definition Digit : re := Cls isdecimal.
Definition Space : re := Cls isspace.
Definition Range (a b : N) : re := Cls (λ c, N.leb a c && N.leb c b).
Definition OneOf (cs : list N) : re := Cls (λ c, bool_decide (c ∈ cs)).
Fixpoint Str (s : str) : re :=
  match s with
  | [] => Eps
  | [c] => Chr c
  | c :: s' => Cat (Chr c) (Str s')
  end.
Fixpoint Cats (rs : list re) : re :=
  match rs with
  | [] => Eps
  | [r] => r
  | r :: rs' => Cat r (Cats rs')
  end.
Fixpoint Alts (rs : list re) : re :=
  match rs with
  | [] => Eps
  | [r] => r
  | r :: rs' => Alt r (Alts rs')
  end.

(** [re_run r at0 s k]: match [r] at the head of [s] and hand what is left
    to [k]; [at0] tells whether [s] is the whole subject (position 0).  The
    first success in backtracking order is returned.  An iteration of [*]
    has to consume a character. *)
Fixpoint re_run {A} (r : re) (at0 : bool) (s : str)
  (k : bool → str → option A) : option A :=
  match r with
  | Eps => k at0 s
  | Cls p =>
      match s with
      | c :: s' => if p c then k false s' else None
      | [] => None
      end
  | Cat r1 r2 => re_run r1 at0 s (λ at0' s', re_run r2 at0' s' k)
  | Alt r1 r2 =>
      match re_run r1 at0 s k with
      | Some x => Some x
      | None => re_run r2 at0 s k
      end
  | Star r1 =>
      (fix loop (fuel : nat) (at0 : bool) (s : str) : option A :=
         match fuel with
         | O => k at0 s
         | S fuel' =>
             match re_run r1 at0 s
                     (λ at0' s',
                        if (length s' <? length s)%nat
                        then loop fuel' at0' s' else None) with
             | Some x => Some x
             | None => k at0 s
             end
         end) (length s) at0 s
  | Bol => if at0 then k at0 s else None
  | Eol =>
      match s with
      | [] => k at0 s
      | [c] => if N.eqb c NEWLINE then k at0 s else None
      | _ => None
      end
  end.

(** [re.match(r, s)] as a truth value. *)
Definition re_match (r : re) (s : str) : bool :=
  bool_decide (is_Some (re_run r true s (λ _ _, Some tt))).

(** [re.fullmatch(r, s)] as a truth value. *)
Definition re_fullmatch (r : re) (s : str) : bool :=
  bool_decide (is_Some (re_run r true s
    (λ _ rest, match rest with [] => Some tt | _ => None end))).

(** [re.search(r, s)] as a truth value: a match at some position. *)
Fixpoint re_search_from (r : re) (at0 : bool) (s : str) : bool :=
  bool_decide (is_Some (re_run r at0 s (λ _ _, Some tt)))
  || match s with [] => false | _ :: s' => re_search_from r false s' end.

Definition re_search (r : re) (s : str) : bool := re_search_from r true s.

End Strings.

(** ** Numbers *)

(** A font size in points, as a rational. *)
Definition pt (fs : Z) : Q := (inject_Z fs / 100)%Q.

Definition Qltb (a b : Q) : bool := negb (Qle_bool b a).


(** [round(x, 2)], in hundredths: the nearest integer to [100 * x], ties
    to the even one. *)
Definition round2 (x : Q) : Z :=
  let n := Qnum x * 100 in
  let d := Z.pos (Qden x) in
  let q := n `div` d in
  let r := n `mod` d in
  match Z.compare (2 * r) d with
  | Lt => q
  | Gt => q + 1
  | Eq => if Z.even q then q else q + 1
  end.

(** ** The span source (PyMuPDF) *)

(** What [fitz.Rect] offers to the program.  [rect_truthy] is the truth
    value of a rectangle. *)
Class Fitz : Type := {
  rect_union : rect → rect → rect;
  rect_height : rect → Q;
  rect_intersects : rect → rect → bool;
  rect_almost_contains : rect → rect → bool;
  rect_truthy : rect → bool
}.

(** [page.get_text("dict")]: blocks of lines of spans. *)
Record raw_span : Type := RawSpan {
  span_size : Q;
  span_text : str;
  span_font : str;
  span_flags : Z;
  span_bbox : rect
}.
Record raw_line : Type := RawLine { line_bbox : rect; line_spans : list raw_span }.
Record raw_block : Type := RawBlock { block_type : Z; block_lines : list raw_line }.
Definition raw_page : Type := list raw_block.
Definition raw_doc : Type := list raw_page.

(** What the program prints. *)
Inductive message : Type :=
  | ErrorOpening (pdf_path : str)
  | Extracting (pdf_path : str)
  | IdentifyingHeadings
  | Scanning (input_dir : str)
  | NoPdfFound (input_dir : str)
  | Processing (filename : str)
  | Generated (filename path : str)
  | ErrorWriting (filename : str)
  | UnexpectedError (filename : str).

Section Extraction.
Context {U : Unicode} {F : Fitz}.

(** The dict appended for one span of a line on page [page_num]
    (0-based). *)
Definition element_of (page_num : nat) (line : raw_line) (sp : raw_span)
  : span :=
  {| text := strip (span_text sp);
     font_size := round2 (span_size sp);
     is_bold := contains (lit "bold") (lower (span_font sp))
                || negb (Z.land (span_flags sp) 16 =? 0);
     is_italic := contains (lit "italic") (lower (span_font sp))
                  || negb (Z.land (span_flags sp) 2 =? 0);
     bbox := span_bbox sp;
     page := Z.of_nat page_num + 1;
     line_y0 := y0 (line_bbox line);
     line_y1 := y1 (line_bbox line);
     line_x0 := x0 (line_bbox line);
     line_x1 := x1 (line_bbox line) |}.

(** The raw spans of a page with their lines, in reading order: those of
    the text blocks ([block['type'] == 0]). *)
Definition page_spans (p : raw_page) : list (raw_line * raw_span) :=
  b ← p;
  if block_type b =? 0
  then l ← block_lines b; (λ sp, (l, sp)) <$> line_spans l
  else [].

Definition page_elements_of (page_num : nat) (p : raw_page) : list span :=
  (λ '(l, sp), element_of page_num l sp) <$> page_spans p.

(** [extract_text_elements]: [opened] is what [fitz.open] gave, [None] when
    it raised.  Returns the new fields and what was printed. *)
Definition extract_text_elements (self : extractor) (pdf_path : str)
  (opened : option raw_doc) : extractor * list message :=
  match opened with
  | None => (self, [ErrorOpening pdf_path])
  | Some doc =>
      let all_pages_elements := imap page_elements_of doc in
      ({| pages_data := all_pages_elements;
          unique_font_sizes :=
            unique_font_sizes self
            ∪ list_to_set (font_size <$> concat all_pages_elements);
          heading_font_map := heading_font_map self |},
       [])
  end.

(** ** TitleDetector: [identify_document_title] *)

Definition UNTITLED : str := lit "Untitled Document".

(** The loop that finds the largest font size, from [max_font_size = 0]. *)
Definition max_font_size_of (elements : list span) : Z :=
  foldl (λ m el, if m <? font_size el then font_size el else m) 0 elements.

(** [list.sort(key=...)]: a stable insertion sort on a rational key. *)
Fixpoint insert_by (key : span → Q) (x : span) (l : list span) : list span :=
  match l with
  | [] => [x]
  | y :: l' =>
      if Qltb (key x) (key y) then x :: l else y :: insert_by key x l'
  end.
Definition sort_by (key : span → Q) (l : list span) : list span :=
  foldl (λ acc x, insert_by key x acc) [] l.

(** The variables of the merging loop. *)
Record title_state : Type := TitleState {
  document_title_lines : list str;
  last_y_bottom : Q;
  title_bbox : option rect
}.

(** The merging loop with its [break]. *)
Fixpoint merge_title (st : title_state) (elements : list span) : title_state :=
  match elements with
  | [] => st
  | element :: rest =>
      if bool_decide (document_title_lines st = [])
         || Qltb (y0 (bbox element) - last_y_bottom st)%Q
                 (pt (font_size element) * 1.5)%Q
      then
        merge_title
          {| document_title_lines := document_title_lines st ++ [text element];
             last_y_bottom := y1 (bbox element);
             title_bbox :=
               Some match title_bbox st with
                    | None => bbox element
                    | Some b => rect_union b (bbox element)
                    end |}
          rest
      else st
  end.

(** The result is [(title_text, title_font_size, title_bbox)]. *)
Definition identify_document_title (self : extractor)
  : str * option Z * option rect :=
  match pages_data self with
  | [] | [] :: _ => (UNTITLED, None, None)
  | first_page_elements :: _ =>
      let max_font_size := max_font_size_of first_page_elements in
      if max_font_size =? 0 then (UNTITLED, None, None)
      else
        let potential_title_elements :=
          filter (λ element, Z.abs (font_size element - max_font_size) < 10)
            first_page_elements in
        match potential_title_elements with
        | [] => (UNTITLED, None, None)
        | _ =>
            let st :=
              merge_title
                {| document_title_lines := []; last_y_bottom := (-1)%Q;
                   title_bbox := None |}
                (sort_by (λ x, y0 (bbox x)) potential_title_elements) in
            let final_title_text :=
              strip (join [SPACE] (document_title_lines st)) in
            (match final_title_text with [] => UNTITLED | _ => final_title_text end,
             Some max_font_size,
             match title_bbox st with
             | Some b => if rect_truthy b then Some b else None
             | None => None
             end)
        end
  end.

End Extraction.

(** ** BoilerplateFilter and LineAssembler: the first loop of
    [identify_headings] *)

Section Lines.
Context {U : Unicode} {F : Fitz}.

Definition AT : N := 64.
Definition HYPHEN : N := 45.
Definition a_z : re := Range 97 122.
Definition A_Z : re := Range 65 90.

(** [http[s]?://|www\.|@] *)
Definition URL_RE : re :=
  Alts [Cats [Str (lit "http"); Opt (Chr 115); Str (lit "://")];
        Str (lit "www.");
        Chr AT].

(** [^[a-z]+\.[a-z]+@] *)
Definition EMAIL_RE : re :=
  Cats [Bol; Plus a_z; Chr PERIOD; Plus a_z; Chr AT].

(** [department of|university|institute|college] *)
Definition AFFILIATION_RE : re :=
  Alts [Str (lit "department of"); Str (lit "university");
        Str (lit "institute"); Str (lit "college")].

(** [^[a-z]\.[a-z]\. [a-z]+$] *)
Definition INITIALS_RE : re :=
  Cats [Bol; a_z; Chr PERIOD; a_z; Chr PERIOD; Chr SPACE; Plus a_z; Eol].

(** [res math sci|journal of|proceedings of|math sci] *)
Definition JOURNAL_RE : re :=
  Alts [Str (lit "res math sci"); Str (lit "journal of");
        Str (lit "proceedings of"); Str (lit "math sci")].

(** [h\. t\. h[aà], a\. van tuyl] *)
Definition AUTHORS_RE : re :=
  Cats [Str (lit "h. t. h"); OneOf [97; 224]%N; Str (lit ", a. van tuyl")].

(** [^\s*[\d\s\.\-—–]+\s*$] *)
Definition SYMBOLS_RE : re :=
  Cats [Bol; Star Space;
        Plus (Cls (λ c, isdecimal c || isspace c
                        || bool_decide (c ∈ [PERIOD; HYPHEN; 8212; 8211]%N)));
        Star Space; Eol].

(** [^\s*page\s+\d+\s+of\s+\d+\s*$] *)
Definition PAGE_OF_RE : re :=
  Cats [Bol; Star Space; Str (lit "page"); Plus Space; Plus Digit; Plus Space;
        Str (lit "of"); Plus Space; Plus Digit; Star Space; Eol].

(** [^\d+\s+page\s+\d+\s+of\s+\d+$] *)
Definition NUM_PAGE_OF_RE : re :=
  Cats [Bol; Plus Digit; Plus Space; Str (lit "page"); Plus Space; Plus Digit;
        Plus Space; Str (lit "of"); Plus Space; Plus Digit; Eol].

(** [^\d+\s*:\s*\d+$] *)
Definition CLOCK_RE : re :=
  Cats [Bol; Plus Digit; Star Space; Chr COLON; Star Space; Plus Digit; Eol].

(** [^\d+$] *)
Definition DIGITS_RE : re := Cats [Bol; Plus Digit; Eol].

(** [^\s*[a-z]\d+:\s*$] *)
Definition TAG_RE : re :=
  Cats [Bol; Star Space; a_z; Plus Digit; Chr COLON; Star Space; Eol].

(** [^\s*[0-9\(\)\.,\-\–:]+\s*$] *)
Definition PUNCT_RE : re :=
  Cats [Bol; Star Space;
        Plus (Cls (λ c, (N.leb 48 c && N.leb c 57)
                        || bool_decide (c ∈ [40; 41; PERIOD; 44; HYPHEN; 8211; COLON]%N)));
        Star Space; Eol].

(** [^\s*[a-z]\d+\s*$] *)
Definition CODE_RE : re :=
  Cats [Bol; Star Space; a_z; Plus Digit; Star Space; Eol].

(** The tests that make the loop [continue] before an element reaches a
    line. *)
Definition is_boilerplate (page_height : Q) (element : span) : bool :=
  let text_lower := lower (text element) in
  let is_top_of_page := Qltb (line_y0 element) (page_height * 0.15)%Q in
  let is_bottom_of_page := Qltb (page_height * 0.85)%Q (line_y1 element) in
  re_search URL_RE text_lower
  || ((font_size element <? 1200)
      && (is_top_of_page || is_bottom_of_page)
      && (re_search EMAIL_RE text_lower
          || re_search AFFILIATION_RE text_lower
          || re_search INITIALS_RE text_lower
          || re_search JOURNAL_RE text_lower
          || re_search AUTHORS_RE text_lower))
  || ((re_fullmatch SYMBOLS_RE (text element)
         && (length (text element) <? 10)%nat
       || re_fullmatch PAGE_OF_RE text_lower
       || re_fullmatch NUM_PAGE_OF_RE text_lower
       || re_fullmatch CLOCK_RE text_lower
       || re_fullmatch DIGITS_RE (strip (text element)))
      && (is_top_of_page || is_bottom_of_page))
  || ((font_size element <? 1400)
      && (word_count (text element) <? 5)
      && bool_decide (upper (strip (text element)) = lit "RESEARCH")
      && is_top_of_page)
  || (re_fullmatch TAG_RE text_lower
      || re_fullmatch PUNCT_RE text_lower
      || re_fullmatch CODE_RE text_lower).

(** The variables of the loop. *)
Record line_state : Type := LineState {
  current_line_y0 : Q;
  temp_line_spans : list span;
  lines_with_spans : list (list span)
}.

(** One iteration of [for element in page_elements]. *)
Definition line_step (page_height : Q) (st : line_state) (element : span)
  : line_state :=
  if is_boilerplate page_height element then st
  else if Qltb 0.1 (Qabs (line_y0 element - current_line_y0 st))%Q then
    {| current_line_y0 := line_y0 element;
       temp_line_spans := [element];
       lines_with_spans := lines_with_spans st ++ [temp_line_spans st] |}
  else
    {| current_line_y0 := current_line_y0 st;
       temp_line_spans := temp_line_spans st ++ [element];
       lines_with_spans := lines_with_spans st |}.

(** The height of the union of the elements' boxes. *)
Definition page_height_of (first : span) (page_elements : list span) : Q :=
  rect_height (foldl (λ b el, rect_union b (bbox el)) (bbox first) page_elements).

(** [lines_with_spans] for one page.  Its first line is the still empty
    [temp_line_spans] whenever the first kept element opens a line. *)
Definition assemble_lines (page_elements : list span) : list (list span) :=
  match page_elements with
  | [] => []
  | first :: _ =>
      let st :=
        foldl (line_step (page_height_of first page_elements))
          {| current_line_y0 := (-1)%Q; temp_line_spans := [];
             lines_with_spans := [] |}
          page_elements in
      match temp_line_spans st with
      | [] => lines_with_spans st
      | _ => lines_with_spans st ++ [temp_line_spans st]
      end
  end.

End Lines.

(** ** HeadingClassifier: the second loop of [identify_headings] *)

Section Classifier.
Context {U : Unicode} {F : Fitz}.

(** [((\d+\.)+\d*|\d+)], the group of the numbering pattern. *)
Definition NUMBER_GROUP : re :=
  Alt (Cat (Plus (Cat (Plus Digit) (Chr PERIOD))) (Star Digit)) (Plus Digit).

Definition BULLET_CLASS : re := OneOf [BULLET; 42; HYPHEN]%N.

(** [^((\d+\.)+\d*|\d+)\s+.*$]: the text of group 1 when the pattern
    matches. *)
Definition numeric_pattern (s : str) : option str :=
  re_run (Cat Bol NUMBER_GROUP) true s
    (λ at0 rest,
       if bool_decide (is_Some (re_run (Cats [Plus Space; Star Dot; Eol])
                                  at0 rest (λ _ _, Some tt)))
       then Some (take (length s - length rest) s) else None).

(** [^[A-Z]\.\s+.*$] *)
Definition ALPHA_RE : re :=
  Cats [Bol; A_Z; Chr PERIOD; Plus Space; Star Dot; Eol].

(** [^[•\*\-]\s*.*$] *)
Definition BULLET_RE : re :=
  Cats [Bol; BULLET_CLASS; Star Space; Star Dot; Eol].

(** [^((\d+\.)+\d*|\d+|[A-Z])\s*,\s*.*$] *)
Definition COMMA_RE : re :=
  Cats [Bol; Alt NUMBER_GROUP A_Z; Star Space; Chr 44; Star Space;
        Star Dot; Eol].

(** [^((\d+\.)+\d*|\d+|[A-Z]|[•\*\-])\s*.*$] *)
Definition ITEM_RE : re :=
  Cats [Bol; Alts [NUMBER_GROUP; A_Z; BULLET_CLASS]; Star Space; Star Dot; Eol].

(** [(theorem|deﬁnition|remark|example|conjecture|lemma|proof)]; the second
    keyword is spelled with the ligature U+FB01. *)
Definition KEYWORD : re :=
  Alts [Str (lit "theorem"); Str (lit "de" ++ [64257%N] ++ lit "nition");
        Str (lit "remark"); Str (lit "example"); Str (lit "conjecture");
        Str (lit "lemma"); Str (lit "proof")].

(** The keys of [keyword_patterns], in order; every value is "H3". *)
Definition keyword_patterns : list (re * string) :=
  [ (Cats [Bol; KEYWORD; Plus Space; Plus Digit;
           Star (Cat (Chr PERIOD) (Plus Digit)); Star Space; Star Dot; Eol],
     "H3");
    (Cats [Bol; KEYWORD; Star Space; Chr COLON; Star Space; Star Dot; Eol],
     "H3");
    (Cats [Bol; KEYWORD; Star Space; Eol], "H3") ].

(** [" ".join([span['text'] for span in line_spans if span['text']]).strip()] *)
Definition full_text (line_spans : list span) : str :=
  strip (join [SPACE]
           (filter (λ t, t ≠ []) (text <$> line_spans))).

(** [Counter(l).most_common(1)[0][0]]: the value with the most occurrences,
    the first seen among equals; [0] for an empty list. *)
Definition count_of (x : Z) (l : list Z) : nat :=
  length (filter (λ y, y = x) l).
Definition most_common (l : list Z) : Z :=
  match l with
  | [] => 0
  | x :: _ =>
      foldl (λ best y, if (count_of best l <? count_of y l)%nat then y else best)
        x l
  end.

(** The variables that the rules read and overwrite. *)
Record cand : Type := Cand {
  text_to_classify : str;
  level_candidate : option string;
  is_potential_heading : bool
}.

(** The truth value of [level_candidate]. *)
Definition truthy (l : option string) : bool :=
  match l with
  | Some s => negb (String.eqb s "")
  | None => false
  end.

(** [{"H1":1, "H2":2, "H3":3}.get(level_candidate, 4)] *)
Definition rank_of (l : option string) : Z :=
  match l with
  | Some s => level_rank s
  | None => 4
  end.

(** [not level_candidate or rank > n] *)
Definition weaker_than (n : Z) (l : option string) : bool :=
  negb (truthy l) || (n <? rank_of l).

(** Rule 1: the first entry of the font map within 1.0pt. *)
Fixpoint font_level (fm : font_map) (most_common_font_size : Z)
  : option string :=
  match fm with
  | [] => None
  | (mapped_fs, level) :: fm' =>
      if Z.abs (most_common_font_size - mapped_fs) <=? 100 then Some level
      else font_level fm' most_common_font_size
  end.

Definition font_rule (fm : font_map) (most_common_font_size : Z)
  (full_line_text : str) : cand :=
  let level_candidate := font_level fm most_common_font_size in
  {| text_to_classify := full_line_text;
     level_candidate := level_candidate;
     is_potential_heading := truthy level_candidate |}.

(** Rule 2: numbering. *)
Definition numbering_rule (numeric : option str) (alpha : bool) (c : cand)
  : cand :=
  if bool_decide (is_Some numeric) || alpha then
    if re_match COMMA_RE (text_to_classify c) then
      {| text_to_classify := text_to_classify c;
         level_candidate := level_candidate c;
         is_potential_heading := false |}
    else if 20 <? word_count (text_to_classify c) then
      {| text_to_classify := text_to_classify c;
         level_candidate := level_candidate c;
         is_potential_heading := false |}
    else
      {| text_to_classify := text_to_classify c;
         level_candidate :=
           match numeric with
           | Some group1 =>
               let parts := split_on PERIOD group1 in
               if (length parts =? 3)%nat then Some "H3"
               else if (length parts =? 2)%nat then Some "H2"
               else if (length parts =? 1)%nat then Some "H1"
               else level_candidate c
           | None =>
               if weaker_than 1 (level_candidate c) then Some "H1"
               else level_candidate c
           end;
         is_potential_heading := true |}
  else c.

(** Rule 3: bullets. *)
Definition bullet_rule (bullet : bool) (c : cand) : cand :=
  if bullet then
    {| text_to_classify := text_to_classify c;
       level_candidate :=
         if weaker_than 3 (level_candidate c) then Some "H3"
         else level_candidate c;
       is_potential_heading := true |}
  else c.

(** Rule 4: the loop over the leading bold spans.  It gives
    [combined_prefix_text.strip()] when [bold_prefix_match] is set. *)
Fixpoint bold_prefix (combined_prefix_text : str) (spans : list span)
  : option str :=
  match spans with
  | [] => None
  | sp :: rest =>
      if is_bold sp then
        let combined := combined_prefix_text ++ text sp in
        if endswith COLON (strip combined) then
          match rest with
          | next :: _ =>
              if negb (is_bold next) then Some (strip combined)
              else bold_prefix combined rest
          | [] => Some (strip combined)
          end
        else bold_prefix combined rest
      else None
  end.

Definition bold_prefix_match_of (line_spans : list span) : option str :=
  match line_spans with
  | first :: _ => if is_bold first then bold_prefix [] line_spans else None
  | [] => None
  end.

Definition bold_prefix_rule (prefix : option str) (bullet : bool) (c : cand)
  : cand :=
  match prefix with
  | Some prefix_text =>
      {| text_to_classify := prefix_text;
         level_candidate :=
           if bullet then Some "H3"
           else if weaker_than 2 (level_candidate c) then Some "H2"
           else level_candidate c;
         is_potential_heading := true |}
  | None => c
  end.

(** Rule 5: the text before the first colon.  It gives
    [potential_heading_part + ":"] when [text_colon_match] is set. *)
Definition colon_split (full_line_text : str) : option str :=
  match find COLON full_line_text with
  | Some colon_idx =>
      let potential_heading_part := strip (take colon_idx full_line_text) in
      if (word_count potential_heading_part <? 10)
         && (colon_idx + 1 <? length full_line_text)%nat
      then
        let text_after_colon := strip (drop (colon_idx + 1) full_line_text) in
        if negb (re_match ITEM_RE text_after_colon)
        then Some (potential_heading_part ++ [COLON])
        else None
      else None
  | None => None
  end.

Definition colon_rule (split_text : option str) (c : cand) : cand :=
  match split_text with
  | Some heading_text =>
      {| text_to_classify := heading_text;
         level_candidate := Some "H3";
         is_potential_heading := true |}
  | None => c
  end.

(** Rule 6: the loop over [keyword_patterns]; it tests [text_lower], the
    variable left by the first loop.  It gives the level when
    [keyword_match] is set. *)
Fixpoint keyword_level (patterns : list (re * string)) (text_lower : str)
  (gate : bool) : option string :=
  match patterns with
  | [] => None
  | (pattern, level) :: patterns' =>
      if re_match pattern text_lower && gate then Some level
      else keyword_level patterns' text_lower gate
  end.

Definition keyword_rule (level : option string) (full_line_text : str)
  (c : cand) : cand :=
  match level with
  | Some l =>
      {| text_to_classify := full_line_text;
         level_candidate := Some l;
         is_potential_heading := true |}
  | None => c
  end.

Definition clear (c : cand) : cand :=
  {| text_to_classify := text_to_classify c;
     level_candidate := level_candidate c;
     is_potential_heading := false |}.

(** Rule 8: the test on the following line.  [None] stands for the
    [IndexError] of [next_line_spans[0]] on an empty line. *)
Definition body_follows (most_common_font_size : Z) (line_spans : list span)
  (first : span) (next_line_spans : list span) : option bool :=
  match next_line_spans with
  | [] => None
  | next_first :: _ =>
      let next_full_line_text := full_text next_line_spans in
      let next_line_y0 := line_y0 next_first in
      let current_line_y_bottom := y1 (bbox (List.last line_spans first)) in
      Some (Qltb (next_line_y0 - current_line_y_bottom)%Q
                 (pt most_common_font_size * 1.0)%Q
            && negb (existsb is_bold next_line_spans)
            && negb (re_match ITEM_RE next_full_line_text))
  end.

Definition bullet_lookahead (bullet : bool) (most_common_font_size : Z)
  (line_spans : list span) (first : span)
  (next : option (list span)) (c : cand) : option cand :=
  if bullet && bool_decide (level_candidate c = Some "H3") then
    let c1 := if (60 <? length (text_to_classify c))%nat then clear c else c in
    if is_potential_heading c1 then
      match next with
      | Some next_line_spans =>
          follows ← body_follows most_common_font_size line_spans first
                      next_line_spans;
          Some (if follows : bool then clear c1 else c1)
      | None => Some c1
      end
    else Some c1
  else Some c.

(** Rule 7: the acceptance filter, skipped when one of the rules 4 to 6
    matched. *)
Definition acceptance_filter (authoritative any_bold_in_line numbered
  bullet : bool) (most_common_font_size : Z) (ends_with_period : bool)
  (c : cand) : cand :=
  if authoritative then c
  else
    let c1 :=
      if negb any_bold_in_line && negb (numbered || bullet)
         && (most_common_font_size <? 1200)
      then clear c else c in
    if is_potential_heading c1 && negb ends_with_period then c1
    else if is_potential_heading c1 && ends_with_period then
      if negb numbered then
        if (most_common_font_size <? 1400) && negb any_bold_in_line
        then clear c1 else c1
      else c1
    else c1.

(** Rule 9, second branch: the leading bold run, when it is followed by a
    span that is not bold.  It gives [bold_segment_text]. *)
Fixpoint bold_segment (spans : list span) : str * bool :=
  match spans with
  | [] => ([], false)
  | sp :: rest =>
      if is_bold sp then
        let '(segment, followed) := bold_segment rest in
        (text sp ++ segment, followed)
      else ([], true)
  end.

Definition bold_fallback (line_spans : list span) (first : span)
  (full_line_text : str) (all_spans_bold bold_prefix_match : bool) (c : cand)
  : cand :=
  if all_spans_bold then
    if (length full_line_text <? 150)%nat && negb (endswith PERIOD full_line_text)
    then {| text_to_classify := text_to_classify c;
            level_candidate := Some "H3"; is_potential_heading := true |}
    else if (length full_line_text <? 50)%nat && endswith PERIOD full_line_text
    then {| text_to_classify := text_to_classify c;
            level_candidate := Some "H3"; is_potential_heading := true |}
    else c
  else if negb bold_prefix_match then
    if is_bold first then
      let '(bold_segment_text, followed) := bold_segment line_spans in
      if (0 <? length bold_segment_text)%nat
         && followed
         && (word_count bold_segment_text <? 10)
         && (negb (endswith PERIOD (strip bold_segment_text))
             || (length bold_segment_text <? 30)%nat)
      then {| text_to_classify := strip bold_segment_text;
              level_candidate := Some "H3"; is_potential_heading := true |}
      else c
    else c
  else c.

(** The variables after rules 1 to 3 (font map, numbering, bullets). *)
Definition rules_1_3 (fm : font_map) (line_spans : list span) : cand :=
  let full_line_text := full_text line_spans in
  let most_common_font_size := most_common (font_size <$> line_spans) in
  let numeric := numeric_pattern full_line_text in
  let alpha := re_match ALPHA_RE full_line_text in
  let bullet := re_match BULLET_RE full_line_text in
  bullet_rule bullet
    (numbering_rule numeric alpha
       (font_rule fm most_common_font_size full_line_text)).

(** The variables after rule 4 (bold prefix ending in a colon). *)
Definition rules_1_4 (fm : font_map) (line_spans : list span) : cand :=
  bold_prefix_rule (bold_prefix_match_of line_spans)
    (re_match BULLET_RE (full_text line_spans))
    (rules_1_3 fm line_spans).

(** What rule 5 finds: it only looks when no rule has fired yet. *)
Definition split_text_of (fm : font_map) (line_spans : list span)
  : option str :=
  if is_potential_heading (rules_1_4 fm line_spans) then None
  else colon_split (full_text line_spans).

(** The variables after rule 5 (text before a colon). *)
Definition rules_1_5 (fm : font_map) (line_spans : list span) : cand :=
  colon_rule (split_text_of fm line_spans) (rules_1_4 fm line_spans).

(** The body of [for i, line_spans in enumerate(lines_with_spans)] past
    its [continue], for the line [first :: rest]. *)
Definition classify_text_line (fm : font_map) (text_lower : str)
  (first : span) (rest : list span) (next : option (list span))
  : option (option Entry.t) :=
  let line_spans := first :: rest in
  let full_line_text := full_text line_spans in
  let most_common_font_size := most_common (font_size <$> line_spans) in
  let any_bold_in_line := existsb is_bold line_spans in
  let any_italic_in_line := existsb is_italic line_spans in
  let all_spans_bold := forallb is_bold line_spans in
  let page_num := page first in
  let numbered :=
    bool_decide (is_Some (numeric_pattern full_line_text))
    || re_match ALPHA_RE full_line_text in
  let bullet := re_match BULLET_RE full_line_text in
  let bold_prefix_match :=
    bool_decide (is_Some (bold_prefix_match_of line_spans)) in
  let text_colon_match :=
    bool_decide (is_Some (split_text_of fm line_spans)) in
  let c5 := rules_1_5 fm line_spans in
  let keyword :=
    if is_potential_heading c5 then None
    else keyword_level keyword_patterns text_lower
           (any_bold_in_line || any_italic_in_line
            || (word_count full_line_text <? 15)) in
  let keyword_match := bool_decide (is_Some keyword) in
  let c6 := keyword_rule keyword full_line_text c5 in
  let ends_with_period := endswith PERIOD (text_to_classify c6) in
  c8 ← (if is_potential_heading c6 then
          c7 ← bullet_lookahead bullet most_common_font_size line_spans
                 first next c6;
          Some (acceptance_filter
                  (bold_prefix_match || text_colon_match || keyword_match)
                  any_bold_in_line numbered bullet most_common_font_size
                  ends_with_period c7)
        else Some c6);
  let c9 :=
    if negb (is_potential_heading c8) && any_bold_in_line
    then bold_fallback line_spans first full_line_text all_spans_bold
           bold_prefix_match c8
    else c8 in
  Some (if is_potential_heading c9 && truthy (level_candidate c9)
        then match level_candidate c9 with
             | Some l => Some (Entry.mk l (text_to_classify c9) page_num)
             | None => None
             end
        else None).

(** The body of [for i, line_spans in enumerate(lines_with_spans)]:
    [next] is [lines_with_spans[i+1]] when [i + 1 < len(lines_with_spans)].
    The result is [None] for an [IndexError], [Some None] when nothing is
    appended and [Some (Some entry)] when [entry] is appended. *)
Definition classify_line (fm : font_map) (text_lower : str)
  (line_spans : list span) (next : option (list span))
  : option (option Entry.t) :=
  match full_text line_spans, line_spans with
  | [], _ | _, [] => Some None
  | _, first :: rest => classify_text_line fm text_lower first rest next
  end.

End Classifier.

(** ** [identify_headings], [process_pdf] and [main] *)

Section Pipeline.
Context {U : Unicode} {F : Fitz}.

(** The loop over the lines of one page, each with the line after it. *)
Fixpoint classify_lines (fm : font_map) (text_lower : str)
  (lines : list (list span)) : option (list Entry.t) :=
  match lines with
  | [] => Some []
  | line_spans :: rest =>
      appended ← classify_line fm text_lower line_spans (head rest);
      later ← classify_lines fm text_lower rest;
      Some (match appended with
            | Some entry => entry :: later
            | None => later
            end)
  end.

(** [text_lower] as the first loop leaves it: taken from the last element
    of the page, kept or not. *)
Definition stale_text_lower (page_elements : list span) : str :=
  match last page_elements with
  | Some element => lower (text element)
  | None => []
  end.

(** The entries appended for one page. *)
Definition classify_page (fm : font_map) (page_elements : list span)
  : option (list Entry.t) :=
  classify_lines fm (stale_text_lower page_elements)
    (assemble_lines page_elements).

(** The list [outline] before the normaliser runs. *)
Definition candidate_outline (self : extractor) : option (list Entry.t) :=
  @concat Entry.t <$> mapM (classify_page (heading_font_map self)) (pages_data self).

(** [identify_headings]; [None] when an exception escapes. *)
Definition identify_headings (self : extractor) : option (list Entry.t) :=
  normalize_outline <$> candidate_outline self.

(** The output artifact. *)
Record outline_document : Type := OutlineDocument {
  title : str;
  outline : list Entry.t
}.

(** The elements of the first page that survive the removal of the
    title. *)
Definition remove_title (title_font_size : Z) (title_rect : rect)
  (page_elements : list span) : list span :=
  filter (λ element,
            negb (rect_intersects (bbox element) title_rect)
            || (bool_decide (10 < Z.abs (font_size element - title_font_size))
                && negb (rect_almost_contains (bbox element) title_rect))
            = true)
    page_elements.

(** [process_pdf]: what is printed, and the extractor with the returned
    dict unless an exception escapes. *)
Definition process_pdf (self : extractor) (input_pdf_path : str)
  (opened : option raw_doc)
  : list message * option (extractor * outline_document) :=
  let '(self1, printed) := extract_text_elements self input_pdf_path opened in
  let '(title_text, title_font_size, title_bbox) :=
    identify_document_title self1 in
  let filtered : option extractor :=
    match title_text, title_bbox with
    | _ :: _, Some title_rect =>
        match title_font_size with
        | Some size =>
            Some {| pages_data :=
                      match pages_data self1 with
                      | first_page :: others =>
                          remove_title size title_rect first_page :: others
                      | [] => []
                      end;
                    unique_font_sizes := unique_font_sizes self1;
                    heading_font_map := heading_font_map self1 |}
        | None => None
        end
    | _, _ => Some self1
    end in
  let result :=
    self2 ← filtered;
    let self3 := _determine_heading_font_map self2 title_font_size in
    headings ← identify_headings self3;
    Some (self3, {| title := title_text; outline := headings |}) in
  ([Extracting input_pdf_path] ++ printed
   ++ match filtered with Some _ => [IdentifyingHeadings] | None => [] end,
   result).




Definition input_dir : str := lit "input".





End Pipeline.

(** ** Fixtures for the examples *)

(** An extractor that has seen the given font sizes and has not built its
    map yet. *)
Definition with_sizes (sizes : list Z) : extractor :=
  {| pages_data := []; unique_font_sizes := list_to_set sizes;
     heading_font_map := [] |}.


(** Unicode tables for the examples: the white space of [str.isspace], the
    ASCII digits, and the case mappings of the ASCII letters.  On ASCII
    text they agree with Python's. *)
Definition ascii_isspace (c : N) : bool :=
  bool_decide (c ∈ [9; 10; 11; 12; 13; 28; 29; 30; 31; 32; 133; 160; 5760;
                    8232; 8233; 8239; 8287; 12288]%N)
  || (N.leb 8192 c && N.leb c 8202).
Definition ascii_isdecimal (c : N) : bool := N.leb 48 c && N.leb c 57.
Definition ascii_lower (s : str) : str :=
  (λ c, if N.leb 65 c && N.leb c 90 then c + 32 else c)%N <$> s.
Definition ascii_upper (s : str) : str :=
  (λ c, if N.leb 97 c && N.leb c 122 then c - 32 else c)%N <$> s.

Definition ascii_tables : Unicode :=
  {| isspace := ascii_isspace; isdecimal := ascii_isdecimal;
     lower := ascii_lower; upper := ascii_upper |}.

(** Rectangles for the examples: the usual reading of union, height,
    overlap and containment. *)
Definition plain_rects : Fitz :=
  {| rect_union a b :=
       {| x0 := Qmin (x0 a) (x0 b); y0 := Qmin (y0 a) (y0 b);
          x1 := Qmax (x1 a) (x1 b); y1 := Qmax (y1 a) (y1 b) |};
     rect_height r := (y1 r - y0 r)%Q;
     rect_intersects a b :=
       Qltb (x0 a) (x1 b) && Qltb (x0 b) (x1 a)
       && Qltb (y0 a) (y1 b) && Qltb (y0 b) (y1 a);
     rect_almost_contains a b :=
       Qle_bool (x0 a) (x0 b) && Qle_bool (y0 a) (y0 b)
       && Qle_bool (x1 b) (x1 a) && Qle_bool (y1 b) (y1 a);
     rect_truthy r :=
       negb (Qeq_bool (x0 r) 0 && Qeq_bool (y0 r) 0
             && Qeq_bool (x1 r) 0 && Qeq_bool (y1 r) 0) |}.

(** A span of text on a line whose box is [(0, top, 500, top + 12)]. *)
Definition mk_span (t : str) (size : Z) (bold italic : bool) (pg : Z)
  (top : Q) : span :=
  {| text := t; font_size := size; is_bold := bold; is_italic := italic;
     bbox := Rect 0 top 500 (top + 12);
     page := pg; line_y0 := top; line_y1 := (top + 12)%Q;
     line_x0 := 0; line_x1 := 500 |}.

(** An extractor holding the given pages and font map. *)
Definition with_pages (pages : list (list span)) (fm : font_map) : extractor :=
  {| pages_data := pages;
     unique_font_sizes := list_to_set (font_size <$> concat pages);
     heading_font_map := fm |}.

(** A raw span set in a regular face, on a line of its own whose box is
    [(0, top, 500, top + 20)]. *)
Definition mk_raw_line (t : str) (size : Q) (top : Q) : raw_line :=
  {| line_bbox := Rect 0 top 500 (top + 20);
     line_spans :=
       [{| span_size := size; span_text := t; span_font := lit "Times-Roman";
           span_flags := 0; span_bbox := Rect 0 top 500 (top + 20) |}] |}.

(** A one-page document: a title, a numbered heading and a line of body
    text. *)
Definition sample_doc : raw_doc :=
  [[{| block_type := 0;
       block_lines :=
         [mk_raw_line (lit "A Study of Outlines") 24 50;
          mk_raw_line (lit " 1 Introduction ") 16 100;
          mk_raw_line (lit "Outlines are useful.") 11 130] |}]].


(** The extractor after [process_pdf] has run on [sample_doc]. *)
Definition sample_extractor : extractor :=
  match (process_pdf (U := ascii_tables) (F := plain_rects) init
           (lit "input/sample.pdf") (Some sample_doc)).2 with
  | Some (self, _) => self
  | None => init
  end.


(** A line with a bold prefix ending in a colon and no bullet. *)
Definition background_line : list span :=
  [mk_span (lit "Background:") 1100 true false 1 300;
   mk_span (lit "This paper studies") 1100 false false 1 300].


(** ** Invariants used in the proofs *)

(** What the method maintains: the levels are assigned in the order H1, H2,
    H3, to strictly decreasing sizes, each of which satisfies [P]. *)
Definition ranked (P : Z → Prop) (st : fm_state) : Prop :=
  match h1_fs st, h2_fs st, h3_fs st with
  | None, None, None => fm st = []
  | Some a, None, None => fm st = [(a, "H1")] ∧ P a
  | Some a, Some b, None =>
      fm st = [(a, "H1"); (b, "H2")] ∧ b < a ∧ P a ∧ P b
  | Some a, Some b, Some c =>
      fm st = [(a, "H1"); (b, "H2"); (c, "H3")] ∧ c < b ∧ b < a
      ∧ P a ∧ P b ∧ P c
  | _, _, _ => False
  end.


(** The sizes the method may assign: significant and not excluded. *)
Definition eligible (exclude : option Z) (significant : list Z) (fs : Z)
  : Prop :=
  fs ∈ significant ∧ is_excluded exclude fs = false.

(** The normaliser as a function that emits the kept entries one by one:
    [prev] is [final_outline[-1]] when there is one, [lt] and [lp] are
    [last_entry_text] and [last_entry_page]. *)
Fixpoint normalize_from (prev : option Entry.t) (lt : str) (lp : Z)
  (outline : list Entry.t) : list Entry.t :=
  match outline with
  | [] => []
  | entry :: rest =>
      if bool_decide (Entry.text entry = lt) && Z.eqb (Entry.page entry) lp
      then normalize_from prev lt lp rest
      else
        let entry' :=
          match prev with
          | Some prev_entry => (smooth prev_entry entry).1
          | None => entry
          end in
        entry' :: normalize_from (Some entry') (Entry.text entry')
                    (Entry.page entry') rest
  end.

(** No entry labelled H1 is directly followed by one labelled H3. *)
Fixpoint no_skip (prev : option Entry.t) (out : list Entry.t) : Prop :=
  match out with
  | [] => True
  | e :: out' =>
      match prev with
      | Some p => ¬ (Entry.level p = "H1" ∧ Entry.level e = "H3")
      | None => True
      end ∧ no_skip (Some e) out'
  end.

(** [last_entry_text] and [last_entry_page] are those of the last kept
    entry. *)
Definition last_tracked (st : norm_state) : Prop :=
  match last (final_outline st) with
  | Some e => last_entry_text st = Entry.text e ∧ last_entry_page st = Entry.page e
  | None => last_entry_text st = [] ∧ last_entry_page st = -1
  end.

Section Ink.
Context {U : Unicode}.

(** A string with a character that is not white space. *)
Definition has_ink (s : str) : Prop := Exists (λ c, isspace c = false) s.

(** A string as [strip] leaves it: empty, or with such a character. *)
Definition clean (s : str) : Prop := s = [] ∨ has_ink s.

(** The levels of the output artifact. *)
Definition is_level (l : string) : Prop := l = "H1" ∨ l = "H2" ∨ l = "H3".

(** A candidate whose text is not empty and whose level, when set, is one
    of the three. *)
Definition good (c : cand) : Prop :=
  text_to_classify c ≠ []
  ∧ match level_candidate c with Some l => is_level l | None => True end.

(** A font map whose values are levels. *)
Definition levels_ok (fm : font_map) : Prop := Forall (λ kl, is_level kl.2) fm.

(** Every span text is as [strip] leaves it. *)
Definition clean_spans (spans : list span) : Prop :=
  Forall (λ sp, clean (text sp)) spans.

End Ink.

Section Provenance.
Context {U : Unicode} {F : Fitz}.

(** [pages_data] as [extract_text_elements] builds it: the spans of the
    page at index [idx] carry the page number [idx + 1], and their texts
    are stripped. *)
Definition well_extracted (pages : list (list span)) : Prop :=
  ∀ idx page_elements, pages !! idx = Some page_elements →
    Forall (λ sp, page sp = Z.of_nat idx + 1 ∧ clean (text sp)) page_elements.

(** [entry] is what the classifier appended for [line], up to the
    demotion of its level by the normaliser. *)
Definition appended_for (fm : font_map) (line : list span) (entry : Entry.t)
  : Prop :=
  ∃ text_lower next e0,
    classify_line fm text_lower line next = Some (Some e0)
    ∧ (entry = e0 ∨ entry = set_level "H2" e0).

(** [entry] comes from a line of the page at index [idx], and carries the
    page number of the first span of that line, which is [idx + 1]. *)
Definition from_line_of_page (fm : font_map) (pages : list (list span))
  (idx : nat) (entry : Entry.t) : Prop :=
  ∃ page_elements first rest,
    pages !! idx = Some page_elements
    ∧ (first :: rest) ∈ assemble_lines page_elements
    ∧ appended_for fm (first :: rest) entry
    ∧ Entry.page entry = page first
    ∧ page first = Z.of_nat idx + 1.

(** An entry of the output artifact as it should be: one of the three
    levels, a text that is not empty, and the page number of the first span
    of the line it was appended for, the 1-based number of that line's
    page. *)
Definition well_formed_entry (fm : font_map) (pages : list (list span))
  (entry : Entry.t) : Prop :=
  (Entry.level entry = "H1" ∨ Entry.level entry = "H2"
   ∨ Entry.level entry = "H3")
  ∧ Entry.text entry ≠ []
  ∧ ∃ idx, from_line_of_page fm pages idx entry
      ∧ Entry.page entry = Z.of_nat idx + 1 ∧ 1 ≤ Entry.page entry.

End Provenance.

(** What the loop over the elements of a page maintains: the lines are made
    of elements that satisfy [P], and only the first line can be empty. *)
Definition lines_inv (P : span → Prop) (st : line_state) : Prop :=
  Forall (Forall P) (lines_with_spans st)
  ∧ Forall P (temp_line_spans st)
  ∧ Forall (λ l, l ≠ []) (tail (lines_with_spans st))
  ∧ (lines_with_spans st ≠ [] → temp_line_spans st ≠ []).


(** ** Definitions used to state further properties *)



(** The tests the loops of [_determine_heading_font_map] make on a size
    [fs]: not excluded; not excluded and at least [d] below [h]; not
    excluded and below [h]. *)
Definition free (exclude : option Z) (fs : Z) : bool :=
  negb (is_excluded exclude fs).

(** The local variables of [_determine_heading_font_map] before its
    loops. *)
Definition fm_init : fm_state :=
  {| h1_fs := None; h2_fs := None; h3_fs := None; fm := [] |}.

(** No entry repeats the (text, page) pair of the entry before it; [lt]
    and [lp] are the pair before the first entry. *)
Fixpoint no_repeat (lt : str) (lp : Z) (out : list Entry.t) : Prop :=
  match out with
  | [] => True
  | e :: out' =>
      ¬ (Entry.text e = lt ∧ Entry.page e = lp)
      ∧ no_repeat (Entry.text e) (Entry.page e) out'
  end.

(** What the normaliser may do to an entry [e0] it keeps: nothing, or
    turn its level from H3 to H2. *)
Definition kept_as (e e0 : Entry.t) : Prop :=
  e = e0 ∨ (Entry.level e0 = "H3" ∧ e = set_level "H2" e0).

(** The elements that the loop over a page has kept so far, in order. *)
Definition kept_so_far (st : line_state) : list span :=
  concat (lines_with_spans st) ++ temp_line_spans st.

(** The line top of [sp] is within 0.1 of [y]. *)
Definition near (y : Q) (sp : span) : Prop :=
  (Qabs (line_y0 sp - y) <= 0.1)%Q.

(** A line whose spans all lie within 0.1 of one line top: that of its
    first span, or the -1 that [current_line_y0] starts from. *)
Definition coherent (line : list span) : Prop :=
  match line with
  | [] => True
  | first :: _ =>
      Forall (near (line_y0 first)) line ∨ Forall (near (-1)) line
  end.

(** What the loop over a page maintains about line tops. *)
Definition tops_inv (st : line_state) : Prop :=
  Forall coherent (lines_with_spans st)
  ∧ Forall (near (current_line_y0 st)) (temp_line_spans st)
  ∧ (current_line_y0 st = (-1)%Q
     ∨ ∃ first rest, temp_line_spans st = first :: rest
                     ∧ current_line_y0 st = line_y0 first).

(** The level of a candidate is H1 only when [S] holds. *)
Definition h1_only_when (S : Prop) (c : cand) : Prop :=
  level_candidate c = Some "H1" → S.


(** ** Further fixtures *)

(** A two-page document: a title, a numbered heading and a line of body
    text on page 1; a numbered heading and a line of body text on page 2. *)
Definition two_page_doc : raw_doc :=
  [[{| block_type := 0;
       block_lines :=
         [mk_raw_line (lit "A Study of Outlines") 24 50;
          mk_raw_line (lit "1 Introduction") 16 100;
          mk_raw_line (lit "Outlines are useful.") 11 130] |}];
   [{| block_type := 0;
       block_lines :=
         [mk_raw_line (lit "2 Methods") 16 50;
          mk_raw_line (lit "We read the fonts.") 11 80] |}]].

(** The result of [process_pdf] on [two_page_doc]. *)
Definition two_page_run
  : list message * option (extractor * outline_document) :=
  process_pdf (U := ascii_tables) (F := plain_rects) init
    (lit "input/two.pdf") (Some two_page_doc).

Definition two_page_extractor : extractor :=
  match two_page_run.2 with
  | Some (self, _) => self
  | None => init
  end.

(** A document of two pages without text: a picture, and nothing. *)
Definition picture_doc : raw_doc :=
  [[{| block_type := 1; block_lines := [] |}]; []].


(** A candidate that is marked as a heading has a level. *)
Definition committed (c : cand) : Prop :=
  is_potential_heading c = true → truthy (level_candidate c) = true.

(** The characters of the class [[0-9\(\)\.,\-\–:]]. *)
Definition digit_or_punctuation (c : N) : bool :=
  (N.leb 48 c && N.leb c 57)
  || bool_decide (c ∈ [40; 41; PERIOD; 44; HYPHEN; 8211; COLON]%N).

(** * Properties *)

(** ** Examples *)

Example numbered_line :
  identify_headings (U := ascii_tables) (F := plain_rects)
    (with_pages [[mk_span (lit "1.2 Methods") 1600 false false 1 300]]
       [(1600, "H1")])
  = Some [Entry.mk "H2" (lit "1.2 Methods") 1].
Proof. vm_compute. reflexivity. Qed.

Example font_map_three_levels :
  heading_font_map
    (_determine_heading_font_map (with_sizes [1200; 2400; 900; 1600; 1400; 1000])
       (Some 2400))
  = [(1600, "H1"); (1400, "H2"); (1200, "H3")].
Proof. vm_compute. reflexivity. Qed.

Example font_map_fallbacks :
  heading_font_map
    (_determine_heading_font_map (with_sizes [1200; 1100; 1050]) None)
  = [(1200, "H1"); (1100, "H2"); (1050, "H3")].
Proof. vm_compute. reflexivity. Qed.

Example normalize_demotes :
  normalize_outline
    [Entry.mk "H1" (lit "A") 1; Entry.mk "H3" (lit "B") 2;
     Entry.mk "H3" (lit "B") 2; Entry.mk "H3" (lit "C") 2]
  = [Entry.mk "H1" (lit "A") 1; Entry.mk "H2" (lit "B") 2;
     Entry.mk "H3" (lit "C") 2].
Proof. vm_compute. reflexivity. Qed.

(** ** The font-size classifier *)

Section FontSizeClassifier.
Variable exclude : option Z.

(** Both spellings of the exclusion test agree. *)
Lemma not_excluded_negb fs : not_excluded exclude fs = negb (is_excluded exclude fs).
Proof.
  unfold not_excluded, is_excluded. destruct exclude as [e|]; [|done].
  destruct (Z.ltb_spec (Z.abs (fs - e)) 10), (Z.geb_spec (Z.abs (fs - e)) 10);
    simpl; try done; lia.
Qed.

Ltac ranked_cases st :=
  let a := fresh "a" in let b := fresh "b" in let c := fresh "c" in
  let m := fresh "m" in
  destruct st as [[a|] [b|] [c|] m]; unfold ranked in *; simpl in *;
  try done.

Ltac eqb_cases :=
  repeat match goal with
  | |- context [Z.eqb ?x ?y] => destruct (Z.eqb_spec x y); try lia
  | |- context [Z.geb ?x ?y] => destruct (Z.geb_spec x y); try lia
  | |- context [Z.ltb ?x ?y] => destruct (Z.ltb_spec x y); try lia
  end.

Lemma assign_level_ranked P st fs :
  ranked P st → P fs → ranked P (assign_level st fs).
Proof.
  intros Hst Hfs. ranked_cases st; unfold assign_level, MIN_H1_H2_DIFF,
    MIN_H2_H3_DIFF; simpl; destruct_and?; subst.
  - destruct (Z.geb_spec (b - fs) 150); simpl; [|done].
    eqb_cases. simpl. eqb_cases. simpl. repeat split; try done; lia.
  - destruct (Z.geb_spec (a - fs) 200); simpl; [|done].
    eqb_cases. simpl. repeat split; try done; lia.
  - done.
Qed.

Lemma main_pass_ranked P l : ∀ st,
  ranked P st →
  Forall (λ fs, is_excluded exclude fs = false → P fs) l →
  ranked P (main_pass exclude st l).
Proof.
  induction l as [|fs l IH]; intros st Hst Hl; simpl; [done|].
  apply Forall_cons in Hl as [Hfs Hl].
  destruct (is_excluded exclude fs) eqn:Hex; [by apply IH|].
  pose proof (assign_level_ranked P st fs Hst (Hfs eq_refl)) as Hst'.
  destruct (all_assigned _); [done|]. by apply IH.
Qed.

Lemma fallback_h1_ranked P l : ∀ st,
  ranked P st → h1_fs st = None →
  Forall (λ fs, is_excluded exclude fs = false → P fs) l →
  ranked P (fallback_h1 exclude st l).
Proof.
  induction l as [|fs l IH]; intros st Hst Hnone Hl; simpl; [done|].
  apply Forall_cons in Hl as [Hfs Hl].
  rewrite not_excluded_negb.
  destruct (is_excluded exclude fs) eqn:Hex; simpl; [by apply IH|].
  ranked_cases st. subst m. simpl. auto.
Qed.

Lemma fallback_h2_ranked P l : ∀ st h1,
  ranked P st → h1_fs st = Some h1 → h2_fs st = None →
  Forall (λ fs, is_excluded exclude fs = false → P fs) l →
  ranked P (fallback_h2 exclude h1 st l).
Proof.
  induction l as [|fs l IH]; intros st h1 Hst H1 H2 Hl; simpl; [done|].
  apply Forall_cons in Hl as [Hfs Hl].
  destruct (Z.eqb_spec fs h1); simpl; [by apply IH|].
  destruct (is_excluded exclude fs) eqn:Hex; simpl; [by apply IH|].
  destruct (Z.ltb_spec fs h1); [|by apply IH].
  ranked_cases st. destruct_and?; simplify_eq.
  simpl. eqb_cases. auto.
Qed.

Lemma fallback_h3_ranked P l : ∀ st h2,
  ranked P st → h2_fs st = Some h2 → h3_fs st = None →
  Forall (λ fs, is_excluded exclude fs = false → P fs) l →
  ranked P (fallback_h3 exclude h2 st l).
Proof.
  induction l as [|fs l IH]; intros st h2 Hst H2 H3 Hl; simpl; [done|].
  apply Forall_cons in Hl as [Hfs Hl].
  destruct (eq_opt fs (h1_fs st) || (fs =? h2) || is_excluded exclude fs)
    eqn:Hskip; [by apply IH|].
  apply orb_false_iff in Hskip as [Hskip Hex].
  apply orb_false_iff in Hskip as [_ Hne].
  destruct (Z.ltb_spec fs h2); [|by apply IH].
  ranked_cases st. destruct_and?; simplify_eq.
  simpl. eqb_cases. simpl. eqb_cases. simpl. repeat split; auto; lia.
Qed.

Lemma eligible_all significant :
  Forall (λ fs, is_excluded exclude fs = false → eligible exclude significant fs)
    significant.
Proof. apply Forall_forall. intros fs Hin Hex. by split. Qed.

Lemma h1_fallback_ranked significant st :
  ranked (eligible exclude significant) st →
  ranked (eligible exclude significant) (h1_fallback exclude significant st).
Proof.
  intros Hst. unfold h1_fallback. destruct (h1_fs st) eqn:E; [done|].
  apply fallback_h1_ranked; auto using eligible_all.
Qed.

Lemma h2_fallback_ranked significant st :
  ranked (eligible exclude significant) st →
  ranked (eligible exclude significant) (h2_fallback exclude significant st).
Proof.
  intros Hst. unfold h2_fallback. destruct (h1_fs st) eqn:E1; [|done].
  destruct (h2_fs st) eqn:E2; [done|].
  apply fallback_h2_ranked; auto using eligible_all.
Qed.

Lemma h3_fallback_ranked significant st :
  ranked (eligible exclude significant) st →
  ranked (eligible exclude significant) (h3_fallback exclude significant st).
Proof.
  intros Hst. unfold h3_fallback. destruct (h2_fs st) eqn:E2; [|done].
  destruct (h3_fs st) eqn:E3; [done|].
  apply fallback_h3_ranked; auto using eligible_all.
Qed.

(** The whole method keeps the invariant, for the sizes it was given that
    are not excluded. *)
Lemma classify_sizes_ranked significant :
  ranked (eligible exclude significant) (classify_sizes exclude significant).
Proof.
  unfold classify_sizes.
  apply h3_fallback_ranked, h2_fallback_ranked, h1_fallback_ranked.
  apply main_pass_ranked; [done|apply eligible_all].
Qed.

(** The shape of a ranked map, read off its entries. *)
Lemma ranked_entries P st k l :
  ranked P st → (k, l) ∈ fm st →
  P k ∧ (l = "H1" ∨ l = "H2" ∨ l = "H3")
  ∧ (∀ k' l', (k', l') ∈ fm st → level_rank l < level_rank l' → k' < k)
  ∧ (∀ k', (k', l) ∈ fm st → k' = k).
Proof.
  intros Hst Hin. ranked_cases st; destruct_and?; subst.
  all: repeat (apply elem_of_cons in Hin as [Hin|Hin]; [simplify_eq|]);
    try (by apply elem_of_nil in Hin).
  all: split_and!; [by auto..| |].
  all: try (intros k' l' Hin' Hlt;
    repeat (apply elem_of_cons in Hin' as [Hin'|Hin'];
            [simplify_eq; vm_compute in Hlt; try done; try lia|]);
    by apply elem_of_nil in Hin').
  all: intros k' Hin';
    repeat (apply elem_of_cons in Hin' as [Hin'|Hin']; [by simplify_eq|]);
    by apply elem_of_nil in Hin'.
Qed.

End FontSizeClassifier.

(** Membership in the significant sizes. *)
Lemma elem_of_significant sizes fs :
  fs ∈ significant_font_sizes sizes ↔ fs ∈ sizes ∧ 1000 ≤ fs.
Proof.
  unfold significant_font_sizes, sorted_desc.
  rewrite list_elem_of_filter, merge_sort_Permutation, elem_of_elements.
  tauto.
Qed.

(** The map the method leaves behind, on an extractor whose map is still
    the empty one of [__init__]. *)
Lemma determined_map_ranked self exclude :
  heading_font_map self = [] →
  ∃ st, heading_font_map (_determine_heading_font_map self exclude) = fm st
    ∧ ranked (λ fs, (fs ∈ unique_font_sizes self ∧ 1000 ≤ fs)
                        ∧ is_excluded exclude fs = false) st.
Proof.
  intros Hempty.
  set (st0 := {| h1_fs := None; h2_fs := None; h3_fs := None; fm := [] |}).
  unfold _determine_heading_font_map.
  destruct (decide _); [by exists st0|].
  destruct (significant_font_sizes (unique_font_sizes self)) as [|s l] eqn:E;
    [by exists st0|].
  exists (classify_sizes exclude (s :: l)). split; [done|].
  pose proof (classify_sizes_ranked exclude (s :: l)) as H.
  rewrite <- E in *. clear E. unfold eligible in H.
  destruct (classify_sizes _ _) as [[a|] [b|] [c|] m];
    unfold ranked in *; simpl in *; try done;
    repeat setoid_rewrite elem_of_significant in H; naive_solver.
Qed.

(** The H1 assignment survives the rest of the method. *)
Lemma assign_level_h1 st fs : is_Some (h1_fs (assign_level st fs)).
Proof.
  destruct st as [[a|] [b|] [c|] m]; unfold assign_level; simpl;
    repeat case_match; simpl; eauto.
Qed.

Lemma main_pass_h1_kept exclude l : ∀ st,
  is_Some (h1_fs st) → is_Some (h1_fs (main_pass exclude st l)).
Proof.
  induction l as [|fs l IH]; intros st Hst; simpl; [done|].
  destruct (is_excluded exclude fs); [by apply IH|].
  destruct (all_assigned _); [|apply IH]; apply assign_level_h1.
Qed.

Lemma main_pass_h1 exclude l : ∀ st,
  Exists (λ fs, is_excluded exclude fs = false) l →
  is_Some (h1_fs (main_pass exclude st l)).
Proof.
  induction l as [|fs l IH]; intros st Hex; simpl; [by apply Exists_nil in Hex|].
  apply Exists_cons in Hex as [Hfs|Hl].
  - rewrite Hfs. destruct (all_assigned _);
      [|apply main_pass_h1_kept]; apply assign_level_h1.
  - destruct (is_excluded exclude fs); [by apply IH|].
    destruct (all_assigned _);
      [|apply main_pass_h1_kept]; apply assign_level_h1.
Qed.








(** C5: on an extractor whose map is still the empty one of [__init__],
    the sizes that [_determine_heading_font_map] maps to H1, H2 and H3 are
    strictly decreasing (the H1 size is above the H2 size, which is above
    the H3 size, whenever both levels of a pair are assigned, and each level
    has at most one size), and no size below 10.0pt is a key of the map. *)
Theorem font_map_levels_strictly_ranked self exclude :
  heading_font_map self = [] →
  let m := heading_font_map (_determine_heading_font_map self exclude) in
  (∀ k1 k2, (k1, "H1") ∈ m → (k2, "H2") ∈ m → k2 < k1)
  ∧ (∀ k2 k3, (k2, "H2") ∈ m → (k3, "H3") ∈ m → k3 < k2)
  ∧ (∀ k1 k3, (k1, "H1") ∈ m → (k3, "H3") ∈ m → k3 < k1)
  ∧ (∀ k k' l, (k, l) ∈ m → (k', l) ∈ m → k = k')
  ∧ (∀ k l, (k, l) ∈ m → 1000 ≤ k ∧ (l = "H1" ∨ l = "H2" ∨ l = "H3")).
Proof.
  intros Hempty m.
  destruct (determined_map_ranked self exclude Hempty) as (st & Hm & Hst).
  subst m. rewrite Hm. split_and!.
  - intros k1 k2 H1 H2.
    destruct (ranked_entries _ st k1 "H1" Hst H1) as (_ & _ & Hlt & _).
    by apply (Hlt k2 "H2").
  - intros k2 k3 H2 H3.
    destruct (ranked_entries _ st k2 "H2" Hst H2) as (_ & _ & Hlt & _).
    by apply (Hlt k3 "H3").
  - intros k1 k3 H1 H3.
    destruct (ranked_entries _ st k1 "H1" Hst H1) as (_ & _ & Hlt & _).
    by apply (Hlt k3 "H3").
  - intros k k' l Hin Hin'.
    destruct (ranked_entries _ st k' l Hst Hin') as (_ & _ & _ & Huniq).
    by apply Huniq.
  - intros k l Hin.
    destruct (ranked_entries _ st k l Hst Hin) as (((_ & ?) & _) & ? & _).
    done.
Qed.

(** The theorem at a document with sizes 24 (the title), 16, 14, 12, 10
    and 9. *)
Lemma font_map_levels_strictly_ranked_witness :
  let m := [(1600, "H1"); (1400, "H2"); (1200, "H3")] in
  heading_font_map
    (_determine_heading_font_map
       (with_sizes [1200; 2400; 900; 1600; 1400; 1000]) (Some 2400)) = m
  ∧ (∀ k1 k2, (k1, "H1") ∈ m → (k2, "H2") ∈ m → k2 < k1)
  ∧ (∀ k2 k3, (k2, "H2") ∈ m → (k3, "H3") ∈ m → k3 < k2)
  ∧ (∀ k1 k3, (k1, "H1") ∈ m → (k3, "H3") ∈ m → k3 < k1)
  ∧ (∀ k k' l, (k, l) ∈ m → (k', l) ∈ m → k = k')
  ∧ (∀ k l, (k, l) ∈ m → 1000 ≤ k ∧ (l = "H1" ∨ l = "H2" ∨ l = "H3")).
Proof.
  split; [vm_compute; reflexivity|].
  apply (font_map_levels_strictly_ranked
           (with_sizes [1200; 2400; 900; 1600; 1400; 1000]) (Some 2400)).
  reflexivity.
Defined.

(** C6: on an extractor whose map is still the empty one of [__init__],
    no key of the map built by [_determine_heading_font_map] with the
    title's font size excluded is within 0.1pt of that size; this covers
    the main loop and the three fallback assignments. *)
Theorem title_size_never_mapped self title_font_size k l :
  heading_font_map self = [] →
  (k, l) ∈ heading_font_map
             (_determine_heading_font_map self (Some title_font_size)) →
  10 ≤ Z.abs (k - title_font_size).
Proof.
  intros Hempty Hin.
  destruct (determined_map_ranked self (Some title_font_size) Hempty)
    as (st & Hm & Hst).
  rewrite Hm in Hin.
  destruct (ranked_entries _ st k l Hst Hin) as ((_ & Hex) & _).
  simpl in Hex. by apply Z.ltb_ge in Hex.
Qed.

(** The theorem at a title of size 16.5 among sizes 16.5, 16.55, 16 and
    12: 16.55 is skipped and 16 becomes H1. *)
Lemma title_size_never_mapped_witness :
  heading_font_map
    (_determine_heading_font_map (with_sizes [1650; 1600; 1655; 1200])
       (Some 1650))
  = [(1600, "H1"); (1200, "H2")]
  ∧ 10 ≤ Z.abs (1600 - 1650).
Proof.
  split; [vm_compute; reflexivity|].
  apply (title_size_never_mapped (with_sizes [1650; 1600; 1655; 1200])
           1650 1600 "H1").
  - reflexivity.
  - vm_compute. constructor.
Defined.




(** ** The outline normaliser *)

(** The only change [smooth] makes: an H3 after an H1 becomes an H2,
    whatever the pages. *)
Lemma smooth_fst prev entry :
  (smooth prev entry).1 =
    if String.eqb (Entry.level prev) "H1" && String.eqb (Entry.level entry) "H3"
    then set_level "H2" entry else entry.
Proof.
  destruct prev as [lp tp pp], entry as [le te pe]. unfold smooth. simpl.
  destruct (String.eqb_spec lp "H1") as [->|], (String.eqb_spec le "H3") as [->|];
    simpl; repeat case_match; try done.
  all: rewrite andb_false_r in *; done.
Qed.

Lemma smooth_text prev entry : Entry.text (smooth prev entry).1 = Entry.text entry.
Proof. rewrite smooth_fst. by case_match. Qed.

Lemma smooth_page prev entry : Entry.page (smooth prev entry).1 = Entry.page entry.
Proof. rewrite smooth_fst. by case_match. Qed.

Lemma smooth_idem prev entry :
  (smooth prev (smooth prev entry).1).1 = (smooth prev entry).1.
Proof.
  rewrite !smooth_fst.
  destruct (String.eqb (Entry.level prev) "H1"); simpl; [|done].
  destruct (String.eqb (Entry.level entry) "H3") eqn:E; simpl; [done|].
  by rewrite E.
Qed.

Lemma smooth_no_skip prev entry :
  ¬ (Entry.level prev = "H1" ∧ Entry.level (smooth prev entry).1 = "H3").
Proof.
  rewrite smooth_fst. intros [H1 H3]. rewrite H1 in H3. simpl in H3.
  destruct (String.eqb_spec (Entry.level entry) "H3"); simpl in *; done.
Qed.

(** The loop computes [normalize_from]. *)
Lemma foldl_normalize_step outline : ∀ st,
  final_outline (foldl normalize_step st outline) =
  final_outline st ++
    normalize_from (last (final_outline st)) (last_entry_text st)
      (last_entry_page st) outline.
Proof.
  induction outline as [|entry rest IH]; intros st; simpl.
  { by rewrite app_nil_r. }
  rewrite IH. unfold normalize_step.
  destruct (bool_decide _ && _); [done|].
  destruct (last (final_outline st)) as [prev|] eqn:E.
  - destruct (smooth prev entry) as [entry' rank] eqn:Es. simpl.
    by rewrite last_snoc, <- app_assoc.
  - simpl. by rewrite last_snoc, <- app_assoc.
Qed.

Lemma normalize_outline_from outline :
  normalize_outline outline = normalize_from None [] (-1) outline.
Proof. unfold normalize_outline. by rewrite foldl_normalize_step. Qed.

Lemma normalize_from_idem outline : ∀ prev lt lp,
  normalize_from prev lt lp (normalize_from prev lt lp outline)
  = normalize_from prev lt lp outline.
Proof.
  induction outline as [|entry rest IH]; intros prev lt lp; simpl; [done|].
  destruct (bool_decide _ && _) eqn:Edup; [apply IH|].
  simpl.
  assert (∀ e', Entry.text e' = Entry.text entry →
                Entry.page e' = Entry.page entry →
                bool_decide (Entry.text e' = lt) && (Entry.page e' =? lp) = false)
    as Hkeep.
  { intros e' -> ->. done. }
  destruct prev as [prev|].
  - rewrite Hkeep by auto using smooth_text, smooth_page.
    rewrite smooth_idem. f_equal. apply IH.
  - rewrite Hkeep by done. f_equal. apply IH.
Qed.

Lemma normalize_from_no_skip outline : ∀ prev lt lp,
  no_skip prev (normalize_from prev lt lp outline).
Proof.
  induction outline as [|entry rest IH]; intros prev lt lp; simpl; [done|].
  destruct (bool_decide _ && _); [apply IH|].
  simpl. split; [|apply IH].
  destruct prev as [prev|]; [apply smooth_no_skip|done].
Qed.

Lemma no_skip_lookup out : ∀ prev i a b,
  no_skip prev out → out !! i = Some a → out !! S i = Some b →
  ¬ (Entry.level a = "H1" ∧ Entry.level b = "H3").
Proof.
  induction out as [|e out IH]; intros prev i a b Hns Ha Hb; [done|].
  destruct Hns as [_ Hns]. destruct i as [|i]; simpl in *.
  - injection Ha as ->. destruct out as [|e' out]; [done|].
    simpl in Hb. injection Hb as ->. by destruct Hns.
  - by eapply IH.
Qed.

(** C7: the normaliser (removal of consecutive repeats of a (text, page)
    pair, then level-jump smoothing) is idempotent. *)
Theorem normalize_outline_idempotent outline :
  normalize_outline (normalize_outline outline) = normalize_outline outline.
Proof. rewrite !normalize_outline_from. apply normalize_from_idem. Qed.

(** The loop keeps [last_entry_text] and [last_entry_page] in step with the
    last kept entry. *)
Lemma normalize_step_tracked st entry :
  last_tracked st → last_tracked (normalize_step st entry).
Proof.
  intros Hst. unfold normalize_step.
  destruct (bool_decide _ && _); [done|].
  destruct (match last (final_outline st) with
            | Some prev_entry => smooth prev_entry entry
            | None => (entry, level_rank (Entry.level entry))
            end) as [entry' rank].
  unfold last_tracked. simpl. by rewrite last_snoc.
Qed.

Lemma foldl_normalize_tracked outline : ∀ st,
  last_tracked st → last_tracked (foldl normalize_step st outline).
Proof.
  induction outline as [|e l IH]; intros st Hst; simpl; [done|].
  by apply IH, normalize_step_tracked.
Qed.

(** C1, as stated, fails: an H3 that follows an H1 on another page is
    demoted as well. *)
Lemma h3_on_next_page_is_demoted :
  ¬ (∀ t1 t2 p1 p2, p1 ≠ p2 →
       normalize_outline [Entry.mk "H1" t1 p1; Entry.mk "H3" t2 p2]
       = [Entry.mk "H1" t1 p1; Entry.mk "H3" t2 p2]).
Proof.
  intros H. specialize (H (lit "Intro") (lit "Detail") 1 2).
  vm_compute in H. by specialize (H ltac:(done)).
Qed.

(** C1, amended: whenever a kept H1 candidate is directly followed by an H3
    candidate that does not repeat its (text, page) pair, the H3 is demoted
    to H2, on the same page and across pages alike; the H1 is left as it
    is. *)
Theorem h3_after_h1_demoted pre a b post :
  Entry.level a = "H1" → Entry.level b = "H3" →
  last (normalize_outline (pre ++ [a])) = Some a →
  (Entry.text b, Entry.page b) ≠ (Entry.text a, Entry.page a) →
  ∃ rest,
    normalize_outline (pre ++ a :: b :: post)
    = normalize_outline (pre ++ [a]) ++ set_level "H2" b :: rest.
Proof.
  intros Ha Hb Hlast Hne. unfold normalize_outline in *.
  replace (pre ++ a :: b :: post) with ((pre ++ [a]) ++ b :: post)
    by by rewrite <- app_assoc.
  rewrite (foldl_app _ (pre ++ [a])). simpl.
  pose proof (foldl_normalize_tracked (pre ++ [a]) norm_init
                ltac:(by unfold last_tracked)) as Htr.
  set (st := foldl normalize_step norm_init (pre ++ [a])) in *.
  unfold last_tracked in Htr. rewrite Hlast in Htr. destruct Htr as [Ht Hp].
  rewrite foldl_normalize_step.
  assert (normalize_step st b =
          {| final_outline := final_outline st ++ [set_level "H2" b];
             last_entry_text := Entry.text b;
             last_entry_page := Entry.page b;
             last_entry_level_rank := 2 |}) as ->.
  { unfold normalize_step. rewrite Ht, Hp, Hlast.
    destruct (bool_decide_reflect (Entry.text b = Entry.text a));
      destruct (Z.eqb_spec (Entry.page b) (Entry.page a)); simpl;
      try (exfalso; apply Hne; congruence).
    all: unfold smooth; rewrite Ha, Hb; simpl;
      rewrite andb_false_r; done. }
  simpl. rewrite <- app_assoc. simpl. eauto.
Qed.

(** The theorem at an H1 on page 1 followed by an H3 on page 2. *)
Lemma h3_after_h1_demoted_witness :
  ∃ rest,
    normalize_outline
      ([] ++ Entry.mk "H1" (lit "Intro") 1 :: Entry.mk "H3" (lit "Detail") 2 :: [])
    = normalize_outline ([] ++ [Entry.mk "H1" (lit "Intro") 1])
      ++ set_level "H2" (Entry.mk "H3" (lit "Detail") 2) :: rest.
Proof.
  apply (h3_after_h1_demoted [] (Entry.mk "H1" (lit "Intro") 1)
           (Entry.mk "H3" (lit "Detail") 2) []).
  - reflexivity.
  - reflexivity.
  - vm_compute. reflexivity.
  - vm_compute. congruence.
Defined.

(** ** Strings *)

Section StringFacts.
Context {U : Unicode}.

Lemma has_ink_nonempty s : has_ink s → s ≠ [].
Proof. intros Hs ->. by apply Exists_nil in Hs. Qed.

Lemma has_ink_app s t : has_ink (s ++ t) ↔ has_ink s ∨ has_ink t.
Proof. apply Exists_app. Qed.

Lemma has_ink_reverse s : has_ink (reverse s) ↔ has_ink s.
Proof.
  unfold has_ink. rewrite !Exists_exists.
  by setoid_rewrite elem_of_reverse.
Qed.

Lemma lstrip_ink s : has_ink s → has_ink (lstrip s).
Proof.
  induction s as [|c s IH]; intros Hs; simpl; [done|].
  destruct (isspace c) eqn:E; [|done].
  apply Exists_cons in Hs as [Hs|Hs]; [congruence|auto].
Qed.

Lemma lstrip_clean s : clean (lstrip s).
Proof.
  induction s as [|c s IH]; simpl; [by left|].
  destruct (isspace c) eqn:E; [done|]. right. by apply Exists_cons_hd.
Qed.

Lemma rstrip_ink s : has_ink s → has_ink (rstrip s).
Proof.
  intros Hs. unfold rstrip. by apply has_ink_reverse, lstrip_ink, has_ink_reverse.
Qed.

Lemma strip_ink s : has_ink s → has_ink (strip s).
Proof. intros Hs. by apply rstrip_ink, lstrip_ink. Qed.

Lemma strip_clean s : clean (strip s).
Proof.
  unfold strip, rstrip.
  destruct (lstrip_clean (reverse (lstrip s))) as [->|Hink]; [by left|].
  right. by apply has_ink_reverse.
Qed.

Lemma endswith_nonempty c s : endswith c s = true → s ≠ [].
Proof. by intros Hs ->. Qed.

End StringFacts.

(** ** The heading classifier, rule by rule *)

Ltac solve_good :=
  unfold good, is_level in *; simpl in *;
  repeat (case_match; simpl in *; simplify_eq); intuition auto.

Section ClassifierFacts.
Context {U : Unicode}.

Lemma font_level_is_level fm mc l :
  levels_ok fm → font_level fm mc = Some l → is_level l.
Proof.
  induction 1 as [|[k v] fm Hv _ IH]; simpl; [done|].
  destruct (_ <=? _); [|done]. by intros [= <-].
Qed.

Lemma font_rule_good fm mc full :
  levels_ok fm → full ≠ [] → good (font_rule fm mc full).
Proof.
  intros Hfm Hfull. split; [done|]. simpl.
  destruct (font_level fm mc) eqn:E; [|done].
  by eapply font_level_is_level.
Qed.

Lemma numbering_rule_good numeric alpha c :
  good c → good (numbering_rule numeric alpha c).
Proof.
  destruct c as [t l p]. unfold numbering_rule. solve_good.
Qed.

Lemma bullet_rule_good bullet c : good c → good (bullet_rule bullet c).
Proof.
  destruct c as [t l p]. unfold bullet_rule. solve_good.
Qed.

Lemma bold_prefix_endswith spans : ∀ acc p,
  bold_prefix acc spans = Some p → endswith COLON p = true.
Proof.
  induction spans as [|sp rest IH]; intros acc p; simpl; [done|].
  destruct (is_bold sp); [|done].
  destruct (endswith COLON (strip (acc ++ text sp))) eqn:E; [|apply IH].
  destruct rest as [|next rest']; [by intros [= <-]|].
  destruct (negb (is_bold next)); [by intros [= <-]|apply IH].
Qed.

Lemma bold_prefix_match_endswith line p :
  bold_prefix_match_of line = Some p → endswith COLON p = true.
Proof.
  unfold bold_prefix_match_of. destruct line as [|first rest]; [done|].
  destruct (is_bold first); [apply bold_prefix_endswith|done].
Qed.

Lemma bold_prefix_rule_good prefix bullet c :
  good c → (∀ p, prefix = Some p → p ≠ []) →
  good (bold_prefix_rule prefix bullet c).
Proof.
  destruct c as [t l q]. intros Hc Hp. unfold bold_prefix_rule.
  destruct prefix as [p|]; [|done]. specialize (Hp p eq_refl). solve_good.
Qed.

Lemma colon_split_nonempty full t : colon_split full = Some t → t ≠ [].
Proof.
  unfold colon_split. repeat case_match; try done.
  intros [= <-]. by destruct (strip _).
Qed.

Lemma colon_rule_good split_text c :
  good c → (∀ t, split_text = Some t → t ≠ []) →
  good (colon_rule split_text c).
Proof.
  intros [Ht Hl] Hs. unfold colon_rule, good, is_level.
  destruct split_text as [t|]; [|done]. simpl. split; [by apply Hs|auto].
Qed.

Lemma keyword_level_h3 text_lower gate l :
  keyword_level keyword_patterns text_lower gate = Some l → l = "H3".
Proof.
  unfold keyword_patterns. simpl. repeat case_match; congruence.
Qed.

Lemma keyword_rule_good keyword full c :
  good c → full ≠ [] → (∀ l, keyword = Some l → l = "H3") →
  good (keyword_rule keyword full c).
Proof.
  intros [Ht Hl] Hfull Hk. unfold keyword_rule, good, is_level.
  destruct keyword as [l|]; [|done]. simpl. split; [done|].
  rewrite (Hk l eq_refl). auto.
Qed.

Lemma rules_1_3_good fm line :
  levels_ok fm → full_text line ≠ [] → good (rules_1_3 fm line).
Proof.
  intros Hfm Hfull. unfold rules_1_3.
  by apply bullet_rule_good, numbering_rule_good, font_rule_good.
Qed.

Lemma rules_1_4_good fm line :
  levels_ok fm → full_text line ≠ [] → good (rules_1_4 fm line).
Proof.
  intros Hfm Hfull. unfold rules_1_4.
  apply bold_prefix_rule_good; [by apply rules_1_3_good|].
  intros p Hp. eapply endswith_nonempty, bold_prefix_match_endswith, Hp.
Qed.

Lemma rules_1_5_good fm line :
  levels_ok fm → full_text line ≠ [] → good (rules_1_5 fm line).
Proof.
  intros Hfm Hfull. unfold rules_1_5.
  apply colon_rule_good; [by apply rules_1_4_good|].
  intros t. unfold split_text_of. case_match; [done|].
  apply colon_split_nonempty.
Qed.

(** Rules 7 and 8 only ever clear the flag. *)
Lemma clear_good c : good c → good (clear c).
Proof. done. Qed.

Lemma bullet_lookahead_good bullet mc line first next c c' :
  good c → bullet_lookahead bullet mc line first next c = Some c' → good c'.
Proof.
  intros Hc. unfold bullet_lookahead.
  destruct (bullet && _); [|by intros [= <-]].
  set (c1 := if (60 <? _)%nat then clear c else c).
  assert (good c1) as H1 by (unfold c1; by case_match).
  destruct (is_potential_heading c1); [|by intros [= <-]].
  destruct next as [next_line_spans|]; [|by intros [= <-]].
  destruct (body_follows _ _ _ _) as [follows|]; simpl; [|done].
  intros [= <-]. by destruct follows.
Qed.

Lemma bullet_lookahead_kept bullet mc line first next c c' :
  bullet_lookahead bullet mc line first next c = Some c' →
  text_to_classify c' = text_to_classify c
  ∧ level_candidate c' = level_candidate c.
Proof.
  unfold bullet_lookahead.
  destruct (bullet && _); [|by intros [= <-]].
  set (c1 := if (60 <? _)%nat then clear c else c).
  assert (text_to_classify c1 = text_to_classify c
          ∧ level_candidate c1 = level_candidate c) as H1
    by (unfold c1; by case_match).
  destruct (is_potential_heading c1); [|by intros [= <-]].
  destruct next as [next_line_spans|]; [|by intros [= <-]].
  destruct (body_follows _ _ _ _) as [follows|]; simpl; [|done].
  intros [= <-]. by destruct follows.
Qed.


Lemma acceptance_filter_good auth any_bold numbered bullet mc period c :
  good c → good (acceptance_filter auth any_bold numbered bullet mc period c).
Proof.
  intros Hc. unfold acceptance_filter.
  repeat case_match; auto using clear_good.
Qed.

(** Rule 9: the bold run is not blank when it is not empty. *)
Lemma bold_segment_ink spans : ∀ segment followed,
  clean_spans spans → bold_segment spans = (segment, followed) →
  segment ≠ [] → has_ink segment.
Proof.
  induction spans as [|sp rest IH]; intros segment followed Hclean; simpl.
  { by intros [= <- <-]. }
  apply Forall_cons in Hclean as [Hsp Hrest].
  destruct (is_bold sp); [|by intros [= <- <-]].
  destruct (bold_segment rest) as [seg' fol'] eqn:E.
  intros [= <- <-] Hne. apply has_ink_app.
  destruct Hsp as [Hsp|Hsp]; [|by left].
  right. rewrite Hsp in Hne. simpl in Hne. by eapply IH.
Qed.

Lemma h3_good t :
  t ≠ [] →
  good {| text_to_classify := t; level_candidate := Some "H3";
          is_potential_heading := true |}.
Proof. intros Ht. split; [done|]. unfold is_level. simpl. auto. Qed.

Lemma bold_fallback_good line first full all_bold prefix_match c :
  clean_spans line → good c →
  good (bold_fallback line first full all_bold prefix_match c).
Proof.
  intros Hclean Hc. unfold bold_fallback.
  destruct all_bold.
  { pose proof Hc as [Ht _]. repeat case_match; auto using h3_good. }
  destruct (negb prefix_match); [|done].
  destruct (is_bold first); [|done].
  destruct (bold_segment line) as [segment followed] eqn:E.
  destruct (_ && _) eqn:Hcond; [|done].
  apply h3_good, has_ink_nonempty, strip_ink.
  eapply bold_segment_ink; [done..|].
  intros ->. simpl in Hcond. done.
Qed.

(** Past the [continue], the body runs. *)
Lemma classify_line_text fm text_lower first rest next :
  full_text (first :: rest) ≠ [] →
  classify_line fm text_lower (first :: rest) next
  = classify_text_line fm text_lower first rest next.
Proof. unfold classify_line. by destruct (full_text (first :: rest)). Qed.

Lemma classify_line_appends fm text_lower line next e :
  classify_line fm text_lower line next = Some (Some e) →
  ∃ first rest, line = first :: rest ∧ full_text line ≠ []
    ∧ classify_text_line fm text_lower first rest next = Some (Some e).
Proof.
  unfold classify_line. destruct (full_text line) eqn:Ef; [done|].
  destruct line as [|first rest]; [done|]. intros He.
  by exists first, rest.
Qed.

(** What is appended for a line: an entry on the page of the line's first
    span, with a text that is not empty and one of the three levels. *)
Lemma classify_line_entry fm text_lower line next e :
  levels_ok fm → clean_spans line →
  classify_line fm text_lower line next = Some (Some e) →
  ∃ first rest, line = first :: rest ∧ Entry.page e = page first
    ∧ Entry.text e ≠ [] ∧ is_level (Entry.level e).
Proof.
  intros Hfm Hclean (first & rest & -> & Hne & He)%classify_line_appends.
  exists first, rest. split; [done|]. revert He.
  unfold classify_text_line. cbv zeta.
  pose proof (rules_1_5_good fm (first :: rest) Hfm Hne) as H5.
  set (c5 := rules_1_5 fm (first :: rest)) in *.
  set (keyword := if is_potential_heading c5 then None else _).
  assert (H6 : good (keyword_rule keyword (full_text (first :: rest)) c5)).
  { apply keyword_rule_good; [done..|]. intros l. unfold keyword.
    case_match; [done|]. apply keyword_level_h3. }
  set (c6 := keyword_rule keyword _ c5) in *.
  destruct (if is_potential_heading c6 then _ else _) as [c8|] eqn:E8;
    [|done].
  assert (H8 : good c8).
  { destruct (is_potential_heading c6); [|by simplify_eq].
    destruct (bullet_lookahead _ _ _ _ _ _) as [c7|] eqn:E7; [|done].
    simpl in E8. simplify_eq.
    eapply acceptance_filter_good, bullet_lookahead_good; [|done]. done. }
  cbn [mbind option_bind].
  set (c9 := if negb (is_potential_heading c8) && _ then _ else c8).
  assert (H9 : good c9).
  { unfold c9. destruct (negb _ && _); [|done]. by apply bold_fallback_good. }
  destruct H9 as [Ht Hl].
  destruct (is_potential_heading c9 && truthy (level_candidate c9)); [|done].
  destruct (level_candidate c9) as [l|]; [|done].
  intros [= <-]. simpl. eauto 10.
Qed.

End ClassifierFacts.

(** ** The pipeline *)

(** The normaliser keeps or drops entries, and changes nothing but a
    level, to "H2". *)
Lemma normalize_from_origin outline : ∀ prev lt lp e,
  e ∈ normalize_from prev lt lp outline →
  ∃ e0, e0 ∈ outline ∧ (e = e0 ∨ e = set_level "H2" e0).
Proof.
  induction outline as [|entry rest IH]; intros prev lt lp e; simpl.
  { by intros ?%elem_of_nil. }
  destruct (bool_decide _ && _).
  { intros (e0 & ? & ?)%IH. exists e0. split; [by right|done]. }
  intros [->|Hin]%elem_of_cons.
  - exists entry. split; [by left|].
    destruct prev as [prev|]; [|by left]. rewrite smooth_fst.
    destruct (_ && _); auto.
  - apply IH in Hin as (e0 & ? & ?). exists e0. split; [by right|done].
Qed.

Lemma normalize_outline_origin outline e :
  e ∈ normalize_outline outline →
  ∃ e0, e0 ∈ outline ∧ (e = e0 ∨ e = set_level "H2" e0).
Proof. rewrite normalize_outline_from. apply normalize_from_origin. Qed.

Section PipelineFacts.
Context {U : Unicode} {F : Fitz}.

(** *** Line assembly *)

Lemma line_step_inv P page_height st element :
  lines_inv P st → P element → lines_inv P (line_step page_height st element).
Proof.
  intros (Hl & Ht & Htl & Hne) Hel. unfold line_step.
  destruct (is_boilerplate _ _); [done|].
  destruct (Qltb _ _); unfold lines_inv; simpl; split_and!; auto.
  - apply Forall_app. split; [done|]. by apply Forall_singleton.
  - destruct (lines_with_spans st) as [|l ls]; simpl in *; [done|].
    apply Forall_app. split; [done|]. apply Forall_singleton. by apply Hne.
  - apply Forall_app. split; [done|]. by apply Forall_singleton.
  - intros _. by destruct (temp_line_spans st).
Qed.

Lemma foldl_line_step_inv P page_height elements : ∀ st,
  lines_inv P st → Forall P elements →
  lines_inv P (foldl (line_step page_height) st elements).
Proof.
  induction elements as [|el els IH]; intros st Hst Hels; simpl; [done|].
  apply Forall_cons in Hels as [Hel Hels].
  by apply IH; [apply line_step_inv|].
Qed.

(** The lines are made of elements of the page, and only the first line
    can be empty. *)
Lemma assemble_lines_spec P page_elements :
  Forall P page_elements →
  Forall (Forall P) (assemble_lines page_elements)
  ∧ Forall (λ l, l ≠ []) (tail (assemble_lines page_elements)).
Proof.
  intros HP. unfold assemble_lines.
  destruct page_elements as [|first others] eqn:E; [by split|].
  rewrite <- E in *. clear E.
  set (st0 := {| current_line_y0 := _; temp_line_spans := [];
                 lines_with_spans := [] |}).
  assert (H0 : lines_inv P st0).
  { unfold lines_inv. simpl. split_and!; [constructor..|done]. }
  pose proof (foldl_line_step_inv P (page_height_of first page_elements)
                page_elements st0 H0 HP) as (Hl & Ht & Htl & Hne).
  destruct (temp_line_spans _) as [|sp temp] eqn:Et; [done|].
  split.
  - apply Forall_app. split; [done|]. by apply Forall_singleton.
  - destruct (lines_with_spans _) as [|l ls]; simpl in *; [done|].
    apply Forall_app. split; [done|]. by apply Forall_singleton.
Qed.

(** *** The classifier over the lines of a page *)

(** No [IndexError] when the line after, if any, is not empty. *)
Lemma classify_line_returns fm text_lower line next :
  next ≠ Some [] → is_Some (classify_line fm text_lower line next).
Proof.
  intros Hnext. unfold classify_line.
  destruct (full_text line); [eauto|]. destruct line as [|first rest]; [eauto|].
  unfold classify_text_line. cbv zeta.
  assert (∀ b mc c,
    is_Some (bullet_lookahead b mc (first :: rest) first next c)) as Hlook.
  { intros b mc c. unfold bullet_lookahead.
    destruct (b && _); [|eauto].
    destruct (is_potential_heading _); [|eauto].
    destruct next as [[|sp next]|]; [done|simpl; eauto|eauto]. }
  destruct (is_potential_heading (keyword_rule _ _ _)); [|cbn; eauto].
  match goal with
  | |- context [bullet_lookahead ?b ?mc _ _ _ ?c] =>
      destruct (Hlook b mc c) as [c7 ->]
  end.
  cbn. eauto.
Qed.

Lemma classify_lines_returns fm text_lower lines :
  Forall (λ l, l ≠ []) (tail lines) →
  is_Some (classify_lines fm text_lower lines).
Proof.
  induction lines as [|line rest IH]; intros Htl; simpl in *; [eauto|].
  destruct (classify_line_returns fm text_lower line (head rest)) as [r ->].
  { destruct rest as [|l rest']; [done|]. simpl.
    apply Forall_cons in Htl as [Hl _]. congruence. }
  destruct IH as [rs ->].
  { destruct rest as [|l rest']; [constructor|]. simpl.
    by apply Forall_cons in Htl as [_ ?]. }
  cbn. eauto.
Qed.

(** Every appended entry comes from a line. *)
Lemma classify_lines_entries fm text_lower lines : ∀ entries e,
  classify_lines fm text_lower lines = Some entries → e ∈ entries →
  ∃ line next, line ∈ lines
    ∧ classify_line fm text_lower line next = Some (Some e).
Proof.
  induction lines as [|line rest IH]; intros entries e; simpl.
  { intros [= <-]. by intros ?%elem_of_nil. }
  destruct (classify_line fm text_lower line (head rest)) as [r|] eqn:E;
    [|done].
  destruct (classify_lines fm text_lower rest) as [rs|] eqn:Es; [|done].
  cbn. intros [= <-] Hin.
  assert (e ∈ rs → ∃ line0 next, line0 ∈ line :: rest
            ∧ classify_line fm text_lower line0 next = Some (Some e)) as Hrs.
  { intros (l & n & ? & ?)%(IH rs); [|done]. exists l, n. split; [by right|done]. }
  destruct r as [entry|]; [|auto].
  apply elem_of_cons in Hin as [->|Hin]; [|auto].
  exists line, (head rest). split; [by left|done].
Qed.

(** *** [identify_headings] *)

Lemma classify_page_returns fm page_elements :
  is_Some (classify_page fm page_elements).
Proof.
  apply classify_lines_returns.
  apply (assemble_lines_spec (λ _, True)). by apply Forall_true.
Qed.

Lemma candidate_outline_returns self :
  is_Some (candidate_outline self).
Proof.
  unfold candidate_outline. apply fmap_is_Some, mapM_is_Some, Forall_forall.
  intros page_elements _. apply classify_page_returns.
Qed.

(** [identify_headings] returns: no exception escapes it. *)
Lemma identify_headings_returns self : is_Some (identify_headings self).
Proof.
  unfold identify_headings.
  destruct (candidate_outline_returns self) as [c ->]. cbn. eauto.
Qed.

Lemma candidate_outline_entries self entries e :
  well_extracted (pages_data self) → levels_ok (heading_font_map self) →
  candidate_outline self = Some entries → e ∈ entries →
  is_level (Entry.level e) ∧ Entry.text e ≠ []
  ∧ ∃ idx, from_line_of_page (heading_font_map self) (pages_data self) idx e.
Proof.
  intros Hpages Hfm. unfold candidate_outline.
  destruct (mapM _ _) as [per_page|] eqn:E; [|done].
  cbn. intros [= <-] Hin.
  apply mapM_Some in E.
  apply list_elem_of_In, in_concat in Hin as (es & Hes & Hin).
  apply list_elem_of_In, list_elem_of_lookup in Hes as [idx Hidx].
  apply list_elem_of_In in Hin.
  destruct (Forall2_lookup_r _ _ _ _ _ E Hidx) as (page_elements & Hp & Hcls).
  unfold classify_page in Hcls.
  destruct (classify_lines_entries _ _ _ _ _ Hcls Hin)
    as (line & next & Hline & He).
  pose proof (Hpages idx page_elements Hp) as Hspans.
  destruct (assemble_lines_spec _ page_elements Hspans) as [Hlines _].
  pose proof (proj1 (Forall_forall _ _) Hlines line Hline) as Hl.
  destruct (classify_line_entry (heading_font_map self)
              (stale_text_lower page_elements) line next e)
    as (first & rest & -> & Hpage & Htext & Hlevel); [done| |done|].
  { eapply Forall_impl; [exact Hl|]. by intros sp [_ ?]. }
  split_and!; [done..|].
  exists idx, page_elements, first, rest. split_and!; [done..| |done|].
  - exists (stale_text_lower page_elements), next, e. auto.
  - by apply Forall_cons in Hl as [[? _] _].
Qed.

Lemma set_level_appended_for fm line e0 e :
  appended_for fm line e0 → e = e0 ∨ e = set_level "H2" e0 →
  appended_for fm line e.
Proof.
  intros (tl & next & e1 & Hcls & [->| ->]) [->| ->];
    exists tl, next, e1; auto.
Qed.

Lemma candidate_outline_well_formed self entries :
  well_extracted (pages_data self) → levels_ok (heading_font_map self) →
  candidate_outline self = Some entries →
  Forall (well_formed_entry (heading_font_map self) (pages_data self)) entries.
Proof.
  intros Hpages Hfm Hc. apply Forall_forall. intros e Hin.
  destruct (candidate_outline_entries self entries e Hpages Hfm Hc Hin)
    as (Hlevel & Htext & idx & Hfrom).
  split_and!; [done..|]. exists idx. split; [done|].
  destruct Hfrom as (pe & first & rest & _ & _ & _ & -> & ->). lia.
Qed.

(** The normaliser keeps entries well formed. *)
Lemma normalize_outline_well_formed fm pages entries :
  Forall (well_formed_entry fm pages) entries →
  Forall (well_formed_entry fm pages) (normalize_outline entries).
Proof.
  intros Hall. apply Forall_forall. intros e Hin.
  apply normalize_outline_origin in Hin as (e0 & Hin0 & Hrel).
  pose proof (proj1 (Forall_forall _ _) Hall e0 Hin0)
    as (Hlevel & Htext & idx & Hfrom & Hpage & Hpos).
  destruct Hrel as [->| ->]; [by repeat split; eauto|].
  split_and!; [simpl; auto|done|]. exists idx. split_and!; [|done..].
  destruct Hfrom as (pe & first & rest & Hp & Hline & Happ & Hpg & Hnum).
  exists pe, first, rest. split_and!; [done..| |done|done].
  eapply set_level_appended_for; [done|]. by right.
Qed.

End PipelineFacts.

(** ** From the document to the artifact *)

Lemma determined_levels_ok self exclude :
  heading_font_map self = [] →
  levels_ok (heading_font_map (_determine_heading_font_map self exclude)).
Proof.
  intros Hempty.
  destruct (determined_map_ranked self exclude Hempty) as (st & -> & Hst).
  apply Forall_forall. intros [k l] Hin.
  by destruct (ranked_entries _ st k l Hst Hin) as (_ & ? & _).
Qed.

Lemma determined_pages self exclude :
  pages_data (_determine_heading_font_map self exclude) = pages_data self.
Proof. unfold _determine_heading_font_map. by repeat case_match. Qed.

Section DocumentFacts.
Context {U : Unicode} {F : Fitz}.

Lemma page_elements_of_spec idx p :
  Forall (λ sp, page sp = Z.of_nat idx + 1 ∧ clean (text sp))
    (page_elements_of idx p).
Proof.
  unfold page_elements_of. apply Forall_fmap, Forall_forall.
  intros [l sp] _. simpl. split; [done|apply strip_clean].
Qed.

(** [extract_text_elements] numbers the pages from 1 and strips the
    texts. *)
Lemma extract_well_extracted self pdf_path opened :
  well_extracted (pages_data self) →
  well_extracted (pages_data (extract_text_elements self pdf_path opened).1).
Proof.
  intros Hself. destruct opened as [doc|]; [|done]. simpl.
  intros idx page_elements. rewrite list_lookup_imap.
  intros (p & _ & ->)%fmap_Some.
  apply page_elements_of_spec.
Qed.

Lemma extract_font_map self pdf_path opened :
  heading_font_map (extract_text_elements self pdf_path opened).1
  = heading_font_map self.
Proof. by destruct opened. Qed.

(** A title box comes with a title font size. *)
Lemma title_bbox_has_size self title_text title_rect title_font_size :
  identify_document_title self = (title_text, title_font_size, Some title_rect) →
  is_Some title_font_size.
Proof.
  unfold identify_document_title.
  repeat case_match; intros; simplify_eq; eauto.
Qed.

Lemma remove_title_well_extracted size title_rect first_page others :
  well_extracted (first_page :: others) →
  well_extracted (remove_title size title_rect first_page :: others).
Proof.
  intros Hw [|idx] page_elements; simpl.
  - intros [= <-]. specialize (Hw 0%nat first_page eq_refl).
    apply Forall_forall. intros sp [_ Hin]%list_elem_of_filter.
    by apply (proj1 (Forall_forall _ _) Hw).
  - intros Hl. by apply (Hw (S idx)).
Qed.

(** What [process_pdf] hands to [identify_headings], on an extractor whose
    map is still the empty one of [__init__], and what it returns. *)
Lemma process_pdf_spec self0 input_pdf_path opened printed self doc :
  well_extracted (pages_data self0) → heading_font_map self0 = [] →
  process_pdf self0 input_pdf_path opened = (printed, Some (self, doc)) →
  well_extracted (pages_data self) ∧ levels_ok (heading_font_map self)
  ∧ identify_headings self = Some (outline doc).
Proof.
  intros Hw0 Hfm0. unfold process_pdf.
  pose proof (extract_well_extracted self0 input_pdf_path opened Hw0) as Hw1.
  pose proof (extract_font_map self0 input_pdf_path opened) as Hfm1.
  destruct (extract_text_elements self0 input_pdf_path opened)
    as [self1 printed1]. simpl in Hw1, Hfm1. rewrite Hfm0 in Hfm1.
  destruct (identify_document_title self1)
    as [[title_text title_font_size] title_bbox] eqn:Et.
  set (filtered := match title_text, title_bbox with
                   | _ :: _, Some _ => _ | _, _ => Some self1 end).
  intros [= <- Hres].
  destruct filtered as [self2|] eqn:Ef; [|done]. cbn in Hres.
  assert (well_extracted (pages_data self2) ∧ heading_font_map self2 = [])
    as [Hw2 Hfm2].
  { unfold filtered in Ef. clear Hres.
    destruct title_text as [|ch title_text]; [by simplify_eq|].
    destruct title_bbox as [title_rect|]; [|by simplify_eq].
    destruct title_font_size as [size|]; [|done]. simplify_eq. simpl.
    split; [|done].
    destruct (pages_data self1) as [|first_page others]; [done|].
    by apply remove_title_well_extracted. }
  destruct (identify_headings _) as [headings|] eqn:Eh; [|done].
  cbn in Hres. simplify_eq. simpl.
  rewrite determined_pages. split_and!; [done| |done].
  by apply determined_levels_ok.
Qed.


End DocumentFacts.

(** ** The outline, the rules and the batch *)

Section Outline.
Context {U : Unicode} {F : Fitz}.

(** C10: when [process_pdf] runs on a fresh extractor, every entry that
    [identify_headings] appends to its outline, and every entry of the
    outline it returns for the output artifact, has one of the levels "H1",
    "H2", "H3", a text that is not empty, and the page number of the first
    span of the line it was appended for, which is the 1-based number of
    that line's page. *)
Theorem outline_entries_well_formed input_pdf_path opened printed self doc :
  process_pdf init input_pdf_path opened = (printed, Some (self, doc)) →
  ∃ appended,
    candidate_outline self = Some appended
    ∧ outline doc = normalize_outline appended
    ∧ Forall (well_formed_entry (heading_font_map self) (pages_data self))
        appended
    ∧ Forall (well_formed_entry (heading_font_map self) (pages_data self))
        (outline doc).
Proof.
  intros Hrun.
  destruct (process_pdf_spec init input_pdf_path opened printed self doc)
    as (Hw & Hfm & Hout); [by intros [|?] ?|done|done|].
  unfold identify_headings in Hout.
  destruct (candidate_outline self) as [appended|] eqn:Hc; [|done].
  cbn in Hout. injection Hout as <-.
  pose proof (candidate_outline_well_formed self appended Hw Hfm Hc) as Hall.
  exists appended. split_and!; [done..|].
  by apply normalize_outline_well_formed.
Qed.

(** C9: in the outline that [identify_headings] returns, no entry labelled
    "H1" is directly followed by an entry labelled "H3", on the same page
    or not. *)
Theorem no_h3_directly_after_h1 self out i a b :
  identify_headings self = Some out →
  out !! i = Some a → out !! S i = Some b →
  Entry.level a = "H1" → Entry.level b ≠ "H3".
Proof.
  unfold identify_headings.
  destruct (candidate_outline self) as [entries|]; [|done]. cbn.
  intros [= <-] Ha Hb H1 H3. rewrite normalize_outline_from in Ha, Hb.
  apply (no_skip_lookup _ None i a b (normalize_from_no_skip _ _ _ _) Ha Hb).
  by split.
Qed.

(** *** Rule 4 *)


(** Once a rule has fired, rules 4 and 5 leave the flag set. *)
Lemma rules_1_4_potential fm line :
  is_potential_heading (rules_1_3 fm line) = true →
  is_potential_heading (rules_1_4 fm line) = true.
Proof. unfold rules_1_4, bold_prefix_rule. by case_match. Qed.


Lemma rules_1_3_bullet fm line :
  re_match BULLET_RE (full_text line) = true →
  is_potential_heading (rules_1_3 fm line) = true.
Proof. unfold rules_1_3, bullet_rule. by intros ->. Qed.





(** *** Rule 6 *)



(** *** The batch *)





End Outline.

(** ** Witnesses, counterexamples and scenarios *)

(** The theorem at [sample_doc]: the outline has the one entry of the
    numbered heading. *)
Lemma outline_entries_well_formed_witness :
  ∃ appended,
    candidate_outline (U := ascii_tables) (F := plain_rects) sample_extractor
    = Some appended
    ∧ [Entry.mk "H1" (lit "1 Introduction") 1] = normalize_outline appended
    ∧ Forall (well_formed_entry (U := ascii_tables) (F := plain_rects)
                (heading_font_map sample_extractor)
                (pages_data sample_extractor))
        appended
    ∧ Forall (well_formed_entry (U := ascii_tables) (F := plain_rects)
                (heading_font_map sample_extractor)
                (pages_data sample_extractor))
        [Entry.mk "H1" (lit "1 Introduction") 1].
Proof.
  apply (outline_entries_well_formed (U := ascii_tables) (F := plain_rects)
           (lit "input/sample.pdf") (Some sample_doc)
           [Extracting (lit "input/sample.pdf"); IdentifyingHeadings]
           sample_extractor
           {| title := lit "A Study of Outlines";
              outline := [Entry.mk "H1" (lit "1 Introduction") 1] |}).
  vm_compute. reflexivity.
Defined.

(** The theorem at an H1 line on page 1 followed by a line numbered 1.2.3
    on page 2. *)
Lemma no_h3_directly_after_h1_witness :
  Entry.level (Entry.mk "H2" (lit "1.2.3 Detail") 2) ≠ "H3".
Proof.
  apply (no_h3_directly_after_h1 (U := ascii_tables) (F := plain_rects)
           (with_pages [[mk_span (lit "1 Intro") 1100 false false 1 300];
                        [mk_span (lit "1.2.3 Detail") 1100 false false 2 300]]
              [])
           [Entry.mk "H1" (lit "1 Intro") 1;
            Entry.mk "H2" (lit "1.2.3 Detail") 2]
           0%nat (Entry.mk "H1" (lit "1 Intro") 1)).
  - vm_compute. reflexivity.
  - reflexivity.
  - reflexivity.
  - reflexivity.
Defined.





(** The keyword rule tests the text of the last span of the page: a
    theorem line is accepted when it is that span, and missed when another
    line follows it. *)
Example keyword_rule_reads_last_span :
  identify_headings (U := ascii_tables) (F := plain_rects)
    (with_pages [[mk_span (lit "Theorem 2.4 (Main result).") 1100 false true 1 300]] [])
  = Some [Entry.mk "H3" (lit "Theorem 2.4 (Main result).") 1]
  ∧ identify_headings (U := ascii_tables) (F := plain_rects)
      (with_pages [[mk_span (lit "Theorem 2.4 (Main result).") 1100 false true 1 300;
                    mk_span (lit "zzz") 1100 false false 1 320]] [])
    = Some [].
Proof. vm_compute. done. Qed.



(** Scenarios. *)
Example numbered_introduction :
  identify_headings (U := ascii_tables) (F := plain_rects)
    (with_pages [[mk_span (lit "1. Introduction") 1600 false false 1 300]]
       [(1600, "H1")])
  = Some [Entry.mk "H2" (lit "1. Introduction") 1].
Proof. vm_compute. reflexivity. Qed.

Example bold_prefix_scenario :
  identify_headings (U := ascii_tables) (F := plain_rects)
    (with_pages [background_line] [])
  = Some [Entry.mk "H2" (lit "Background:") 1].
Proof. vm_compute. reflexivity. Qed.

Example page_footer_scenario :
  identify_headings (U := ascii_tables) (F := plain_rects)
    (with_pages [[mk_span (lit "Big Heading") 1600 false false 1 300;
                  mk_span (lit "Page 3 of 12") 1100 false false 1 700]]
       [(1600, "H1")])
  = Some [Entry.mk "H1" (lit "Big Heading") 1].
Proof. vm_compute. reflexivity. Qed.

(** * Further properties *)

(** ** The font-size classifier: which sizes get a level *)




(** A test that fails on the head does not see it. *)
Lemma find_skip (p : Z → bool) x l :
  p x = false → List.find p (x :: l) = List.find p l.
Proof. intros Hp. simpl. by rewrite Hp. Qed.

Lemma find_elem (p : Z → bool) l k :
  List.find p l = Some k → k ∈ l ∧ p k = true.
Proof.
  intros [Hin Hp]%List.find_some. split; [|done]. by apply list_elem_of_In.
Qed.

(** *** The main loop *)



Lemma assign_level_h3_kept st fs c :
  h3_fs st = Some c → h3_fs (assign_level st fs) = Some c.
Proof.
  destruct st as [[a'|] [b'|] [c'|] m]; unfold assign_level; simpl;
    intros; simplify_eq; repeat case_match; done.
Qed.



Lemma main_pass_h3_same exclude l : ∀ st c,
  h3_fs st = Some c → h3_fs (main_pass exclude st l) = Some c.
Proof.
  induction l as [|fs l IH]; intros st c Hst; simpl; [done|].
  destruct (is_excluded exclude fs); [by apply IH|].
  destruct (all_assigned _); [|apply IH]; by apply assign_level_h3_kept.
Qed.










(** *** The fallback loops *)

Lemma fallback_h1_spec exclude l : ∀ st,
  h1_fs (fallback_h1 exclude st l)
  = match List.find (free exclude) l with
    | Some a => Some a
    | None => h1_fs st
    end.
Proof.
  unfold free.
  induction l as [|fs l IH]; intros st; simpl; [done|].
  rewrite not_excluded_negb. by destruct (is_excluded exclude fs); simpl.
Qed.

Lemma fallback_h1_none exclude l : ∀ st,
  List.find (free exclude) l = None → fallback_h1 exclude st l = st.
Proof.
  unfold free.
  induction l as [|fs l IH]; intros st; simpl; [done|].
  rewrite not_excluded_negb.
  destruct (is_excluded exclude fs); simpl; [apply IH|done].
Qed.





(** The fallback loop for H1 never assigns anything: when the main loop
    has found no H1, every significant size is excluded. *)
Lemma h1_fallback_id exclude l :
  h1_fallback exclude l (main_pass exclude fm_init l)
  = main_pass exclude fm_init l.
Proof.
  unfold h1_fallback.
  destruct (h1_fs (main_pass exclude fm_init l)) eqn:E; [done|].
  apply fallback_h1_none.
  destruct (List.find (free exclude) l) as [a|] eqn:Hf; [|done].
  apply find_elem in Hf as [Hin Hfree].
  assert (Exists (λ fs, is_excluded exclude fs = false) l) as Hex.
  { apply Exists_exists. exists a. split; [done|].
    unfold free in Hfree. by destruct (is_excluded exclude a). }
  destruct (main_pass_h1 exclude l fm_init Hex) as [a' Ha']. congruence.
Qed.

(** *** The three sizes of the method *)




(** The searches of the method, read as statements about the sizes of the
    document. *)
Section Searches.
Variables (self : extractor) (exclude : option Z).
Variables (p : Z → bool) (Q : Z → Prop).
Hypothesis p_spec : ∀ s, p s = true ↔ is_excluded exclude s = false ∧ Q s.



End Searches.








(** X4: on a fresh extractor the map lists its levels in the order H1,
    H2, H3 without a gap (no H2 without H1, no H3 without H2, at most
    three entries), and its sizes in strictly decreasing order. *)
Theorem font_map_shape self exclude :
  heading_font_map self = [] →
  let m := heading_font_map (_determine_heading_font_map self exclude) in
  (snd <$> m) `prefix_of` ["H1"; "H2"; "H3"]
  ∧ StronglySorted (λ x y, y.1 < x.1) m.
Proof.
  intros Hempty m.
  destruct (determined_map_ranked self exclude Hempty) as (st & Hm & Hst).
  subst m. rewrite Hm. clear Hm.
  destruct st as [[a|] [b|] [c|] m]; unfold ranked in Hst; simpl in *;
    try done; destruct_and?; subst; simpl.
  - split; [by exists []|].
    repeat (constructor; [|repeat constructor; simpl; lia]). constructor.
  - split; [by exists ["H3"]|].
    repeat (constructor; [|repeat constructor; simpl; lia]). constructor.
  - split; [by exists ["H2"; "H3"]|].
    repeat (constructor; [|repeat constructor; simpl; lia]). constructor.
  - split; [by exists ["H1"; "H2"; "H3"]|]. constructor.
Qed.




(** X6: the fallback loop for H1 (lines 95 to 100) never assigns
    anything: when the main loop ends without an H1 size, every
    significant size is excluded, and the fallback skips them all. *)
Theorem h1_fallback_never_assigns exclude significant :
  h1_fallback exclude significant (main_pass exclude fm_init significant)
  = main_pass exclude fm_init significant.
Proof. apply h1_fallback_id. Qed.




(** X4 at sizes 12, 11 and 10.5. *)
Lemma font_map_shape_witness :
  let m := heading_font_map
             (_determine_heading_font_map (with_sizes [1200; 1100; 1050]) None) in
  (snd <$> m) `prefix_of` ["H1"; "H2"; "H3"]
  ∧ StronglySorted (λ x y, y.1 < x.1) m.
Proof.
  apply (font_map_shape (with_sizes [1200; 1100; 1050]) None).
  reflexivity.
Defined.


(** ** The outline normaliser: what it keeps *)

Lemma smooth_kept_as prev entry : kept_as (smooth prev entry).1 entry.
Proof.
  rewrite smooth_fst. unfold kept_as.
  destruct (String.eqb (Entry.level prev) "H1"); simpl; [|by left].
  destruct (String.eqb_spec (Entry.level entry) "H3"); [by right|by left].
Qed.

Lemma normalize_from_kept outline : ∀ prev lt lp,
  ∃ kept, kept `sublist_of` outline
    ∧ Forall2 kept_as (normalize_from prev lt lp outline) kept.
Proof.
  induction outline as [|entry rest IH]; intros prev lt lp; simpl.
  { exists []. split; constructor. }
  destruct (bool_decide _ && _).
  - destruct (IH prev lt lp) as (kept & Hsub & Hall).
    exists kept. split; [by constructor|done].
  - match goal with |- context [normalize_from (Some ?e) ?t ?p rest] =>
      destruct (IH (Some e) t p) as (kept & Hsub & Hall) end.
    exists (entry :: kept). split; [by constructor|].
    constructor; [|done].
    destruct prev as [prev|]; [apply smooth_kept_as|by left].
Qed.

Lemma normalize_from_no_repeat outline : ∀ prev lt lp,
  no_repeat lt lp (normalize_from prev lt lp outline).
Proof.
  induction outline as [|entry rest IH]; intros prev lt lp; simpl; [done|].
  destruct (bool_decide_reflect (Entry.text entry = lt)) as [Ht|Ht];
    destruct (Z.eqb_spec (Entry.page entry) lp) as [Hp|Hp]; simpl;
    [apply IH|..].
  all: split; [|apply IH].
  all: destruct prev as [prev|]; rewrite ?smooth_text, ?smooth_page;
    by intros [??].
Qed.

Lemma no_repeat_lookup out : ∀ lt lp i a b,
  no_repeat lt lp out → out !! i = Some a → out !! S i = Some b →
  ¬ (Entry.text b = Entry.text a ∧ Entry.page b = Entry.page a).
Proof.
  induction out as [|e out IH]; intros lt lp i a b Hnr Ha Hb; [done|].
  destruct Hnr as [_ Hnr]. destruct i as [|i]; simpl in *.
  - injection Ha as ->. destruct out as [|e' out]; [done|].
    simpl in Hb. injection Hb as ->. by destruct Hnr.
  - by eapply IH.
Qed.

(** An outline without repeats and without an H3 directly after an H1 is
    left as it is. *)
Lemma normalize_from_fixed outline : ∀ prev lt lp,
  no_repeat lt lp outline → no_skip prev outline →
  normalize_from prev lt lp outline = outline.
Proof.
  induction outline as [|entry rest IH]; intros prev lt lp Hnr Hns; simpl;
    [done|].
  destruct Hnr as [Hne Hnr]. destruct Hns as [Hskip Hns].
  destruct (bool_decide_reflect (Entry.text entry = lt)) as [Ht|Ht];
    destruct (Z.eqb_spec (Entry.page entry) lp) as [Hp|Hp]; simpl;
    [by destruct Hne|..].
  all: assert (match prev with
               | Some prev_entry => (smooth prev_entry entry).1
               | None => entry
               end = entry) as ->;
    [|f_equal; by apply IH].
  all: destruct prev as [prev|]; [|done]; rewrite smooth_fst.
  all: destruct (String.eqb_spec (Entry.level prev) "H1"); [|done].
  all: destruct (String.eqb_spec (Entry.level entry) "H3"); [|done].
  all: by destruct Hskip.
Qed.

(** X7: the normaliser never adds an entry, never reorders entries, and
    never changes a text or a page: its result is a subsequence of the
    outline it was given, in which the only change is that some H3 entries
    have become H2. *)
Theorem normalize_outline_keeps outline :
  ∃ kept, kept `sublist_of` outline
    ∧ Forall2 kept_as (normalize_outline outline) kept.
Proof. rewrite normalize_outline_from. apply normalize_from_kept. Qed.

(** X8: no entry of the normalised outline repeats the (text, page) pair
    of the entry directly before it. *)
Theorem normalize_outline_no_repeat outline i a b :
  normalize_outline outline !! i = Some a →
  normalize_outline outline !! S i = Some b →
  ¬ (Entry.text b = Entry.text a ∧ Entry.page b = Entry.page a).
Proof.
  rewrite normalize_outline_from.
  apply no_repeat_lookup with (lt := []) (lp := -1).
  apply normalize_from_no_repeat.
Qed.

(** X8 at an outline that says "Intro" twice on page 1, then once on
    page 2: two entries are kept. *)
Lemma normalize_outline_no_repeat_witness :
  normalize_outline
    [Entry.mk "H1" (lit "Intro") 1; Entry.mk "H2" (lit "Intro") 1;
     Entry.mk "H1" (lit "Intro") 2]
  = [Entry.mk "H1" (lit "Intro") 1; Entry.mk "H1" (lit "Intro") 2]
  ∧ ¬ (Entry.text (Entry.mk "H1" (lit "Intro") 2)
       = Entry.text (Entry.mk "H1" (lit "Intro") 1)
       ∧ Entry.page (Entry.mk "H1" (lit "Intro") 2)
         = Entry.page (Entry.mk "H1" (lit "Intro") 1)).
Proof.
  split; [vm_compute; reflexivity|].
  apply (normalize_outline_no_repeat
           [Entry.mk "H1" (lit "Intro") 1; Entry.mk "H2" (lit "Intro") 1;
            Entry.mk "H1" (lit "Intro") 2] 0).
  - vm_compute. reflexivity.
  - vm_compute. reflexivity.
Defined.

(** X9: the outlines the normaliser returns unchanged are exactly those
    in which no entry repeats the (text, page) pair of the entry before it
    (for the first entry: the pair of the empty text and page -1) and no H3
    directly follows an H1. *)
Theorem normalize_outline_fixed_points outline :
  normalize_outline outline = outline
  ↔ no_repeat [] (-1) outline ∧ no_skip None outline.
Proof.
  rewrite normalize_outline_from. split.
  - intros <-. split;
      [apply normalize_from_no_repeat|apply normalize_from_no_skip].
  - intros [Hnr Hns]. by apply normalize_from_fixed.
Qed.

(** ** The title detector *)

Section TitleFacts.
Context {U : Unicode} {F : Fitz}.

Lemma lstrip_head s c : head (lstrip s) = Some c → isspace c = false.
Proof.
  induction s as [|d s IH]; simpl; [done|].
  destruct (isspace d) eqn:E; [done|]. simpl. by intros [= <-].
Qed.

Lemma lstrip_last s c :
  last s = Some c → isspace c = false → last (lstrip s) = Some c.
Proof.
  induction s as [|d s IH]; simpl; [done|]. intros Hlast Hc.
  destruct (isspace d) eqn:E; [|done].
  destruct s as [|d' s]; [simpl in Hlast; congruence|]. by apply IH.
Qed.

Lemma rstrip_last s c : last (rstrip s) = Some c → isspace c = false.
Proof. unfold rstrip. rewrite last_reverse. apply lstrip_head. Qed.

Lemma rstrip_head s c :
  head s = Some c → isspace c = false → head (rstrip s) = Some c.
Proof.
  unfold rstrip. rewrite head_reverse. intros Hs Hc.
  apply lstrip_last; [by rewrite last_reverse|done].
Qed.

(** [strip] leaves no white space at either end. *)
Lemma strip_ends s :
  (∀ c, head (strip s) = Some c → isspace c = false)
  ∧ (∀ c, last (strip s) = Some c → isspace c = false).
Proof.
  unfold strip. split; [|apply rstrip_last].
  destruct (head (lstrip s)) as [d|] eqn:E.
  - intros c. rewrite (rstrip_head _ d E (lstrip_head _ _ E)).
    intros [= <-]. by eapply lstrip_head.
  - apply head_None in E. rewrite E. by vm_compute.
Qed.

(** The loop for the largest font size. *)
Lemma foldl_max_font_size elements : ∀ m0,
  let m := foldl (λ m el, if m <? font_size el then font_size el else m)
             m0 elements in
  m0 ≤ m
  ∧ (∀ el, el ∈ elements → font_size el ≤ m)
  ∧ (m = m0 ∨ ∃ el, el ∈ elements ∧ font_size el = m).
Proof.
  induction elements as [|x l IH]; intros m0; simpl.
  { split_and!; [lia| |by left]. by intros el ?%elem_of_nil. }
  destruct (Z.ltb_spec m0 (font_size x)).
  - destruct (IH (font_size x)) as (Hle & Hmax & Hatt). split_and!; [lia| |].
    + intros el [->|Hel]%elem_of_cons; [done|by apply Hmax].
    + right. destruct Hatt as [->|(el & Hel & <-)].
      * exists x. split; [by left|done].
      * exists el. split; [by right|done].
  - destruct (IH m0) as (Hle & Hmax & Hatt). split_and!; [done| |].
    + intros el [->|Hel]%elem_of_cons; [lia|by apply Hmax].
    + destruct Hatt as [->|(el & Hel & <-)]; [by left|].
      right. exists el. split; [by right|done].
Qed.

Lemma max_font_size_of_spec elements :
  0 ≤ max_font_size_of elements
  ∧ (∀ el, el ∈ elements → font_size el ≤ max_font_size_of elements)
  ∧ (max_font_size_of elements = 0
     ∨ ∃ el, el ∈ elements ∧ font_size el = max_font_size_of elements).
Proof. apply foldl_max_font_size. Qed.

(** The size the title detector returns, for the first page [first]. *)
Lemma title_font_size_of self first rest :
  pages_data self = first :: rest →
  (identify_document_title self).1.2
  = if max_font_size_of first =? 0 then None
    else Some (max_font_size_of first).
Proof.
  intros Hp. unfold identify_document_title. rewrite Hp.
  destruct (max_font_size_of_spec first) as (Hpos & Hmax & Hatt).
  destruct first as [|el0 first'].
  { by vm_compute. }
  destruct (Z.eqb_spec (max_font_size_of (el0 :: first')) 0) as [|Hne];
    [done|].
  destruct Hatt as [|(el & Hel & Hsize)]; [done|].
  destruct (filter _ (el0 :: first')) as [|y ys] eqn:Ef; [|done].
  assert (el ∈ filter
            (λ element,
               Z.abs (font_size element - max_font_size_of (el0 :: first')) < 10)
            (el0 :: first')) as Hin.
  { apply list_elem_of_filter. split; [lia|done]. }
  rewrite Ef in Hin. by apply elem_of_nil in Hin.
Qed.

(** X10: the title that [identify_document_title] returns is never empty,
    and unless it is the placeholder "Untitled Document" it has no white
    space at its start or its end. *)
Theorem title_never_empty self :
  let title_text := (identify_document_title self).1.1 in
  title_text ≠ []
  ∧ (title_text = UNTITLED
     ∨ (∀ c, head title_text = Some c → isspace c = false)
       ∧ (∀ c, last title_text = Some c → isspace c = false)).
Proof.
  unfold identify_document_title.
  assert (UNTITLED ≠ []) as Hu by by vm_compute.
  repeat case_match; simpl; try (split; [done|by left]).
  all: match goal with
       | H : strip ?s = _ |- _ =>
           pose proof (strip_ends s) as Hends; rewrite H in Hends
       end.
  all: split; [done|by right].
Qed.

(** X11: the title font size that [identify_document_title] returns is
    the largest font size among the elements of the first page, provided
    that size is positive; it returns none exactly when there is no first
    page or no element of it has a positive size. *)
Theorem title_font_size_is_largest self m :
  (identify_document_title self).1.2 = Some m
  ↔ ∃ first rest,
      pages_data self = first :: rest ∧ 0 < m
      ∧ (∃ el, el ∈ first ∧ font_size el = m)
      ∧ ∀ el, el ∈ first → font_size el ≤ m.
Proof.
  destruct (pages_data self) as [|first rest] eqn:Hp.
  { unfold identify_document_title. rewrite Hp. split; [done|].
    by intros (? & ? & ? & _). }
  rewrite (title_font_size_of self first rest Hp).
  destruct (max_font_size_of_spec first) as (Hpos & Hmax & Hatt).
  split.
  - destruct (Z.eqb_spec (max_font_size_of first) 0); [done|].
    intros [= <-]. exists first, rest.
    destruct Hatt as [|Hatt]; [done|]. split_and!; [done|lia|done..].
  - intros (? & ? & [= <- <-] & Hm & (el & Hel & Hsize) & Hall).
    assert (max_font_size_of first = m) as ->.
    { specialize (Hmax el Hel).
      destruct Hatt as [|(el' & Hel' & Hsize')]; [lia|].
      specialize (Hall el' Hel'). lia. }
    by destruct (Z.eqb_spec m 0); [lia|].
Qed.

End TitleFacts.

(** ** The boilerplate filter and the line assembler *)

Section LineFacts.
Context {U : Unicode} {F : Fitz}.

Lemma line_step_kept page_height st element :
  kept_so_far (line_step page_height st element)
  = kept_so_far st
    ++ (if is_boilerplate page_height element then [] else [element]).
Proof.
  unfold line_step, kept_so_far.
  destruct (is_boilerplate _ _); [by rewrite app_nil_r|].
  destruct (Qltb _ _); simpl.
  - rewrite concat_app. simpl. by rewrite app_nil_r.
  - by rewrite app_assoc.
Qed.

Lemma foldl_line_step_kept page_height elements : ∀ st,
  kept_so_far (foldl (line_step page_height) st elements)
  = kept_so_far st
    ++ filter (λ el, is_boilerplate page_height el = false) elements.
Proof.
  induction elements as [|el els IH]; intros st; simpl.
  { by rewrite app_nil_r. }
  rewrite IH, line_step_kept, filter_cons, <- app_assoc.
  destruct (is_boilerplate page_height el); by case_decide.
Qed.

(** The lines of a page, put end to end, are the elements of the page that
    the boilerplate filter lets through. *)
Lemma assemble_lines_concat first others :
  concat (assemble_lines (first :: others))
  = filter (λ el, is_boilerplate (page_height_of first (first :: others)) el
                  = false)
      (first :: others).
Proof.
  unfold assemble_lines.
  pose proof (foldl_line_step_kept (page_height_of first (first :: others))
    (first :: others)
    {| current_line_y0 := (-1)%Q; temp_line_spans := [];
       lines_with_spans := [] |}) as Hk.
  unfold kept_so_far at 2 in Hk. simpl concat in Hk. simpl app in Hk.
  rewrite <- Hk. unfold kept_so_far.
  destruct (temp_line_spans _) as [|sp temp]; [by rewrite app_nil_r|].
  rewrite concat_app. simpl. by rewrite app_nil_r.
Qed.

Lemma near_self sp : near (line_y0 sp) sp.
Proof.
  unfold near.
  assert ((line_y0 sp - line_y0 sp) == 0)%Q as -> by ring.
  by apply Qle_bool_iff.
Qed.

Lemma Qltb_false a b : Qltb a b = false → (b <= a)%Q.
Proof.
  unfold Qltb. destruct (Qle_bool b a) eqn:E; [|done].
  intros _. by apply Qle_bool_iff.
Qed.

Lemma tops_inv_coherent st :
  tops_inv st → coherent (temp_line_spans st).
Proof.
  intros (_ & Hnear & Hanchor). unfold coherent.
  destruct (temp_line_spans st) as [|first rest] eqn:E; [done|].
  destruct Hanchor as [Hc|(f & r & [= <- <-] & Hc)]; rewrite Hc in Hnear;
    auto.
Qed.

Lemma line_step_tops page_height st element :
  tops_inv st → tops_inv (line_step page_height st element).
Proof.
  intros Hst. pose proof (tops_inv_coherent st Hst) as Hcoh.
  destruct Hst as (Hlines & Hnear & Hanchor). unfold line_step.
  destruct (is_boilerplate _ _); [done|].
  destruct (Qltb _ _) eqn:E; unfold tops_inv; simpl.
  - split_and!.
    + apply Forall_app. split; [done|]. by apply Forall_singleton.
    + apply Forall_singleton, near_self.
    + right. by exists element, [].
  - split_and!; [done| |].
    + apply Forall_app. split; [done|]. apply Forall_singleton.
      by apply Qltb_false in E.
    + destruct Hanchor as [Hc|(f & r & -> & Hc)]; [by left|].
      right. by exists f, (r ++ [element]).
Qed.

Lemma foldl_line_step_tops page_height elements : ∀ st,
  tops_inv st → tops_inv (foldl (line_step page_height) st elements).
Proof.
  induction elements as [|el els IH]; intros st Hst; simpl; [done|].
  by apply IH, line_step_tops.
Qed.

(** The pattern for links and addresses finds every "@". *)
Lemma url_re_at s : ∀ at0, AT ∈ s → re_search_from URL_RE at0 s = true.
Proof.
  induction s as [|c s IH]; intros at0 Hin; [by apply elem_of_nil in Hin|].
  simpl. apply orb_true_iff.
  destruct (decide (c = AT)) as [->|Hne].
  - left. apply bool_decide_eq_true.
    unfold URL_RE, Alts. cbn [re_run].
    repeat match goal with
           | |- is_Some (match ?x with Some _ => _ | None => _ end) =>
               destruct x; [eauto|]
           end.
    unfold Chr. cbn [re_run]. vm_compute. eauto.
  - right. apply elem_of_cons in Hin as [|Hin]; [done|]. by apply IH.
Qed.

(** X12: the boilerplate filter and the line assembler neither lose nor
    duplicate nor reorder text: the lines built for a page, put end to
    end, are exactly the elements of the page that are not boilerplate, in
    their order on the page. *)
Theorem lines_hold_the_kept_elements first others :
  concat (assemble_lines (first :: others))
  = filter (λ el, is_boilerplate (page_height_of first (first :: others)) el
                  = false)
      (first :: others).
Proof. apply assemble_lines_concat. Qed.

(** X13: every line the assembler builds is made of spans whose line tops
    lie within 0.1 of the line top of the line's first span (or, for a
    first line near the top -1 that the loop starts from, within 0.1 of
    -1). *)
Theorem lines_are_coherent page_elements line :
  line ∈ assemble_lines page_elements → coherent line.
Proof.
  unfold assemble_lines.
  destruct page_elements as [|first others]; [by intros ?%elem_of_nil|].
  set (st0 := {| current_line_y0 := (-1)%Q; temp_line_spans := [];
                 lines_with_spans := [] |}).
  assert (tops_inv st0) as H0.
  { unfold tops_inv. simpl. split_and!; [constructor..|by left]. }
  pose proof (foldl_line_step_tops
    (page_height_of first (first :: others)) (first :: others) st0 H0) as Hst.
  pose proof (tops_inv_coherent _ Hst) as Hcoh.
  destruct Hst as (Hlines & _).
  pose proof (proj1 (Forall_forall _ _) Hlines) as Hall.
  destruct (temp_line_spans _) as [|sp temp]; [apply Hall|].
  intros [Hin| ->%list_elem_of_singleton]%elem_of_app; [by apply Hall|done].
Qed.

(** X14: an element whose lowercased text contains "@" reaches no line,
    wherever it is on the page and whatever its size. *)
Theorem address_reaches_no_line page_elements line sp :
  AT ∈ lower (text sp) → line ∈ assemble_lines page_elements → sp ∉ line.
Proof.
  intros Hat Hline Hsp.
  destruct page_elements as [|first others]; [by apply elem_of_nil in Hline|].
  assert (sp ∈ concat (assemble_lines (first :: others))) as Hin.
  { apply list_elem_of_In, in_concat. exists line.
    split; by apply list_elem_of_In. }
  rewrite assemble_lines_concat in Hin.
  apply list_elem_of_filter in Hin as [Hbp _].
  unfold is_boilerplate in Hbp. unfold re_search in Hbp.
  rewrite (url_re_at _ true Hat) in Hbp. done.
Qed.

(** *** Numbers and punctuation *)

Lemma re_run_cat {A} r1 r2 at0 s (k : bool → str → option A) :
  re_run (Cat r1 r2) at0 s k
  = re_run r1 at0 s (λ at0' s', re_run r2 at0' s' k).
Proof. done. Qed.

Lemma re_run_bol {A} s (k : bool → str → option A) :
  re_run Bol true s k = k true s.
Proof. done. Qed.

Lemma re_run_cls {A} p at0 c s (k : bool → str → option A) :
  re_run (Cls p) at0 (c :: s) k = if p c then k false s else None.
Proof. done. Qed.

(** A starred class that fails on the first character matches the empty
    string. *)
Lemma star_cls_none {A} p at0 s (k : bool → str → option A) :
  (∀ c, head s = Some c → p c = false) →
  re_run (Star (Cls p)) at0 s k = k at0 s.
Proof.
  intros Hhead. destruct s as [|c s]; [done|].
  cbn. by rewrite (Hhead c eq_refl).
Qed.

(** A starred class matches a string made of its characters up to the
    end. *)
Lemma star_cls_all {A} p s (k : bool → str → option A) : ∀ at0,
  Forall (λ c, p c = true) s → (∀ a, is_Some (k a [])) →
  is_Some (re_run (Star (Cls p)) at0 s k).
Proof.
  intros at0 Hall Hk. cbn [re_run].
  match goal with
  | |- is_Some (?loop (length s) at0 s) =>
      cut (∀ fuel a s', (length s' ≤ fuel)%nat →
             Forall (λ c, p c = true) s' → is_Some (loop fuel a s'))
  end.
  { intros Hcut. by apply Hcut. }
  clear s at0 Hall.
  induction fuel as [|fuel IH]; intros a s Hlen Hall.
  - destruct s; [apply Hk|simpl in Hlen; lia].
  - destruct s as [|c s]; [apply Hk|].
    apply Forall_cons in Hall as [Hc Hall]. simpl in Hlen.
    cbn [re_run]. rewrite Hc.
    destruct (Nat.ltb_spec (length s) (length (c :: s))) as [_|Hge];
      [|simpl in Hge; lia].
    destruct (IH false s ltac:(lia) Hall) as [x Hx]. rewrite Hx. eauto.
Qed.

(** The pattern for numbers and punctuation matches every string made of
    such characters. *)
Lemma punct_re_matches s :
  s ≠ [] → Forall (λ c, digit_or_punctuation c = true) s →
  Forall (λ c, isspace c = false) s →
  re_fullmatch PUNCT_RE s = true.
Proof.
  intros Hne Hall Hink. destruct s as [|c s]; [done|].
  apply Forall_cons in Hall as [Hc Hall].
  apply Forall_cons in Hink as [Hsp _].
  unfold re_fullmatch. apply bool_decide_eq_true.
  unfold PUNCT_RE, Cats, Plus, Space.
  rewrite re_run_cat, re_run_bol, re_run_cat.
  rewrite star_cls_none by (by intros ? [= <-]).
  rewrite !re_run_cat, re_run_cls.
  change (_ || bool_decide (c ∈ _)) with (digit_or_punctuation c).
  rewrite Hc. apply (star_cls_all digit_or_punctuation); [done|].
  intros a. cbn. eauto.
Qed.

(** X15: an element whose text is made only of ASCII digits and the
    characters ( ) . , - – : reaches no line, wherever it is on the page
    and whatever its size (none of these characters is white space, and
    lowercasing leaves them alone): a page number, and also a section
    number that is a span of its own. *)
Theorem number_reaches_no_line page_elements line sp :
  text sp ≠ [] →
  Forall (λ c, digit_or_punctuation c = true) (text sp) →
  Forall (λ c, isspace c = false) (text sp) →
  lower (text sp) = text sp →
  line ∈ assemble_lines page_elements → sp ∉ line.
Proof.
  intros Hne Hall Hink Hlower Hline Hsp.
  destruct page_elements as [|first others]; [by apply elem_of_nil in Hline|].
  assert (sp ∈ concat (assemble_lines (first :: others))) as Hin.
  { apply list_elem_of_In, in_concat. exists line.
    split; by apply list_elem_of_In. }
  rewrite assemble_lines_concat in Hin.
  apply list_elem_of_filter in Hin as [Hbp _].
  unfold is_boilerplate in Hbp.
  rewrite Hlower, (punct_re_matches _ Hne Hall Hink) in Hbp.
  by rewrite !orb_true_r in Hbp.
Qed.

End LineFacts.

(** X13 at two spans of one line followed by a span 14 lower: the first
    line holds the two spans. *)
Lemma lines_are_coherent_witness :
  coherent [mk_span (lit "Results") 1100 false false 1 300;
            mk_span (lit "and discussion") 1100 false false 1 300].
Proof.
  apply (lines_are_coherent (U := ascii_tables) (F := plain_rects)
           [mk_span (lit "Results") 1100 false false 1 300;
            mk_span (lit "and discussion") 1100 false false 1 300;
            mk_span (lit "Body text follows.") 1100 false false 1 314]).
  vm_compute. right. left.
Defined.

(** X14 at a page with a heading and an address: only the heading is on a
    line. *)
Lemma address_reaches_no_line_witness :
  assemble_lines (U := ascii_tables) (F := plain_rects)
    [mk_span (lit "Contact") 1400 true false 1 300;
     mk_span (lit "Jane.Doe@example.org") 1400 true false 1 320]
  = [[]; [mk_span (lit "Contact") 1400 true false 1 300]]
  ∧ mk_span (lit "Jane.Doe@example.org") 1400 true false 1 320
    ∉ [mk_span (lit "Contact") 1400 true false 1 300].
Proof.
  split; [vm_compute; reflexivity|].
  apply (address_reaches_no_line (U := ascii_tables) (F := plain_rects)
           [mk_span (lit "Contact") 1400 true false 1 300;
            mk_span (lit "Jane.Doe@example.org") 1400 true false 1 320]).
  - vm_compute. do 9 constructor.
  - vm_compute. right. left.
Defined.

(** X15 at a heading whose number is a span of its own: only the word is
    on a line. *)
Lemma number_reaches_no_line_witness :
  assemble_lines (U := ascii_tables) (F := plain_rects)
    [mk_span (lit "2.") 1600 true false 1 300;
     mk_span (lit "Methods") 1600 true false 1 300]
  = [[]; [mk_span (lit "Methods") 1600 true false 1 300]]
  ∧ mk_span (lit "2.") 1600 true false 1 300
    ∉ [mk_span (lit "Methods") 1600 true false 1 300].
Proof.
  split; [vm_compute; reflexivity|].
  apply (number_reaches_no_line (U := ascii_tables) (F := plain_rects)
           [mk_span (lit "2.") 1600 true false 1 300;
            mk_span (lit "Methods") 1600 true false 1 300]).
  - vm_compute. congruence.
  - repeat constructor.
  - repeat constructor.
  - reflexivity.
  - vm_compute. right. left.
Defined.

(** ** The heading classifier: lines it accepts and lines it rejects *)

Section RuleFacts.
Context {U : Unicode}.

Lemma split_on_length c s : (1 ≤ length (split_on c s))%nat.
Proof.
  induction s as [|d s IH]; simpl; [lia|].
  destruct (N.eqb d c); simpl; [lia|].
  destruct (split_on c s); simpl in *; lia.
Qed.

Lemma numeric_pattern_nonempty s group :
  numeric_pattern s = Some group → s ≠ [].
Proof. intros H ->. by vm_compute in H. Qed.

(** The acceptance filter lets every numbered line through. *)
Lemma acceptance_filter_numbered any_bold bullet mc period c :
  acceptance_filter false any_bold true bullet mc period c = c.
Proof.
  unfold acceptance_filter. cbn [orb negb].
  rewrite andb_false_r. cbn [andb].
  by destruct (is_potential_heading c), period.
Qed.

(** The acceptance filter only ever clears the flag. *)
Lemma acceptance_filter_kept auth any_bold numbered bullet mc period c :
  text_to_classify (acceptance_filter auth any_bold numbered bullet mc period c)
  = text_to_classify c
  ∧ level_candidate (acceptance_filter auth any_bold numbered bullet mc period c)
    = level_candidate c.
Proof. unfold acceptance_filter. by repeat case_match. Qed.

Lemma keyword_level_none patterns text_lower gate :
  existsb (λ p, re_match p.1 text_lower) patterns = false →
  keyword_level patterns text_lower gate = None.
Proof.
  induction patterns as [|[pattern l] patterns IH]; simpl; [done|].
  intros [-> Hrest]%orb_false_iff. simpl. by apply IH.
Qed.


(** The variables after rules 1 to 3 on a numbered line that passes the
    comma and length tests. *)
Lemma rules_1_3_numbered fm line group :
  numeric_pattern (full_text line) = Some group →
  re_match COMMA_RE (full_text line) = false →
  word_count (full_text line) ≤ 20 →
  re_match BULLET_RE (full_text line) = false →
  rules_1_3 fm line
  = {| text_to_classify := full_text line;
       level_candidate :=
         let parts := split_on PERIOD group in
         if (length parts =? 3)%nat then Some "H3"
         else if (length parts =? 2)%nat then Some "H2"
         else if (length parts =? 1)%nat then Some "H1"
         else font_level fm (most_common (font_size <$> line));
       is_potential_heading := true |}.
Proof.
  intros Hnum Hcomma Hwords Hb. unfold rules_1_3.
  rewrite Hnum, Hb. unfold bullet_rule, numbering_rule, font_rule.
  cbn [text_to_classify level_candidate is_potential_heading].
  rewrite Hcomma. simpl (bool_decide _ || _).
  by destruct (Z.ltb_spec 20 (word_count (full_text line))); [lia|].
Qed.

(** What the body of the loop appends when rules 1 to 3 have set the
    flag, no later rule fires, and the line is numbered and not
    bullet-prefixed. *)
Lemma classify_numbered fm text_lower first rest next group c :
  full_text (first :: rest) ≠ [] →
  numeric_pattern (full_text (first :: rest)) = Some group →
  re_match BULLET_RE (full_text (first :: rest)) = false →
  bold_prefix_match_of (first :: rest) = None →
  rules_1_3 fm (first :: rest) = c → is_potential_heading c = true →
  classify_line fm text_lower (first :: rest) next
  = Some (if truthy (level_candidate c)
          then match level_candidate c with
               | Some l => Some (Entry.mk l (text_to_classify c) (page first))
               | None => None
               end
          else None).
Proof.
  intros Hfull Hnum Hb Hprefix H3 Hpot.
  assert (rules_1_4 fm (first :: rest) = c) as H4
    by (unfold rules_1_4; by rewrite Hprefix, H3).
  assert (split_text_of fm (first :: rest) = None) as Hsplit
    by (unfold split_text_of; by rewrite H4, Hpot).
  assert (rules_1_5 fm (first :: rest) = c) as H5
    by (unfold rules_1_5; by rewrite Hsplit, H4).
  rewrite classify_line_text by done.
  unfold classify_text_line. cbv zeta.
  rewrite H5, Hsplit, Hprefix, Hb, Hnum, Hpot.
  cbn [keyword_rule]. rewrite Hpot.
  unfold bullet_lookahead. cbn [andb mbind option_bind].
  simpl (bool_decide (is_Some (Some group)) || _).
  simpl (bool_decide (is_Some None)). cbn [orb].
  rewrite acceptance_filter_numbered, Hpot. cbn [negb andb].
  by rewrite Hpot.
Qed.

(** X16: a numbered line ("2 Methods", "2.1 Data", "2.1.3 Sources") that
    has no comma after its number, at most 20 words, no bullet and no bold
    prefix ending in a colon is appended with its full text, at the level
    given by the number of dot-separated parts of its number: H1 for one,
    H2 for two, H3 for three, whatever its font size, weight and final
    punctuation. *)
Theorem numbered_line_level fm text_lower first rest next group :
  numeric_pattern (full_text (first :: rest)) = Some group →
  re_match COMMA_RE (full_text (first :: rest)) = false →
  word_count (full_text (first :: rest)) ≤ 20 →
  re_match BULLET_RE (full_text (first :: rest)) = false →
  bold_prefix_match_of (first :: rest) = None →
  (length (split_on PERIOD group) ≤ 3)%nat →
  classify_line fm text_lower (first :: rest) next
  = Some (Some (Entry.mk
                  (match length (split_on PERIOD group) with
                   | 3%nat => "H3"
                   | 2%nat => "H2"
                   | _ => "H1"
                   end)
                  (full_text (first :: rest)) (page first))).
Proof.
  intros Hnum Hcomma Hwords Hb Hprefix Hparts.
  pose proof (numeric_pattern_nonempty _ _ Hnum) as Hfull.
  pose proof (split_on_length PERIOD group) as Hlen.
  erewrite classify_numbered;
    [|done..|by apply rules_1_3_numbered|done].
  cbn [level_candidate text_to_classify]. cbv zeta.
  destruct (length (split_on PERIOD group)) as [|[|[|[|n]]]]; try lia; done.
Qed.

(** X17: a numbered line whose number has four or more parts
    ("1.2.3.4 Details") takes its level from the font map alone: when its
    font size is not within 1.0pt of a mapped size, it is not appended. *)
Theorem deep_numbered_line_dropped fm text_lower first rest next group :
  numeric_pattern (full_text (first :: rest)) = Some group →
  re_match COMMA_RE (full_text (first :: rest)) = false →
  word_count (full_text (first :: rest)) ≤ 20 →
  re_match BULLET_RE (full_text (first :: rest)) = false →
  bold_prefix_match_of (first :: rest) = None →
  (4 ≤ length (split_on PERIOD group))%nat →
  font_level fm (most_common (font_size <$> first :: rest)) = None →
  classify_line fm text_lower (first :: rest) next = Some None.
Proof.
  intros Hnum Hcomma Hwords Hb Hprefix Hparts Hfont.
  pose proof (numeric_pattern_nonempty _ _ Hnum) as Hfull.
  erewrite classify_numbered;
    [|done..|by apply rules_1_3_numbered|done].
  cbn [level_candidate text_to_classify]. cbv zeta. rewrite Hfont.
  destruct (length (split_on PERIOD group)) as [|[|[|[|n]]]]; try lia; done.
Qed.


(** X18: a line with no bold span, in a font under 12pt, that is not
    numbered, lettered or bullet-prefixed, has no usable colon and does not
    pass the keyword test, is never appended, even when the font map gives
    a level to its size. *)
Theorem plain_small_line_rejected fm text_lower line next :
  existsb is_bold line = false →
  most_common (font_size <$> line) < 1200 →
  numeric_pattern (full_text line) = None →
  re_match ALPHA_RE (full_text line) = false →
  re_match BULLET_RE (full_text line) = false →
  colon_split (full_text line) = None →
  existsb (λ p, re_match p.1 text_lower) keyword_patterns = false →
  classify_line fm text_lower line next = Some None.
Proof.
  intros Hbold Hsmall Hnum Halpha Hb Hcolon Hkw.
  unfold classify_line. destruct (full_text line) as [|ch full'] eqn:Hfull;
    [done|].
  destruct line as [|first rest]; [done|].
  rewrite <- Hfull in *. clear Hfull ch full'.
  assert (bold_prefix_match_of (first :: rest) = None) as Hprefix.
  { simpl in Hbold. apply orb_false_iff in Hbold as [Hf _].
    unfold bold_prefix_match_of. by rewrite Hf. }
  set (c := font_rule fm (most_common (font_size <$> first :: rest))
              (full_text (first :: rest))).
  assert (rules_1_3 fm (first :: rest) = c) as H3.
  { unfold rules_1_3. by rewrite Hnum, Halpha, Hb. }
  assert (rules_1_4 fm (first :: rest) = c) as H4
    by (unfold rules_1_4; by rewrite Hprefix, H3).
  assert (split_text_of fm (first :: rest) = None) as Hsplit.
  { unfold split_text_of. rewrite Hcolon. by destruct (is_potential_heading _). }
  assert (rules_1_5 fm (first :: rest) = c) as H5
    by (unfold rules_1_5; by rewrite Hsplit, H4).
  unfold classify_text_line. cbv zeta.
  rewrite H5, Hsplit, Hprefix, Hb, Hnum, Halpha, Hbold.
  rewrite (keyword_level_none _ _ _ Hkw).
  assert ((if is_potential_heading c then None else @None string) = None)
    as -> by by destruct (is_potential_heading c).
  cbn [keyword_rule]. unfold bullet_lookahead. cbn [andb mbind option_bind].
  simpl (bool_decide (is_Some None)). cbn [orb].
  unfold acceptance_filter. cbn [negb andb orb].
  destruct (Z.ltb_spec (most_common (font_size <$> first :: rest)) 1200);
    [|lia].
  destruct (is_potential_heading c) eqn:Hpot;
    cbn [mbind option_bind clear is_potential_heading negb andb].
  - by destruct (endswith PERIOD (text_to_classify c)).
  - rewrite andb_false_r. by rewrite Hpot.
Qed.

(** X19: when rules 1 to 4 have not marked a line and its text has a
    usable colon (under 10 words before the first colon, text after it that
    does not start like a list item), the line is appended at H3 with the
    text up to and including the colon: no later filter rejects it. *)
Theorem colon_line_accepted fm text_lower first rest next heading_text :
  is_potential_heading (rules_1_4 fm (first :: rest)) = false →
  colon_split (full_text (first :: rest)) = Some heading_text →
  classify_line fm text_lower (first :: rest) next
  = Some (Some (Entry.mk "H3" heading_text (page first))).
Proof.
  intros Hpot Hcolon.
  assert (full_text (first :: rest) ≠ []) as Hfull.
  { intros E. rewrite E in Hcolon. by vm_compute in Hcolon. }
  assert (re_match BULLET_RE (full_text (first :: rest)) = false) as Hb.
  { destruct (re_match _ _) eqn:E; [|done].
    rewrite rules_1_4_potential in Hpot; [done|]. by apply rules_1_3_bullet. }
  assert (split_text_of fm (first :: rest) = Some heading_text) as Hsplit
    by (unfold split_text_of; by rewrite Hpot).
  assert (rules_1_5 fm (first :: rest)
          = {| text_to_classify := heading_text;
               level_candidate := Some "H3";
               is_potential_heading := true |}) as H5
    by (unfold rules_1_5; by rewrite Hsplit).
  rewrite classify_line_text by done.
  unfold classify_text_line. cbv zeta. rewrite H5, Hsplit, Hb.
  cbn [keyword_rule is_potential_heading]. unfold bullet_lookahead.
  cbn [andb mbind option_bind].
  simpl (bool_decide (is_Some (Some heading_text))). rewrite orb_true_r.
  by cbn.
Qed.

(** *** Where an H1 can come from *)

Lemma numbering_rule_h1 fm mc full numeric alpha :
  h1_only_when
    (font_level fm mc = Some "H1"
     ∨ (∃ group, numeric = Some group
                 ∧ length (split_on PERIOD group) = 1%nat)
     ∨ alpha = true)
    (numbering_rule numeric alpha (font_rule fm mc full)).
Proof.
  unfold h1_only_when, numbering_rule, font_rule.
  cbn [text_to_classify level_candidate is_potential_heading].
  destruct numeric as [group|]; simpl (bool_decide _ || _).
  - destruct (re_match COMMA_RE full); [by left|].
    destruct (20 <? word_count full); [by left|].
    cbn [level_candidate].
    destruct (Nat.eqb_spec (length (split_on PERIOD group)) 3); [done|].
    destruct (Nat.eqb_spec (length (split_on PERIOD group)) 2); [done|].
    destruct (Nat.eqb_spec (length (split_on PERIOD group)) 1); [|by left].
    intros _. right. left. eauto.
  - destruct alpha; [by right; right|]. by left.
Qed.

Lemma bullet_rule_h1 S bullet c :
  h1_only_when S c → h1_only_when S (bullet_rule bullet c).
Proof.
  unfold h1_only_when, bullet_rule. destruct bullet; [|done].
  cbn [level_candidate]. by destruct (weaker_than 3 (level_candidate c)).
Qed.

Lemma bold_prefix_rule_h1 S prefix bullet c :
  h1_only_when S c → h1_only_when S (bold_prefix_rule prefix bullet c).
Proof.
  unfold h1_only_when, bold_prefix_rule. destruct prefix; [|done].
  cbn [level_candidate]. destruct bullet; [done|].
  by destruct (weaker_than 2 (level_candidate c)).
Qed.

Lemma colon_rule_h1 S split_text c :
  h1_only_when S c → h1_only_when S (colon_rule split_text c).
Proof. unfold h1_only_when, colon_rule. by destruct split_text. Qed.

Lemma keyword_rule_h1 S keyword full c :
  (∀ l, keyword = Some l → l = "H3") →
  h1_only_when S c → h1_only_when S (keyword_rule keyword full c).
Proof.
  unfold h1_only_when, keyword_rule. intros Hk. destruct keyword as [l|]; [|done].
  rewrite (Hk l eq_refl). done.
Qed.

Lemma bold_fallback_h1 S line first full all_bold prefix_match c :
  h1_only_when S c →
  h1_only_when S (bold_fallback line first full all_bold prefix_match c).
Proof.
  unfold h1_only_when, bold_fallback. intros Hc.
  repeat case_match; try done.
Qed.

(** X20: an entry is appended at level H1 only for a line whose font size
    the map gives H1, a line numbered with a single number ("3 Methods"),
    or a line numbered with a capital letter ("A. Proofs"); bullets, bold
    text, colons and keywords never produce an H1. *)
Theorem h1_entry_origin fm text_lower line next e :
  classify_line fm text_lower line next = Some (Some e) →
  Entry.level e = "H1" →
  font_level fm (most_common (font_size <$> line)) = Some "H1"
  ∨ (∃ group, numeric_pattern (full_text line) = Some group
              ∧ length (split_on PERIOD group) = 1%nat)
  ∨ re_match ALPHA_RE (full_text line) = true.
Proof.
  intros (first & rest & -> & Hfull & He)%classify_line_appends Hlevel.
  revert He. unfold classify_text_line. cbv zeta.
  set (S := font_level fm (most_common (font_size <$> first :: rest))
             = Some "H1"
            ∨ (∃ group, numeric_pattern (full_text (first :: rest)) = Some group
                        ∧ length (split_on PERIOD group) = 1%nat)
            ∨ re_match ALPHA_RE (full_text (first :: rest)) = true).
  assert (h1_only_when S (rules_1_5 fm (first :: rest))) as H5.
  { unfold rules_1_5, rules_1_4, rules_1_3.
    apply colon_rule_h1, bold_prefix_rule_h1, bullet_rule_h1,
      numbering_rule_h1. }
  set (c5 := rules_1_5 fm (first :: rest)) in *.
  set (keyword := if is_potential_heading c5 then None else _).
  assert (h1_only_when S (keyword_rule keyword (full_text (first :: rest)) c5))
    as H6.
  { apply keyword_rule_h1; [|done]. intros l. unfold keyword.
    case_match; [done|]. apply keyword_level_h3. }
  set (c6 := keyword_rule keyword _ c5) in *.
  destruct (if is_potential_heading c6 then _ else _) as [c8|] eqn:E8;
    [|done].
  assert (h1_only_when S c8) as H8.
  { destruct (is_potential_heading c6); [|by simplify_eq].
    destruct (bullet_lookahead _ _ _ _ _ _) as [c7|] eqn:E7; [|done].
    simpl in E8. simplify_eq.
    apply bullet_lookahead_kept in E7 as [_ Hl7].
    unfold h1_only_when.
    rewrite (proj2 (acceptance_filter_kept _ _ _ _ _ _ _)), Hl7. done. }
  cbn [mbind option_bind].
  set (c9 := if negb (is_potential_heading c8) && _ then _ else c8).
  assert (h1_only_when S c9) as H9.
  { unfold c9. destruct (negb _ && _); [|done]. by apply bold_fallback_h1. }
  destruct (is_potential_heading c9 && truthy (level_candidate c9)); [|done].
  destruct (level_candidate c9) as [l|] eqn:El; [|done].
  intros [= <-]. simpl in Hlevel. subst l. by apply H9.
Qed.

(** *** Where the text of an entry comes from *)

Lemma rules_1_3_text fm line :
  text_to_classify (rules_1_3 fm line) = full_text line.
Proof.
  unfold rules_1_3, bullet_rule, numbering_rule, font_rule.
  by repeat case_match.
Qed.

Lemma rules_1_5_text fm line :
  text_to_classify (rules_1_5 fm line) = full_text line
  ∨ bold_prefix_match_of line = Some (text_to_classify (rules_1_5 fm line))
  ∨ colon_split (full_text line)
    = Some (text_to_classify (rules_1_5 fm line)).
Proof.
  unfold rules_1_5, colon_rule.
  destruct (split_text_of fm line) as [t|] eqn:Es.
  { right. right. unfold split_text_of in Es.
    by destruct (is_potential_heading _). }
  unfold rules_1_4, bold_prefix_rule.
  destruct (bold_prefix_match_of line) as [p|]; [by right; left|].
  left. apply rules_1_3_text.
Qed.

Lemma bold_fallback_text line first full all_bold prefix_match c :
  text_to_classify (bold_fallback line first full all_bold prefix_match c)
  = text_to_classify c
  ∨ text_to_classify (bold_fallback line first full all_bold prefix_match c)
    = strip (bold_segment line).1.
Proof.
  unfold bold_fallback. destruct all_bold; [by repeat case_match; left|].
  destruct (negb prefix_match); [|by left].
  destruct (is_bold first); [|by left].
  destruct (bold_segment line) as [segment followed].
  destruct (_ && _); [by right|by left].
Qed.

(** X21: the text of an appended entry is the text of its line, or the
    leading bold run of the line that ends in a colon, or the part of the
    line up to its first colon, or the leading bold run of the line; each
    stripped of outer white space. *)
Theorem entry_text_origin fm text_lower line next e :
  classify_line fm text_lower line next = Some (Some e) →
  Entry.text e = full_text line
  ∨ bold_prefix_match_of line = Some (Entry.text e)
  ∨ colon_split (full_text line) = Some (Entry.text e)
  ∨ Entry.text e = strip (bold_segment line).1.
Proof.
  intros (first & rest & -> & Hfull & He)%classify_line_appends.
  revert He. unfold classify_text_line. cbv zeta.
  pose proof (rules_1_5_text fm (first :: rest)) as H5.
  set (c5 := rules_1_5 fm (first :: rest)) in *.
  set (keyword := if is_potential_heading c5 then None else _).
  set (c6 := keyword_rule keyword _ c5).
  assert (text_to_classify c6 = full_text (first :: rest)
          ∨ text_to_classify c6 = text_to_classify c5) as H6.
  { unfold c6, keyword_rule. destruct keyword; [by left|by right]. }
  destruct (if is_potential_heading c6 then _ else _) as [c8|] eqn:E8;
    [|done].
  assert (text_to_classify c8 = text_to_classify c6) as H8.
  { destruct (is_potential_heading c6); [|by simplify_eq].
    destruct (bullet_lookahead _ _ _ _ _ _) as [c7|] eqn:E7; [|done].
    simpl in E8. simplify_eq.
    apply bullet_lookahead_kept in E7 as [Ht7 _].
    by rewrite (proj1 (acceptance_filter_kept _ _ _ _ _ _ _)). }
  cbn [mbind option_bind].
  set (c9 := if negb (is_potential_heading c8) && _ then _ else c8).
  assert (text_to_classify c9 = text_to_classify c8
          ∨ text_to_classify c9 = strip (bold_segment (first :: rest)).1)
    as H9.
  { unfold c9. destruct (negb _ && _); [|by left]. apply bold_fallback_text. }
  destruct (is_potential_heading c9 && truthy (level_candidate c9)); [|done].
  destruct (level_candidate c9) as [l|]; [|done].
  intros [= <-]. cbn [Entry.text].
  destruct H9 as [->| ->]; [|by right; right; right].
  rewrite H8. destruct H6 as [->| ->]; [by left|].
  destruct H5 as [?|[?|?]]; auto.
Qed.

(** *** Lines in bold *)

Lemma weaker_than_false n lc :
  weaker_than n lc = false → truthy lc = true.
Proof.
  unfold weaker_than. intros [Ht _]%orb_false_iff.
  by destruct (truthy lc).
Qed.

Lemma font_rule_committed fm mc full : committed (font_rule fm mc full).
Proof. unfold committed, font_rule. done. Qed.

Lemma numbering_rule_committed numeric alpha c :
  (∀ group, numeric = Some group → (length (split_on PERIOD group) ≤ 3)%nat) →
  committed c → committed (numbering_rule numeric alpha c).
Proof.
  unfold committed, numbering_rule. intros Hparts Hc.
  destruct (bool_decide _ || _); [|done].
  destruct (re_match COMMA_RE _); [done|].
  destruct (20 <? _); [done|]. cbn [level_candidate is_potential_heading].
  intros _. destruct numeric as [group|].
  - specialize (Hparts group eq_refl).
    pose proof (split_on_length PERIOD group).
    destruct (length (split_on PERIOD group)) as [|[|[|[|n]]]];
      try lia; done.
  - destruct (weaker_than 1 (level_candidate c)) eqn:E; [done|].
    by eapply weaker_than_false.
Qed.

Lemma bullet_rule_committed bullet c :
  committed c → committed (bullet_rule bullet c).
Proof.
  unfold committed, bullet_rule. intros Hc. destruct bullet; [|done].
  cbn [level_candidate is_potential_heading]. intros _.
  destruct (weaker_than 3 (level_candidate c)) eqn:E; [done|].
  by eapply weaker_than_false.
Qed.

Lemma bold_prefix_rule_committed prefix bullet c :
  committed c → committed (bold_prefix_rule prefix bullet c).
Proof.
  unfold committed, bold_prefix_rule. intros Hc. destruct prefix; [|done].
  cbn [level_candidate is_potential_heading]. intros _.
  destruct bullet; [done|].
  destruct (weaker_than 2 (level_candidate c)) eqn:E; [done|].
  by eapply weaker_than_false.
Qed.

Lemma colon_rule_committed split_text c :
  committed c → committed (colon_rule split_text c).
Proof. unfold committed, colon_rule. by destruct split_text. Qed.

Lemma keyword_rule_committed keyword full c :
  (∀ l, keyword = Some l → l = "H3") →
  committed c → committed (keyword_rule keyword full c).
Proof.
  unfold committed, keyword_rule. intros Hk Hc.
  destruct keyword as [l|]; [|done]. by rewrite (Hk l eq_refl).
Qed.

Lemma acceptance_filter_committed auth any_bold numbered bullet mc period c :
  committed c →
  committed (acceptance_filter auth any_bold numbered bullet mc period c).
Proof.
  unfold committed, acceptance_filter. intros Hc.
  repeat case_match; try done.
Qed.

Lemma bullet_lookahead_potential bullet mc line first next c c' :
  bullet_lookahead bullet mc line first next c = Some c' →
  is_potential_heading c' = true → is_potential_heading c = true.
Proof.
  unfold bullet_lookahead.
  destruct (bullet && _); [|by intros [= <-]].
  set (c1 := if (60 <? _)%nat then clear c else c).
  assert (is_potential_heading c1 = true → is_potential_heading c = true)
    as H1 by (unfold c1; by case_match).
  destruct (is_potential_heading c1) eqn:E1; [intros _ _; by apply H1|].
  intros [= <-] Hp. congruence.
Qed.

Lemma bullet_lookahead_committed bullet mc line first next c c' :
  committed c → bullet_lookahead bullet mc line first next c = Some c' →
  committed c'.
Proof.
  unfold committed. intros Hc Hlook Hpot.
  pose proof (bullet_lookahead_potential _ _ _ _ _ _ _ Hlook Hpot) as Hp.
  apply bullet_lookahead_kept in Hlook as [_ ->]. by apply Hc.
Qed.

Lemma bullet_lookahead_returns bullet mc line first next c :
  next ≠ Some [] → is_Some (bullet_lookahead bullet mc line first next c).
Proof.
  intros Hnext. unfold bullet_lookahead.
  destruct (bullet && _); [|eauto].
  destruct (is_potential_heading _); [|eauto].
  destruct next as [[|sp next]|]; [done|simpl; eauto|eauto].
Qed.

(** X22: a line whose spans are all bold, whose text is under 150
    characters and does not end in a period, and whose number, if it has
    one, has at most three parts, is always appended, whatever its size
    and whatever follows it. *)
Theorem bold_line_accepted fm text_lower first rest next :
  forallb is_bold (first :: rest) = true →
  full_text (first :: rest) ≠ [] →
  (length (full_text (first :: rest)) < 150)%nat →
  endswith PERIOD (full_text (first :: rest)) = false →
  (∀ group, numeric_pattern (full_text (first :: rest)) = Some group →
            (length (split_on PERIOD group) ≤ 3)%nat) →
  next ≠ Some [] →
  ∃ l t, classify_line fm text_lower (first :: rest) next
         = Some (Some (Entry.mk l t (page first))).
Proof.
  intros Hbold Hfull Hlen Hperiod Hparts Hnext.
  assert (existsb is_bold (first :: rest) = true) as Hany.
  { simpl in *. apply andb_prop in Hbold as [-> _]. done. }
  rewrite classify_line_text by done.
  unfold classify_text_line. cbv zeta. rewrite Hbold, Hany.
  assert (committed (rules_1_5 fm (first :: rest))) as H5.
  { unfold rules_1_5, rules_1_4, rules_1_3.
    apply colon_rule_committed, bold_prefix_rule_committed,
      bullet_rule_committed, numbering_rule_committed, font_rule_committed.
    done. }
  set (c5 := rules_1_5 fm (first :: rest)) in *.
  set (keyword := if is_potential_heading c5 then None else _).
  assert (committed (keyword_rule keyword (full_text (first :: rest)) c5))
    as H6.
  { apply keyword_rule_committed; [|done]. intros l. unfold keyword.
    case_match; [done|]. apply keyword_level_h3. }
  set (c6 := keyword_rule keyword _ c5) in *.
  assert (∃ c8, (if is_potential_heading c6
                 then c7 ← bullet_lookahead
                             (re_match BULLET_RE (full_text (first :: rest)))
                             (most_common (font_size <$> first :: rest))
                             (first :: rest) first next c6;
                      Some (acceptance_filter
                              (bool_decide
                                 (is_Some (bold_prefix_match_of (first :: rest)))
                               || bool_decide
                                    (is_Some (split_text_of fm (first :: rest)))
                               || bool_decide (is_Some keyword))
                              true
                              (bool_decide
                                 (is_Some
                                    (numeric_pattern
                                       (full_text (first :: rest))))
                               || re_match ALPHA_RE (full_text (first :: rest)))
                              (re_match BULLET_RE (full_text (first :: rest)))
                              (most_common (font_size <$> first :: rest))
                              (endswith PERIOD (text_to_classify c6)) c7)
                 else Some c6) = Some c8 ∧ committed c8) as (c8 & -> & H8).
  { destruct (is_potential_heading c6) eqn:Hpot6; [|by exists c6].
    destruct (bullet_lookahead_returns
                (re_match BULLET_RE (full_text (first :: rest)))
                (most_common (font_size <$> first :: rest))
                (first :: rest) first next c6 Hnext) as [c7 E7].
    rewrite E7. cbn [mbind option_bind]. eexists. split; [done|].
    eapply acceptance_filter_committed, bullet_lookahead_committed; done. }
  cbn [mbind option_bind]. rewrite andb_true_r.
  destruct (is_potential_heading c8) eqn:Hpot8; cbn [negb].
  - rewrite Hpot8, (H8 Hpot8). cbn [andb].
    pose proof (H8 Hpot8) as Htr.
    destruct (level_candidate c8) as [l|]; [eauto|done].
  - unfold bold_fallback.
    destruct (Nat.ltb_spec (length (full_text (first :: rest))) 150); [|lia].
    rewrite Hperiod. cbn. eauto.
Qed.

End RuleFacts.

(** X16 at "2.1 Data sources." set in 10pt regular with no font map: the
    line is appended at H2 in spite of its size and its final period. *)
Lemma numbered_line_level_witness :
  classify_line (U := ascii_tables) [] []
    [mk_span (lit "2.1 Data sources.") 1000 false false 3 300] None
  = Some (Some (Entry.mk "H2" (lit "2.1 Data sources.") 3)).
Proof.
  apply (numbered_line_level (U := ascii_tables) [] []
           (mk_span (lit "2.1 Data sources.") 1000 false false 3 300) [] None
           (lit "2.1")).
  - vm_compute. reflexivity.
  - vm_compute. reflexivity.
  - vm_compute. congruence.
  - vm_compute. reflexivity.
  - vm_compute. reflexivity.
  - vm_compute. lia.
Defined.

(** X17 at "1.2.3.4 Details" in a 16pt font that the map does not list. *)
Lemma deep_numbered_line_dropped_witness :
  classify_line (U := ascii_tables) [(2000, "H1")] []
    [mk_span (lit "1.2.3.4 Details") 1600 false false 1 300] None
  = Some None.
Proof.
  apply (deep_numbered_line_dropped (U := ascii_tables) [(2000, "H1")] []
           (mk_span (lit "1.2.3.4 Details") 1600 false false 1 300) [] None
           (lit "1.2.3.4")).
  - vm_compute. reflexivity.
  - vm_compute. reflexivity.
  - vm_compute. congruence.
  - vm_compute. reflexivity.
  - vm_compute. reflexivity.
  - vm_compute. lia.
  - vm_compute. reflexivity.
Defined.

(** X18 at a line of 11pt body text, with 11pt mapped to H1. *)
Lemma plain_small_line_rejected_witness :
  classify_line (U := ascii_tables) [(1100, "H1")] []
    [mk_span (lit "Outlines are useful") 1100 false false 1 300] None
  = Some None.
Proof.
  apply (plain_small_line_rejected (U := ascii_tables) [(1100, "H1")] []
           [mk_span (lit "Outlines are useful") 1100 false false 1 300] None).
  - reflexivity.
  - vm_compute. reflexivity.
  - vm_compute. reflexivity.
  - vm_compute. reflexivity.
  - vm_compute. reflexivity.
  - vm_compute. reflexivity.
  - vm_compute. reflexivity.
Defined.

(** X19 at "Keywords: outlines, headings" in 9pt regular. *)
Lemma colon_line_accepted_witness :
  classify_line (U := ascii_tables) [] []
    [mk_span (lit "Keywords: outlines, headings") 900 false false 2 300] None
  = Some (Some (Entry.mk "H3" (lit "Keywords:") 2)).
Proof.
  apply (colon_line_accepted (U := ascii_tables) [] []
           (mk_span (lit "Keywords: outlines, headings") 900 false false 2 300)
           [] None (lit "Keywords:")).
  - vm_compute. reflexivity.
  - vm_compute. reflexivity.
Defined.

(** X20 at "3 Methods" in 10pt regular with no font map. *)
Lemma h1_entry_origin_witness :
  font_level [] (most_common
                   (font_size <$>
                    [mk_span (lit "3 Methods") 1000 false false 1 300]))
  = Some "H1"
  ∨ (∃ group,
       numeric_pattern (U := ascii_tables)
         (full_text (U := ascii_tables)
            [mk_span (lit "3 Methods") 1000 false false 1 300])
       = Some group
       ∧ length (split_on PERIOD group) = 1%nat)
  ∨ re_match (ALPHA_RE (U := ascii_tables))
      (full_text (U := ascii_tables)
         [mk_span (lit "3 Methods") 1000 false false 1 300])
    = true.
Proof.
  apply (h1_entry_origin (U := ascii_tables) [] []
           [mk_span (lit "3 Methods") 1000 false false 1 300] None
           (Entry.mk "H1" (lit "3 Methods") 1)).
  - vm_compute. reflexivity.
  - reflexivity.
Defined.

(** X21 at "Keywords: outlines, headings": the text of the entry is the
    part up to the colon. *)
Lemma entry_text_origin_witness :
  Entry.text (Entry.mk "H3" (lit "Keywords:") 2)
  = full_text (U := ascii_tables)
      [mk_span (lit "Keywords: outlines, headings") 900 false false 2 300]
  ∨ bold_prefix_match_of (U := ascii_tables)
      [mk_span (lit "Keywords: outlines, headings") 900 false false 2 300]
    = Some (Entry.text (Entry.mk "H3" (lit "Keywords:") 2))
  ∨ colon_split (U := ascii_tables)
      (full_text (U := ascii_tables)
         [mk_span (lit "Keywords: outlines, headings") 900 false false 2 300])
    = Some (Entry.text (Entry.mk "H3" (lit "Keywords:") 2))
  ∨ Entry.text (Entry.mk "H3" (lit "Keywords:") 2)
    = strip (U := ascii_tables)
        (bold_segment
           [mk_span (lit "Keywords: outlines, headings") 900 false false 2 300]).1.
Proof.
  apply (entry_text_origin (U := ascii_tables) [] []
           [mk_span (lit "Keywords: outlines, headings") 900 false false 2 300]
           None (Entry.mk "H3" (lit "Keywords:") 2)).
  vm_compute. reflexivity.
Defined.

(** X22 at a bold "Related work" in 9pt, with body text right beneath. *)
Lemma bold_line_accepted_witness :
  ∃ l t,
    classify_line (U := ascii_tables) [] []
      [mk_span (lit "Related work") 900 true false 4 300]
      (Some [mk_span (lit "Much has been written.") 900 false false 4 312])
    = Some (Some (Entry.mk l t 4)).
Proof.
  apply (bold_line_accepted (U := ascii_tables) [] []
           (mk_span (lit "Related work") 900 true false 4 300) []
           (Some [mk_span (lit "Much has been written.") 900 false false 4 312])).
  - reflexivity.
  - vm_compute. congruence.
  - vm_compute. lia.
  - vm_compute. reflexivity.
  - intros group Hg. vm_compute in Hg. congruence.
  - congruence.
Defined.

(** ** From the document to the artifacts *)

Section RunFacts.
Context {U : Unicode} {F : Fitz}.

(** [process_pdf], step by step: the extractor after the title has been
    removed from the first page, the map built for it, and the outline. *)
Lemma process_pdf_run self0 input_pdf_path opened :
  let self1 := (extract_text_elements self0 input_pdf_path opened).1 in
  let t := identify_document_title self1 in
  ∃ self2 headings,
    unique_font_sizes self2 = unique_font_sizes self1
    ∧ heading_font_map self2 = heading_font_map self1
    ∧ (pages_data self2 = pages_data self1
       ∨ ∃ size title_rect first others,
           pages_data self1 = first :: others
           ∧ pages_data self2 = remove_title size title_rect first :: others)
    ∧ identify_headings (_determine_heading_font_map self2 t.1.2)
      = Some headings
    ∧ process_pdf self0 input_pdf_path opened
      = ([Extracting input_pdf_path]
         ++ (extract_text_elements self0 input_pdf_path opened).2
         ++ [IdentifyingHeadings],
         Some (_determine_heading_font_map self2 t.1.2,
               {| title := t.1.1; outline := headings |})).
Proof.
  unfold process_pdf.
  destruct (extract_text_elements self0 input_pdf_path opened)
    as [self1 printed1]. cbn [fst snd].
  destruct (identify_document_title self1)
    as [[title_text title_font_size] title_bbox] eqn:Et. cbn [fst snd].
  set (filtered := match title_text, title_bbox with
                   | _ :: _, Some _ => _ | _, _ => Some self1 end).
  assert (∃ self2, filtered = Some self2
            ∧ unique_font_sizes self2 = unique_font_sizes self1
            ∧ heading_font_map self2 = heading_font_map self1
            ∧ (pages_data self2 = pages_data self1
               ∨ ∃ size title_rect first others,
                   pages_data self1 = first :: others
                   ∧ pages_data self2
                     = remove_title size title_rect first :: others))
    as (self2 & -> & Hsizes & Hmap & Hpages).
  { unfold filtered.
    destruct title_text as [|ch title_text]; [exists self1; auto|].
    destruct title_bbox as [title_rect|]; [|exists self1; auto].
    destruct (title_bbox_has_size _ _ _ _ Et) as [size ->].
    eexists. split; [done|]. cbn [unique_font_sizes heading_font_map pages_data].
    split_and!; [done..|].
    destruct (pages_data self1) as [|first others]; [by left|].
    right. by exists size, title_rect, first, others. }
  destruct (identify_headings_returns
              (_determine_heading_font_map self2 title_font_size))
    as [headings Hh].
  exists self2, headings. split_and!; [done..|].
  cbn [mbind option_bind]. rewrite Hh. done.
Qed.

(** The page of an appended entry is that of the first span of its
    line. *)
Lemma classify_line_page fm text_lower line next e :
  classify_line fm text_lower line next = Some (Some e) →
  ∃ first rest, line = first :: rest ∧ Entry.page e = page first.
Proof.
  intros (first & rest & -> & Hfull & He)%classify_line_appends.
  exists first, rest. split; [done|]. revert He.
  unfold classify_text_line. cbv zeta.
  destruct (if is_potential_heading _ then _ else _) as [c8|]; [|done].
  cbn [mbind option_bind].
  destruct (_ && truthy _); [|done].
  destruct (level_candidate _); [|done]. by intros [= <-].
Qed.

(** The entries appended for the page at index [idx] carry the page number
    [idx + 1]. *)
Lemma classify_page_pages fm idx page_elements entries e :
  Forall (λ sp, page sp = Z.of_nat idx + 1) page_elements →
  classify_page fm page_elements = Some entries → e ∈ entries →
  Entry.page e = Z.of_nat idx + 1.
Proof.
  intros Hpage Hcls Hin. unfold classify_page in Hcls.
  destruct (classify_lines_entries _ _ _ _ _ Hcls Hin)
    as (line & next & Hline & He).
  apply classify_line_page in He as (first & rest & -> & ->).
  destruct (assemble_lines_spec _ page_elements Hpage) as [Hlines _].
  pose proof (proj1 (Forall_forall _ _) Hlines _ Hline) as Hl.
  by apply Forall_cons in Hl as [? _].
Qed.

Lemma all_equal_sorted (pages : list Z) c :
  Forall (λ p, p = c) pages → StronglySorted Z.le pages.
Proof.
  induction 1 as [|p pages -> Hall IH]; constructor; [done|].
  eapply Forall_impl; [exact Hall|]. simpl. lia.
Qed.

Lemma sublist_sorted (l1 l2 : list Z) :
  l1 `sublist_of` l2 → StronglySorted Z.le l2 → StronglySorted Z.le l1.
Proof.
  induction 1 as [|x l1 l2 Hsub IH|x l1 l2 Hsub IH]; intros Hs; [done|..].
  - apply StronglySorted_cons in Hs as [Hx Hs]. constructor; [by apply IH|].
    apply Forall_forall. intros y Hy.
    apply (proj1 (Forall_forall _ _) Hx). by eapply elem_of_sublist.
  - apply StronglySorted_cons in Hs as [_ Hs]. by apply IH.
Qed.

Lemma per_page_sorted (per_page : list (list Entry.t)) : ∀ n : nat,
  (∀ i es e, per_page !! i = Some es → e ∈ es →
             Entry.page e = Z.of_nat (n + i) + 1) →
  StronglySorted Z.le (Entry.page <$> concat per_page)
  ∧ Forall (λ p, Z.of_nat n + 1 ≤ p) (Entry.page <$> concat per_page).
Proof.
  induction per_page as [|es per_page IH]; intros n Hp; simpl.
  { split; constructor. }
  rewrite fmap_app.
  assert (Forall (λ p, p = Z.of_nat n + 1) (Entry.page <$> es)) as Hes.
  { apply Forall_fmap, Forall_forall. intros e He. simpl.
    rewrite (Hp 0%nat es e eq_refl He). f_equal. lia. }
  destruct (IH (S n)) as [Hs Hlow].
  { intros i es' e Hi He. rewrite (Hp (S i) es' e Hi He). lia. }
  split.
  - apply StronglySorted_app_2; [|by eapply all_equal_sorted|done].
    intros x1 x2 H1 H2.
    pose proof (proj1 (Forall_forall _ _) Hes x1 H1) as E1.
    pose proof (proj1 (Forall_forall _ _) Hlow x2 H2) as E2.
    simpl in *. lia.
  - apply Forall_app. split.
    + eapply Forall_impl; [exact Hes|]. simpl. lia.
    + eapply Forall_impl; [exact Hlow|]. simpl. lia.
Qed.

Lemma kept_as_pages out kept :
  Forall2 kept_as out kept → Entry.page <$> out = Entry.page <$> kept.
Proof.
  induction 1 as [|e e0 out kept [->|[_ ->]] _ IH]; [done|..];
    rewrite !fmap_cons; by rewrite IH.
Qed.

(** On pages numbered as [extract_text_elements] numbers them, the outline
    lists its entries page after page. *)
Lemma identify_headings_sorted self out :
  well_extracted (pages_data self) →
  identify_headings self = Some out →
  StronglySorted Z.le (Entry.page <$> out).
Proof.
  intros Hw. unfold identify_headings, candidate_outline.
  destruct (mapM _ _) as [per_page|] eqn:E; [|done]. cbn. intros [= <-].
  apply mapM_Some in E.
  destruct (normalize_from_kept (concat per_page) None [] (-1))
    as (kept & Hsub & Hall).
  rewrite normalize_outline_from, (kept_as_pages _ _ Hall).
  eapply sublist_sorted; [by apply fmap_sublist|].
  apply (per_page_sorted per_page 0). intros i es e Hi He.
  destruct (Forall2_lookup_r _ _ _ _ _ E Hi) as (page_elements & Hp & Hcls).
  eapply classify_page_pages; [|done..].
  eapply Forall_impl; [exact (Hw i page_elements Hp)|]. by intros sp [? _].
Qed.

(** X23: the outline that [process_pdf] returns on a fresh extractor
    lists its entries in the order of their pages: page numbers never
    decrease along the outline. *)
Theorem outline_in_page_order input_pdf_path opened printed self doc :
  process_pdf init input_pdf_path opened = (printed, Some (self, doc)) →
  StronglySorted Z.le (Entry.page <$> outline doc).
Proof.
  intros Hrun.
  destruct (process_pdf_spec init input_pdf_path opened printed self doc)
    as (Hw & _ & Hout); [by intros [|?] ?|done|done|].
  by eapply identify_headings_sorted.
Qed.


(** *** Documents without text *)

Lemma classify_page_nil fm : classify_page fm [] = Some [].
Proof. reflexivity. Qed.

Lemma mapM_classify_empty fm (pages : list (list span)) :
  Forall (λ page_elements, page_elements = []) pages →
  mapM (classify_page fm) pages = Some (replicate (length pages) []).
Proof.
  induction 1 as [|p pages -> _ IH]; [done|].
  cbn. rewrite IH. done.
Qed.

Lemma concat_replicate_nil {A} n : concat (replicate n (@nil A)) = [].
Proof. induction n; simpl; auto. Qed.

Lemma imap_page_elements_empty (doc : raw_doc) : ∀ f : nat → nat,
  Forall (λ p, page_spans p = []) doc →
  Forall (λ page_elements, page_elements = [])
    (imap (λ n, page_elements_of (f n)) doc).
Proof.
  induction doc as [|p doc IH]; intros f Hdoc; [constructor|].
  apply Forall_cons in Hdoc as [Hp Hdoc]. rewrite imap_cons. constructor.
  - unfold page_elements_of. by rewrite Hp.
  - apply (IH (f ∘ S) Hdoc).
Qed.

(** X24: a document that opens but has no text span in a text block on any
    page (scanned pages, pictures only, or no page at all) gets the title
    "Untitled Document" and an empty outline. *)
Theorem textless_document input_pdf_path doc :
  Forall (λ p, page_spans p = []) doc →
  ∃ self,
    process_pdf init input_pdf_path (Some doc)
    = ([Extracting input_pdf_path; IdentifyingHeadings],
       Some (self, {| title := UNTITLED; outline := [] |})).
Proof.
  intros Hdoc.
  assert (Forall (λ page_elements, page_elements = [])
            (imap page_elements_of doc)) as Hpages
    by apply (imap_page_elements_empty doc id Hdoc).
  destruct (process_pdf_run init input_pdf_path (Some doc))
    as (self2 & headings & _ & _ & Hp2 & Hh & ->).
  cbn [extract_text_elements fst snd pages_data] in *.
  set (pages := imap page_elements_of doc) in *.
  set (self1 := {| pages_data := pages; unique_font_sizes := _;
                   heading_font_map := _ |}) in *.
  assert (identify_document_title self1 = (UNTITLED, None, None)) as Ht.
  { unfold identify_document_title, self1. cbn [pages_data].
    clearbody pages. clear -Hpages. by destruct Hpages as [|p ps -> _]. }
  rewrite Ht in *. cbn [fst snd] in *.
  assert (pages_data self2 = pages) as Hp.
  { destruct Hp2 as [->|(size & r & first & others & E1 & E2)]; [done|].
    cbn [pages_data self1] in E1. rewrite E2, E1. f_equal.
    rewrite E1 in Hpages. apply Forall_cons in Hpages as [-> _]. done. }
  eexists. do 3 f_equal.
  unfold identify_headings, candidate_outline in Hh.
  rewrite determined_pages, Hp, (mapM_classify_empty _ _ Hpages) in Hh.
  cbn in Hh. rewrite concat_replicate_nil in Hh. by injection Hh as <-.
Qed.

(** *** What [process_pdf] does to the pages *)

(** X25: [process_pdf] hands to the classifier the pages as extracted,
    except that elements may have been removed from the first one (the
    title): the other pages are untouched, and nothing is added or
    reordered. *)
Theorem only_first_page_filtered input_pdf_path doc printed self out :
  process_pdf init input_pdf_path (Some doc) = (printed, Some (self, out)) →
  Forall2 sublist (pages_data self) (imap page_elements_of doc)
  ∧ tail (pages_data self) = tail (imap page_elements_of doc).
Proof.
  destruct (process_pdf_run init input_pdf_path (Some doc))
    as (self2 & headings & _ & _ & Hp2 & _ & ->).
  intros [= _ <- _]. rewrite determined_pages.
  cbn [extract_text_elements fst pages_data] in Hp2.
  destruct Hp2 as [->|(size & r & first & others & -> & ->)].
  - split; [|done]. apply Forall2_same_length_lookup_2; [done|].
    by intros i x y -> [= ->].
  - split; [|done]. constructor.
    + apply sublist_filter.
    + apply Forall2_same_length_lookup_2; [done|]. by intros i x y -> [= ->].
Qed.

(** X26: no size that [process_pdf] gives a level is within 0.1pt of the
    largest font size of the first page (the size of the title), when that
    size is positive. *)
Theorem largest_first_page_size_not_mapped input_pdf_path first_page others
    printed self out k l :
  process_pdf init input_pdf_path (Some (first_page :: others))
  = (printed, Some (self, out)) →
  0 < max_font_size_of (page_elements_of 0 first_page) →
  (k, l) ∈ heading_font_map self →
  10 ≤ Z.abs (k - max_font_size_of (page_elements_of 0 first_page)).
Proof.
  destruct (process_pdf_run init input_pdf_path (Some (first_page :: others)))
    as (self2 & headings & _ & Hmap & _ & _ & ->).
  intros [= _ <- _] Hpos Hin.
  cbn [extract_text_elements fst pages_data heading_font_map init] in *.
  set (self1 := {| pages_data := _; unique_font_sizes := _;
                   heading_font_map := [] |}) in *.
  rewrite (title_font_size_of self1 (page_elements_of 0 first_page)
             (imap (page_elements_of ∘ S) others) eq_refl) in Hin.
  destruct (Z.eqb_spec (max_font_size_of (page_elements_of 0 first_page)) 0);
    [lia|].
  destruct (determined_map_ranked self2
              (Some (max_font_size_of (page_elements_of 0 first_page))) Hmap)
    as (st & Hm & Hst).
  rewrite Hm in Hin.
  destruct (ranked_entries _ st k l Hst Hin) as ((_ & Hex) & _).
  simpl in Hex. by apply Z.ltb_ge in Hex.
Qed.

(** The sizes that [extract_text_elements] records for a document it can
    open are the sizes already recorded and the rounded sizes of the spans
    in the text blocks of the document; spans of other blocks are not
    looked at. *)
Lemma recorded_sizes self pdf_path doc fs :
  fs ∈ unique_font_sizes (extract_text_elements self pdf_path (Some doc)).1
  ↔ fs ∈ unique_font_sizes self
    ∨ ∃ p b ln sp, p ∈ doc ∧ b ∈ p ∧ block_type b = 0
        ∧ ln ∈ block_lines b ∧ sp ∈ line_spans ln
        ∧ round2 (span_size sp) = fs.
Proof.
  cbn [extract_text_elements fst unique_font_sizes].
  rewrite elem_of_union, elem_of_list_to_set, list_elem_of_fmap.
  apply or_iff_compat_l. split.
  - intros (el & -> & Hel).
    apply list_elem_of_In, in_concat in Hel as (els & Hels & Hel).
    apply list_elem_of_In in Hels, Hel.
    apply elem_of_lookup_imap in Hels as (i & p & -> & Hp).
    unfold page_elements_of in Hel.
    apply list_elem_of_fmap in Hel as ([ln sp] & -> & Hsp).
    unfold page_spans in Hsp.
    apply list_elem_of_bind in Hsp as (b & Hb & Hbp).
    destruct (Z.eqb_spec (block_type b) 0) as [Ht|];
      [|by apply elem_of_nil in Hb].
    apply list_elem_of_bind in Hb as (ln' & Hsp & Hln).
    apply list_elem_of_fmap in Hsp as (sp' & [= -> ->] & Hsp).
    exists p, b, ln', sp'. split_and!; [|done..].
    by eapply list_elem_of_lookup_2.
  - intros (p & b & ln & sp & Hp & Hb & Ht & Hln & Hsp & <-).
    apply list_elem_of_lookup in Hp as [i Hp].
    exists (element_of i ln sp). split; [done|].
    apply list_elem_of_In, in_concat. exists (page_elements_of i p).
    split; apply list_elem_of_In.
    + by apply elem_of_lookup_imap_2.
    + unfold page_elements_of. apply list_elem_of_fmap.
      exists (ln, sp). split; [done|].
      unfold page_spans. apply list_elem_of_bind. exists b. split; [|done].
      rewrite Ht. simpl. apply list_elem_of_bind. exists ln. split; [|done].
      apply list_elem_of_fmap. by exists sp.
Qed.


(** X27: every size that [process_pdf] gives a level is the rounded size
    of a span in a text block of the document, and is at least 10.0pt:
    the map never holds a size the document does not use. *)
Theorem mapped_sizes_occur input_pdf_path doc printed self out k l :
  process_pdf init input_pdf_path (Some doc) = (printed, Some (self, out)) →
  (k, l) ∈ heading_font_map self →
  1000 ≤ k
  ∧ ∃ p b ln sp, p ∈ doc ∧ b ∈ p ∧ block_type b = 0
      ∧ ln ∈ block_lines b ∧ sp ∈ line_spans ln
      ∧ round2 (span_size sp) = k.
Proof.
  destruct (process_pdf_run init input_pdf_path (Some doc))
    as (self2 & headings & Hsizes & Hmap & _ & _ & ->).
  intros [= _ <- _] Hin.
  set (exclude := (identify_document_title _).1.2) in *.
  destruct (determined_map_ranked self2 exclude Hmap) as (st & Hm & Hst).
  rewrite Hm in Hin.
  destruct (ranked_entries _ st k l Hst Hin) as (((Hk & Hbig) & _) & _).
  split; [done|]. rewrite Hsizes in Hk.
  apply recorded_sizes in Hk as [Hk|Hk]; [|done].
  by apply elem_of_empty in Hk.
Qed.

End RunFacts.

(** ** The batch: what [main] writes *)

Section BatchFacts.
Context {U : Unicode} {F : Fitz}.









End BatchFacts.

(** ** Witnesses of the properties of the pipeline and the batch *)

(** X23 at [two_page_doc]: a heading on page 1, then one on page 2. *)
Lemma outline_in_page_order_witness :
  StronglySorted Z.le
    (Entry.page <$> [Entry.mk "H1" (lit "1 Introduction") 1;
                     Entry.mk "H1" (lit "2 Methods") 2]).
Proof.
  apply (outline_in_page_order (U := ascii_tables) (F := plain_rects)
           (lit "input/two.pdf") (Some two_page_doc)
           [Extracting (lit "input/two.pdf"); IdentifyingHeadings]
           two_page_extractor
           {| title := lit "A Study of Outlines";
              outline := [Entry.mk "H1" (lit "1 Introduction") 1;
                          Entry.mk "H1" (lit "2 Methods") 2] |}).
  vm_compute. reflexivity.
Defined.

(** X24 at [picture_doc]. *)
Lemma textless_document_witness :
  ∃ self,
    process_pdf (U := ascii_tables) (F := plain_rects) init
      (lit "input/scan.pdf") (Some picture_doc)
    = ([Extracting (lit "input/scan.pdf"); IdentifyingHeadings],
       Some (self, {| title := UNTITLED; outline := [] |})).
Proof.
  apply (textless_document (U := ascii_tables) (F := plain_rects)
           (lit "input/scan.pdf") picture_doc).
  repeat constructor.
Defined.

(** X25 at [two_page_doc]: the title has left page 1, page 2 is as
    extracted. *)
Lemma only_first_page_filtered_witness :
  Forall2 sublist (pages_data two_page_extractor)
    (imap (page_elements_of (U := ascii_tables)) two_page_doc)
  ∧ tail (pages_data two_page_extractor)
    = tail (imap (page_elements_of (U := ascii_tables)) two_page_doc).
Proof.
  apply (only_first_page_filtered (U := ascii_tables) (F := plain_rects)
           (lit "input/two.pdf") two_page_doc
           [Extracting (lit "input/two.pdf"); IdentifyingHeadings]
           two_page_extractor
           {| title := lit "A Study of Outlines";
              outline := [Entry.mk "H1" (lit "1 Introduction") 1;
                          Entry.mk "H1" (lit "2 Methods") 2] |}).
  vm_compute. reflexivity.
Defined.

(** X26 at [two_page_doc]: the title is set in 24pt, and 16pt is the
    largest size with a level. *)
Lemma largest_first_page_size_not_mapped_witness :
  heading_font_map two_page_extractor = [(1600, "H1"); (1100, "H2")]
  ∧ 10 ≤ Z.abs (1600 - max_font_size_of
                         (page_elements_of (U := ascii_tables) 0
                            [{| block_type := 0;
                                block_lines :=
                                  [mk_raw_line (lit "A Study of Outlines") 24 50;
                                   mk_raw_line (lit "1 Introduction") 16 100;
                                   mk_raw_line (lit "Outlines are useful.") 11
                                     130] |}])).
Proof.
  split; [vm_compute; reflexivity|].
  apply (largest_first_page_size_not_mapped (U := ascii_tables)
           (F := plain_rects) (lit "input/two.pdf")
           [{| block_type := 0;
               block_lines :=
                 [mk_raw_line (lit "A Study of Outlines") 24 50;
                  mk_raw_line (lit "1 Introduction") 16 100;
                  mk_raw_line (lit "Outlines are useful.") 11 130] |}]
           [[{| block_type := 0;
                block_lines :=
                  [mk_raw_line (lit "2 Methods") 16 50;
                   mk_raw_line (lit "We read the fonts.") 11 80] |}]]
           [Extracting (lit "input/two.pdf"); IdentifyingHeadings]
           two_page_extractor
           {| title := lit "A Study of Outlines";
              outline := [Entry.mk "H1" (lit "1 Introduction") 1;
                          Entry.mk "H1" (lit "2 Methods") 2] |}
           1600 "H1").
  - vm_compute. reflexivity.
  - vm_compute. reflexivity.
  - vm_compute. constructor.
Defined.

(** X27 at [two_page_doc]: 16pt, the size of "1 Introduction". *)
Lemma mapped_sizes_occur_witness :
  1000 ≤ 1600
  ∧ ∃ p b ln sp, p ∈ two_page_doc ∧ b ∈ p ∧ block_type b = 0
      ∧ ln ∈ block_lines b ∧ sp ∈ line_spans ln
      ∧ round2 (span_size sp) = 1600.
Proof.
  apply (mapped_sizes_occur (U := ascii_tables) (F := plain_rects)
           (lit "input/two.pdf") two_page_doc
           [Extracting (lit "input/two.pdf"); IdentifyingHeadings]
           two_page_extractor
           {| title := lit "A Study of Outlines";
              outline := [Entry.mk "H1" (lit "1 Introduction") 1;
                          Entry.mk "H1" (lit "2 Methods") 2] |}
           1600 "H1").
  - vm_compute. reflexivity.
  - vm_compute. constructor.
Defined.



